(** * MCQUIZ backend: payment, subscription and feedback handlers

    A shallow embedding of the request handlers of
    [controllers/paymentController.js], the subscription administration
    controller and the sentiment (feedback) controller, together with the
    parts of the Mongoose schemas they rely on, and the properties of the
    specification that concern them.

    Conventions of the embedding.
    - A JavaScript string is a [string]: its characters are read as code
      units below 256 (Latin-1).  [crypto]'s [update] encodes a string in
      UTF-8, which is written out in [utf8].
    - A JavaScript number is written as an integer [Z] or a rational [Q]
      that stands for the exact value of the double.  The handlers' sums,
      products, comparisons and rounded quotients of integers are exact
      as long as the values are safe integers (at most 2^53 - 1); the
      properties that depend on them are stated within that range.
    - A stored document need not satisfy its schema: [save] validates a
      loaded document as a whole, and the properties that need a
      successful [save] say that the stored document is valid.
    - The collections of the document store are lists of records in
      insertion order; every handler is a computation in the monad [M],
      which threads the store and distinguishes a value, a response sent
      with [return res...] and a thrown error.  The [try]/[catch] at the
      boundary of every handler is [handler]. *)

From Stdlib Require Import ZArith List String Ascii Bool Lia QArith Qabs Qround.
From Stdlib Require Import DecimalString DecimalPos DecimalZ Sorted.
Import ListNotations.

Local Open Scope string_scope.
Local Open Scope Z_scope.

(** ** JavaScript strings *)

Module JsString.

Definition code (c : ascii) : Z := Z.of_N (N_of_ascii c).
Definition unit_of (z : Z) : ascii := ascii_of_N (Z.to_N z).

Fixpoint map_units (f : ascii -> ascii) (s : string) : string :=
  match s with
  | EmptyString => EmptyString
  | String c r => String (f c) (map_units f r)
  end.

(** [String.prototype.toLowerCase] on code units below 256: A-Z and the
    Latin-1 capitals (all of 192..222 but the multiplication sign). *)
Definition lower_unit (c : ascii) : ascii :=
  let n := code c in
  if ((65 <=? n) && (n <=? 90)) || ((192 <=? n) && (n <=? 222) && negb (n =? 215))
  then unit_of (n + 32) else c.

Definition toLowerCase : string -> string := map_units lower_unit.

(** [toUpperCase]; the handlers apply it to hexadecimal digests only, so
    the ASCII letters are all that matters. *)
Definition upper_unit (c : ascii) : ascii :=
  let n := code c in
  if (97 <=? n) && (n <=? 122) then unit_of (n - 32) else c.

Definition toUpperCase : string -> string := map_units upper_unit.

(** White space and line terminators below 256: TAB, LF, VT, FF, CR, SP
    and NBSP. *)
Definition isWhiteSpace (c : ascii) : bool :=
  let n := code c in
  ((9 <=? n) && (n <=? 13)) || (n =? 32) || (n =? 160).

Fixpoint trimStart (s : string) : string :=
  match s with
  | String c r => if isWhiteSpace c then trimStart r else s
  | EmptyString => EmptyString
  end.

(** [trimEnd] keeps a character when it is not white space or when
    something is kept after it. *)
Fixpoint trimEnd (s : string) : string :=
  match s with
  | EmptyString => EmptyString
  | String c r =>
      match trimEnd r with
      | EmptyString => if isWhiteSpace c then EmptyString else String c EmptyString
      | r' => String c r'
      end
  end.

Definition trim (s : string) : string := trimEnd (trimStart s).

(** [s.includes(sub)]: [sub] occurs in [s] at some position. *)
Fixpoint includes (s sub : string) : bool :=
  String.prefix sub s ||
  match s with
  | EmptyString => false
  | String _ r => includes r sub
  end.

(** Truthiness of a string: the empty string is falsy. *)
Definition truthy (s : string) : bool :=
  match s with EmptyString => false | _ => true end.

(** Decimal rendering of an integer, as [String(n)] and template
    literals print it. *)
Definition ofZ (z : Z) : string := NilZero.string_of_int (Z.to_int z).

(** *** [parseInt(s)] with no radix

    Leading white space is skipped, a sign is read, [0x]/[0X] selects
    radix 16, and the longest prefix of digits is the value; no digit at
    all gives [NaN], which is [None] here. *)
Definition digitVal (radix : Z) (c : ascii) : option Z :=
  let n := code c in
  let v := if (48 <=? n) && (n <=? 57) then n - 48
           else if (97 <=? n) && (n <=? 122) then n - 87
           else if (65 <=? n) && (n <=? 90) then n - 55
           else 99 in
  if v <? radix then Some v else None.

Fixpoint digits (radix : Z) (acc : option Z) (s : string) : option Z :=
  match s with
  | EmptyString => acc
  | String c r =>
      match digitVal radix c with
      | Some v =>
          digits radix (Some (match acc with Some a => a * radix + v | None => v end)) r
      | None => acc
      end
  end.

Definition stripHexPrefix (s : string) : option string :=
  match s with
  | String "0" (String "x" r) => Some r
  | String "0" (String "X" r) => Some r
  | _ => None
  end.

Definition parseUnsigned (s : string) : option Z :=
  match stripHexPrefix s with
  | Some r => digits 16 None r
  | None => digits 10 None s
  end.

Definition parseInt (s : string) : option Z :=
  match trimStart s with
  | String "-" r => option_map Z.opp (parseUnsigned r)
  | String "+" r => parseUnsigned r
  | t => parseUnsigned t
  end.

(** *** Numbers

    A JavaScript number is a double: [m * 2^e] with [|m| < 2^53] and
    [-1074 <= e <= 971].  The handlers' numbers are written as integers
    or rationals that stand for the exact value of the double;
    [isDouble] says of a rational that it is such a value.  Up to
    [maxSafeInteger] every integer is a double, and sums, products and
    rounded quotients of such integers that stay in that range are
    exact. *)
Definition maxSafeInteger : Z := 2 ^ 53 - 1.

Definition isDouble (x : Q) : bool :=
  let q := Qred x in
  let n := Z.abs (Qnum q) in
  let d := Z.pos (Qden q) in
  (d =? 2 ^ Z.log2 d) && (Z.log2 d <=? 1074)
  && (n / 2 ^ Z.log2 (Z.land n (- n)) <? 2 ^ 53)
  && (Z.log2 n - Z.log2 d <? 1024).

(** *** [String(x)] for a double [x >= 10^21]

    Such a double is an integer.  [String(x)] prints the shortest
    decimal [s * 10^(n-k)], [s] of [k] digits, that converts back to
    [x], the one nearest to [x] if there are several, as
    [d.ddd...e+(n-1)].  [roundsTo x v] says that the integer [v]
    converts to the double [x] (to the nearest double, to the even
    significand on a tie). *)
Definition roundsTo (x v : Z) : bool :=
  let e := Z.log2 x - 52 in
  let m := x / 2 ^ e in
  let up := 2 ^ (e - 1) in
  let down := if m =? 2 ^ 52 then 2 ^ (e - 2) else 2 ^ (e - 1) in
  if Z.even m then (x - down <=? v) && (v <=? x + up)
  else (x - down <? v) && (v <? x + up).

(** The pairs [(s, n)] with [s] of [k] digits, for an [x] of [p] digits *)
Definition candidates (x k p : Z) : list (Z * Z) :=
  flat_map
    (fun j =>
       if j <? 0 then []
       else
         let u := 10 ^ j in
         List.filter
           (fun c => (10 ^ (k - 1) <=? fst c) && (fst c <? 10 ^ k)
                     && roundsTo x (fst c * u))
           [(x / u, j + k); (x / u + 1, j + k)])
    [p - k - 1; p - k; p - k + 1].

Definition nearer (x k : Z) (a b : Z * Z) : Z * Z :=
  let da := Z.abs (fst a * 10 ^ (snd a - k) - x) in
  let db := Z.abs (fst b * 10 ^ (snd b - k) - x) in
  if db <? da then b
  else if (db =? da) && Z.even (fst b) && Z.odd (fst a) then b
  else a.

Fixpoint shortest (fuel : nat) (x k p : Z) : Z * Z :=
  match fuel with
  | O => (x, p)
  | S f =>
      match candidates x k p with
      | [] => shortest f x (k + 1) p
      | c :: cs => fold_left (nearer x k) cs c
      end
  end.

Definition exponential (x : Z) : string :=
  let p := Z.of_nat (String.length (ofZ x)) in
  let '(s, n) := shortest (Z.to_nat p) x 1 p in
  match ofZ s with
  | String d EmptyString => String d EmptyString
  | String d rest => String d ("." ++ rest)
  | EmptyString => EmptyString
  end ++ "e+" ++ ofZ (n - 1).

(** *** [x.toFixed(2)]

    A negative [x] prints the sign and then [-x].  Below 10^21 the
    result is positional: [n] is the integer for which [n / 100 - x] is
    closest to zero, the larger one on a tie, printed with two digits
    after the point.  From 10^21 on the result is [String(x)]. *)
Definition roundHundredths (x : Q) : Z := Qfloor (x * 100 + (1 # 2))%Q.

Definition pad2 (z : Z) : string :=
  if z <? 10 then "0" ++ ofZ z else ofZ z.

Definition toFixed2 (x : Q) : string :=
  let neg := Qlt_le_dec x 0 in
  let a := if neg then (- x)%Q else x in
  (if neg then "-" else "")
  ++ (if Qle_bool (inject_Z (10 ^ 21)) a then exponential (Qfloor a)
      else let n := roundHundredths a in
           ofZ (n / 100) ++ "." ++ pad2 (n mod 100)).

End JsString.

(** ** MD5 (RFC 1321), as [crypto.createHash('md5')] computes it *)

Module MD5.

Definition w32 (x : Z) : Z := x mod 2 ^ 32.
Definition add32 (a b : Z) : Z := w32 (a + b).
Definition not32 (x : Z) : Z := Z.lxor x (Z.ones 32).
Definition rotl32 (x n : Z) : Z :=
  w32 (Z.lor (Z.shiftl x n) (Z.shiftr x (32 - n))).

Definition K : list Z :=
  [3614090360; 3905402710; 606105819; 3250441966;
   4118548399; 1200080426; 2821735955; 4249261313;
   1770035416; 2336552879; 4294925233; 2304563134;
   1804603682; 4254626195; 2792965006; 1236535329;
   4129170786; 3225465664; 643717713; 3921069994;
   3593408605; 38016083; 3634488961; 3889429448;
   568446438; 3275163606; 4107603335; 1163531501;
   2850285829; 4243563512; 1735328473; 2368359562;
   4294588738; 2272392833; 1839030562; 4259657740;
   2763975236; 1272893353; 4139469664; 3200236656;
   681279174; 3936430074; 3572445317; 76029189;
   3654602809; 3873151461; 530742520; 3299628645;
   4096336452; 1126891415; 2878612391; 4237533241;
   1700485571; 2399980690; 4293915773; 2240044497;
   1873313359; 4264355552; 2734768916; 1309151649;
   4149444226; 3174756917; 718787259; 3951481745].

Definition shifts : list Z :=
  [7; 12; 17; 22; 7; 12; 17; 22; 7; 12; 17; 22; 7; 12; 17; 22;
   5; 9; 14; 20; 5; 9; 14; 20; 5; 9; 14; 20; 5; 9; 14; 20;
   4; 11; 16; 23; 4; 11; 16; 23; 4; 11; 16; 23; 4; 11; 16; 23;
   6; 10; 15; 21; 6; 10; 15; 21; 6; 10; 15; 21; 6; 10; 15; 21].

Definition State : Type := (Z * Z * Z * Z)%type.

Definition init : State := (0x67452301, 0xefcdab89, 0x98badcfe, 0x10325476).

Definition round (m : list Z) (st : State) (i : nat) : State :=
  let '(a, b, c, d) := st in
  let iz := Z.of_nat i in
  let '(f, g) :=
    if iz <? 16 then (Z.lor (Z.land b c) (Z.land (not32 b) d), iz)
    else if iz <? 32 then (Z.lor (Z.land d b) (Z.land (not32 d) c), (5 * iz + 1) mod 16)
    else if iz <? 48 then (Z.lxor (Z.lxor b c) d, (3 * iz + 5) mod 16)
    else (Z.lxor c (Z.lor b (not32 d)), (7 * iz) mod 16) in
  let x := add32 (add32 (add32 f a) (nth i K 0)) (nth (Z.to_nat g) m 0) in
  (d, add32 b (rotl32 x (nth i shifts 0)), b, c).

(** Four bytes, least significant first, make a word; and back. *)
Definition word_of (bs : list Z) : Z :=
  fold_right (fun b acc => b + 256 * acc) 0 bs.

Definition bytes_of (n : nat) (w : Z) : list Z :=
  map (fun i => (w / 256 ^ Z.of_nat i) mod 256) (seq 0 n).

Fixpoint words (n : nat) (bs : list Z) : list Z :=
  match n with
  | O => []
  | S n' => word_of (firstn 4 bs) :: words n' (skipn 4 bs)
  end.

Definition block (st : State) (bs : list Z) : State :=
  let '(a0, b0, c0, d0) := st in
  let '(a, b, c, d) := fold_left (round (words 16 bs)) (seq 0 64) st in
  (add32 a0 a, add32 b0 b, add32 c0 c, add32 d0 d).

Definition pad (bs : list Z) : list Z :=
  let len := Z.of_nat (List.length bs) in
  (bs ++ [128] ++ repeat 0 (Z.to_nat ((55 - len) mod 64)) ++ bytes_of 8 (8 * len))%list.

Fixpoint blocks (fuel : nat) (st : State) (bs : list Z) : State :=
  match fuel, bs with
  | S fuel', _ :: _ => blocks fuel' (block st (firstn 64 bs)) (skipn 64 bs)
  | _, _ => st
  end.

Definition digest (bs : list Z) : list Z :=
  let p := pad bs in
  let '(a, b, c, d) := blocks (List.length p) init p in
  (bytes_of 4 a ++ bytes_of 4 b ++ bytes_of 4 c ++ bytes_of 4 d)%list.

Definition hexDigit (z : Z) : ascii :=
  JsString.unit_of (if z <? 10 then 48 + z else 87 + z).

Fixpoint hex (bs : list Z) : string :=
  match bs with
  | [] => EmptyString
  | b :: r => String (hexDigit (b / 16)) (String (hexDigit (b mod 16)) (hex r))
  end.

(** UTF-8 of a string of code units below 256. *)
Fixpoint utf8 (s : string) : list Z :=
  match s with
  | EmptyString => []
  | String c r =>
      let n := JsString.code c in
      if n <? 128 then n :: utf8 r
      else (192 + n / 64) :: (128 + n mod 64) :: utf8 r
  end.

(** [crypto.createHash('md5').update(s).digest('hex')] *)
Definition md5hex (s : string) : string := hex (digest (utf8 s)).

End MD5.

(** ** JavaScript values of a request body

    A field of a form-encoded body is a string or is absent
    ([undefined]).  [+] concatenates as soon as one operand is a string
    and is a numeric addition otherwise, which on two [undefined]s is
    [NaN]. *)

Module Js.

Inductive value : Type :=
| undefined
| NaN
| str (s : string).

Definition ofField (f : option string) : value :=
  match f with Some s => str s | None => undefined end.

Definition toString (v : value) : string :=
  match v with
  | undefined => "undefined"
  | NaN => "NaN"
  | str s => s
  end.

Definition add (a b : value) : value :=
  match a, b with
  | str x, _ => str (x ++ toString b)
  | _, str y => str (toString a ++ y)
  | _, _ => NaN
  end.

(** What a property read on an object literal gives: the value of an own
    property, a member inherited from [Object.prototype] (a function or
    an object: truthy, and not a string), or [undefined]. *)
Inductive property : Type :=
| own (s : string)
| inherited (name : string)
| absent.

Definition objectPrototypeKeys : list string :=
  ["constructor"; "__defineGetter__"; "__defineSetter__"; "hasOwnProperty";
   "__lookupGetter__"; "__lookupSetter__"; "isPrototypeOf";
   "propertyIsEnumerable"; "toString"; "valueOf"; "__proto__";
   "toLocaleString"].

Definition mem (k : string) (l : list string) : bool :=
  existsb (String.eqb k) l.

Fixpoint assoc (k : string) (l : list (string * string)) : option string :=
  match l with
  | [] => None
  | (k', v) :: r => if String.eqb k k' then Some v else assoc k r
  end.

(** [obj[k]] for an object literal with the given own properties. *)
Definition get (obj : list (string * string)) (k : string) : property :=
  match assoc k obj with
  | Some v => own v
  | None => if mem k objectPrototypeKeys then inherited k else absent
  end.

(** [p === s] for a string [s] *)
Definition strictEq (p : property) (s : string) : bool :=
  match p with own v => String.eqb v s | _ => false end.

(** [p || s] *)
Definition orElse (p : property) (s : string) : property :=
  match p with
  | own v => if JsString.truthy v then own v else own s
  | inherited n => inherited n
  | absent => own s
  end.

End Js.

(** ** Documents and the store *)

Definition ObjectId : Type := nat.
Definition Date : Type := Z.

Definition eqb_ostring (a b : option string) : bool :=
  match a, b with
  | Some x, Some y => String.eqb x y
  | None, None => true
  | _, _ => false
  end.

Module Subscription.

(** The subscription schema.  [timestamps: true] adds [createdAt] and
    [updatedAt]. *)
Record t : Type := mk {
  _id : ObjectId;
  userId : ObjectId;
  planType : string;
  startDate : Date;
  endDate : Date;
  paymentId : option string;
  orderId : string;
  amount : Q;
  status : string;
  rejectionReason : option string;
  createdAt : Date;
  updatedAt : Date
}.

Definition planTypes : list string :=
  ["basic"; "Basic"; "School Pro"; "O/L Pro"; "A/L Pro"; "school"; "ol_pro"; "al_pro"].

Definition statuses : list string :=
  ["pending"; "paid"; "success"; "failed"; "canceled"; "chargedback"].

Definition set_paymentId (v : option string) (d : t) : t :=
  mk (_id d) (userId d) (planType d) (startDate d) (endDate d) v (orderId d)
     (amount d) (status d) (rejectionReason d) (createdAt d) (updatedAt d).

Definition set_status (v : string) (d : t) : t :=
  mk (_id d) (userId d) (planType d) (startDate d) (endDate d) (paymentId d)
     (orderId d) (amount d) v (rejectionReason d) (createdAt d) (updatedAt d).

Definition set_rejectionReason (v : option string) (d : t) : t :=
  mk (_id d) (userId d) (planType d) (startDate d) (endDate d) (paymentId d)
     (orderId d) (amount d) (status d) v (createdAt d) (updatedAt d).

Definition set_updatedAt (v : Date) (d : t) : t :=
  mk (_id d) (userId d) (planType d) (startDate d) (endDate d) (paymentId d)
     (orderId d) (amount d) (status d) (rejectionReason d) (createdAt d) v.

(** The paths the handlers assign; a document none of whose paths
    changed is not written by [save]. *)
Definition isModified (loaded d : t) : bool :=
  negb (eqb_ostring (paymentId loaded) (paymentId d)
        && String.eqb (status loaded) (status d)
        && eqb_ostring (rejectionReason loaded) (rejectionReason d)).

(** What [save] validates on a loaded document: every path of it, that
    is, the enumerations of [planType] and [status] and the required
    paths.  A required string must not be empty; [userId], [endDate] and
    [amount] are required as well and are always present in [t]. *)
Definition valid (d : t) : bool :=
  Js.mem (planType d) planTypes
  && Js.mem (status d) statuses
  && JsString.truthy (orderId d).

End Subscription.

Module User.

(** Modelled from the spec: the User schema ([models/model.js]) is not
    among the sources.  A user holds a subscription-level field, and the
    handlers read the name and email fields; saving a user whose
    subscription level was set to a plan type is taken to succeed. *)
Record t : Type := mk {
  _id : ObjectId;
  firstName : option string;
  lastName : option string;
  email : string;
  subscriptionLevel : string
}.

Definition set_subscriptionLevel (v : string) (u : t) : t :=
  mk (_id u) (firstName u) (lastName u) (email u) v.

End User.

Module Feedback.

(** The feedback schema ([models/feedbackModel.js]). *)
Record t : Type := mk {
  _id : ObjectId;
  user : ObjectId;
  feedback : string;
  sentiment : string;
  confidence : Q;
  isActive : bool;
  reviewed : bool;
  reviewedBy : option ObjectId;
  reviewedAt : option Date;
  addressed : bool;
  addressedBy : option ObjectId;
  addressedAt : option Date;
  response : option string;
  priority : string;
  category : string;
  createdAt : Date;
  updatedAt : Date
}.

Definition sentiments : list string := ["positive"; "negative"].

Definition priorities : list string := ["low"; "medium"; "high"].

Definition categories : list string :=
  ["general"; "bug"; "feature_request"; "usability"; "content"; "performance"].

(** What [save] validates on a loaded document: the required text, the
    enumerations of [sentiment], [priority] and [category] and the
    bounds of [confidence].  [user] is required as well and is always
    present in [t]; the Boolean paths, the dates and [response] have no
    validator. *)
Definition valid (d : t) : bool :=
  JsString.truthy (feedback d)
  && Js.mem (sentiment d) sentiments
  && Qle_bool 0 (confidence d)
  && Qle_bool (confidence d) 1
  && Js.mem (priority d) priorities
  && Js.mem (category d) categories.

End Feedback.

Record Store : Type := mkStore {
  subscriptions : list Subscription.t;
  users : list User.t;
  feedbacks : list Feedback.t
}.

Definition with_subscriptions (f : list Subscription.t -> list Subscription.t)
  (s : Store) : Store :=
  mkStore (f (subscriptions s)) (users s) (feedbacks s).

Definition with_users (f : list User.t -> list User.t) (s : Store) : Store :=
  mkStore (subscriptions s) (f (users s)) (feedbacks s).

Definition with_feedbacks (f : list Feedback.t -> list Feedback.t) (s : Store) : Store :=
  mkStore (subscriptions s) (users s) (f (feedbacks s)).

(** A new document gets an identifier that no document of the collection
    has. *)
Definition freshId (ids : list ObjectId) : ObjectId := S (list_max ids).

(** [Model.findById], [Model.findOne]: the first match in natural order *)
Definition findSubscriptionById (id : ObjectId) (l : list Subscription.t) :=
  find (fun d => Nat.eqb (Subscription._id d) id) l.

Definition findSubscriptionByOrderId (o : option string) (l : list Subscription.t) :=
  match o with
  | Some oid => find (fun d => String.eqb (Subscription.orderId d) oid) l
  | None => None
  end.

Definition findUserById (id : ObjectId) (l : list User.t) :=
  find (fun u => Nat.eqb (User._id u) id) l.

(** Writing a loaded document back ([updateOne] by [_id]): the document
    of that [_id] is replaced. *)
Fixpoint replaceSubscription (d : Subscription.t) (l : list Subscription.t)
  : list Subscription.t :=
  match l with
  | [] => []
  | x :: r =>
      if Nat.eqb (Subscription._id x) (Subscription._id d) then d :: r
      else x :: replaceSubscription d r
  end.

Fixpoint replaceUser (u : User.t) (l : list User.t) : list User.t :=
  match l with
  | [] => []
  | x :: r =>
      if Nat.eqb (User._id x) (User._id u) then u :: r
      else x :: replaceUser u r
  end.

(** ** Responses *)

Module PaymentData.
Record t : Type := mk {
  merchant_id : string;
  return_url : string;
  cancel_url : string;
  notify_url : string;
  order_id : string;
  items : string;
  amount : string;
  currency : string;
  first_name : string;
  last_name : string;
  email : string;
  phone : string;
  address : string;
  city : string;
  country : string;
  hash : string;
  custom_1 : ObjectId
}.
End PaymentData.

Record FeedbackView : Type := mkFeedbackView {
  view_id : ObjectId;
  view_text : string;
  view_sentiment : string;
  view_confidence : Q;
  view_createdAt : Date
}.

Record Pagination : Type := mkPagination {
  currentPage : Z;
  totalPages : Z;
  totalItems : Z;
  itemsPerPage : Z
}.

Record AppliedFilters : Type := mkApplied {
  applied_sentiment : string;
  applied_confidence : string;
  applied_dateRange : string;
  applied_sortBy : string;
  applied_sortOrder : string
}.

Inductive Body : Type :=
| Message (message : string)
| Text (text : string)
| PaymentInit (paymentData : PaymentData.t)
| SubscriptionResult (message : string)
    (subscription : option (Subscription.t * option User.t))
| FeedbackSubmitted (message : string) (feedback : FeedbackView)
| FeedbackPage (feedback : list (Feedback.t * option User.t))
    (pagination : Pagination) (applied : AppliedFilters).

Record Response : Type := mkResponse {
  code : Z;
  body : Body
}.

Definition json (c : Z) (m : string) : Response := mkResponse c (Message m).

(** ** Handler computations

    A handler runs against the store.  It ends with a value, with a
    response sent early ([return res.status(..).json(..)]) or with a
    thrown error; whatever was written to the store before stays
    written. *)

Inductive Outcome (A : Type) : Type :=
| Value (a : A)
| Sent (r : Response)
| Thrown (e : string).

Arguments Value {A} a.
Arguments Sent {A} r.
Arguments Thrown {A} e.

Definition M (A : Type) : Type := Store -> Store * Outcome A.

Definition ret {A : Type} (a : A) : M A := fun s => (s, Value a).

Definition bind {A B : Type} (m : M A) (k : A -> M B) : M B :=
  fun s =>
    match m s with
    | (s', Value a) => k a s'
    | (s', Sent r) => (s', Sent r)
    | (s', Thrown e) => (s', Thrown e)
    end.

Definition respond {A : Type} (r : Response) : M A := fun s => (s, Sent r).
Definition throw {A : Type} (e : string) : M A := fun s => (s, Thrown e).
Definition gets {A : Type} (f : Store -> A) : M A := fun s => (s, Value (f s)).
Definition modify (f : Store -> Store) : M unit := fun s => (f s, Value tt).

Declare Scope handler_scope.
Delimit Scope handler_scope with handler.
Notation "x <- m ;; k" := (bind m (fun x => k))
  (at level 61, m at next level, right associativity) : handler_scope.
Notation "m ;; k" := (bind m (fun _ => k))
  (at level 61, right associativity) : handler_scope.
Local Open Scope handler_scope.

(** [try { ... } catch (error) { res.status(500).json({ message }) }] *)
Definition handler (message500 : string) (m : M Response) (s : Store)
  : Store * Response :=
  match m s with
  | (s', Value r) => (s', r)
  | (s', Sent r) => (s', r)
  | (s', Thrown _) => (s', json 500 message500)
  end.

(** ** Saving subscriptions

    [save] on a new document validates it against the schema and inserts
    it (the paths that [initializePayment] does not take from the request
    are constants of the handler).  [save] on a loaded document first
    validates every path of the document, the loaded ones as well as the
    assigned ones, and rejects with a validation error when one of them
    fails; it then writes the document back when one of its paths was
    modified, and [timestamps] sets [updatedAt] on that write. *)

Definition insertSubscription (d : Subscription.t) : M unit :=
  if Js.mem (Subscription.planType d) Subscription.planTypes
     && Js.mem (Subscription.status d) Subscription.statuses
  then modify (with_subscriptions (fun l => l ++ [d])%list)
  else throw "ValidationError".

Definition saveSubscription (now : Date) (loaded d : Subscription.t) : M unit :=
  if Subscription.valid d then
    if Subscription.isModified loaded d
    then modify (with_subscriptions
                   (replaceSubscription (Subscription.set_updatedAt now d)))
    else ret tt
  else throw "ValidationError".

Definition saveUser (u : User.t) : M unit :=
  modify (with_users (replaceUser u)).

(** ** controllers/paymentController.js *)

Record Env : Type := mkEnv {
  PAYHERE_MERCHANT_ID : string;
  PAYHERE_MERCHANT_SECRET : string;
  FRONTEND_URL : string;
  HOST : string;
  PORT : string
}.

(** [req.user], as the authentication middleware leaves it *)
Record AuthUser : Type := mkAuthUser { userId : option ObjectId }.

Definition authenticated (u : option AuthUser) : option ObjectId :=
  match u with
  | Some a => userId a
  | None => None
  end.

Record InitRequest : Type := mkInitRequest {
  init_user : option AuthUser;
  init_planType : string;
  init_amount : Q
}.

(** [crypto.createHash('md5').update(s).digest('hex').toUpperCase()] *)
Definition md5Upper (s : string) : string :=
  JsString.toUpperCase (MD5.md5hex s).

(** The hash of lines 33-38. *)
Definition paymentHash
  (merchantId merchantSecret orderId formattedAmount currency : string) : string :=
  md5Upper ((((merchantId ++ orderId) ++ formattedAmount) ++ currency)
            ++ md5Upper merchantSecret).

Definition orElseEmpty (o : option string) : string :=
  match o with
  | Some s => if JsString.truthy s then s else ""
  | None => ""
  end.

(** [now] is the clock reading of the request and [random1000] the value
    of [Math.floor(Math.random() * 1000)]. *)
Definition initializePayment (env : Env) (now : Date) (random1000 : Z)
  (req : InitRequest) : Store -> Store * Response :=
  handler "Server error during payment initialization" (
    match authenticated (init_user req) with
    | None => respond (json 401 "Authentication required")
    | Some uid =>
        let planType := init_planType req in
        let amount := init_amount req in
        let orderId := "MC-" ++ JsString.ofZ now ++ "-" ++ JsString.ofZ random1000 in
        id <- gets (fun s => freshId (map Subscription._id (subscriptions s))) ;;
        let subscription :=
          Subscription.mk id uid planType now (now + 365 * 24 * 60 * 60 * 1000)
            None orderId amount "pending" None now now in
        insertSubscription subscription ;;
        let merchantId := PAYHERE_MERCHANT_ID env in
        let merchantSecret := PAYHERE_MERCHANT_SECRET env in
        let formattedAmount := JsString.toFixed2 amount in
        let currency := "LKR" in
        let hash := paymentHash merchantId merchantSecret orderId formattedAmount currency in
        user <- gets (fun s => findUserById uid (users s)) ;;
        match user with
        | None => respond (json 404 "User not found")
        | Some user =>
            ret (mkResponse 200 (PaymentInit (PaymentData.mk
              merchantId
              (FRONTEND_URL env ++ "/user-profile?payment=success&order_id=" ++ orderId)
              (FRONTEND_URL env ++ "/user-profile?payment=cancelled&order_id=" ++ orderId)
              (HOST env ++ ":" ++ PORT env ++ "/api/payment/notify")
              orderId
              planType
              formattedAmount
              currency
              (orElseEmpty (User.firstName user))
              (orElseEmpty (User.lastName user))
              (User.email user)
              "" "" ""
              "Sri Lanka"
              hash
              uid)))
        end
    end).

Module Notification.
Record t : Type := mk {
  merchant_id : option string;
  order_id : option string;
  payment_id : option string;
  payhere_amount : option string;
  payhere_currency : option string;
  status_code : option string;
  md5sig : option string;
  custom_1 : option string;
  method : option string
}.
End Notification.

Definition statusMap : list (string * string) :=
  [("2", "success"); ("0", "pending"); ("-1", "canceled"); ("-2", "failed");
   ("-3", "chargedback")].

(** The string that is hashed at lines 92-99, before the hashed secret is
    appended. *)
Definition signedFields (n : Notification.t) : Js.value :=
  Js.add (Js.add (Js.add (Js.add
    (Js.ofField (Notification.merchant_id n))
    (Js.ofField (Notification.order_id n)))
    (Js.ofField (Notification.payhere_amount n)))
    (Js.ofField (Notification.payhere_currency n)))
    (Js.ofField (Notification.status_code n)).

Definition calculatedMd5sig (env : Env) (n : Notification.t) : string :=
  md5Upper (Js.toString
    (Js.add (signedFields n) (Js.str (md5Upper (PAYHERE_MERCHANT_SECRET env))))).

(** [statusMap[status_code]]: the key is the field converted to a
    property key. *)
Definition mappedStatus (n : Notification.t) : Js.property :=
  Js.get statusMap (Js.toString (Js.ofField (Notification.status_code n))).

(** The value assigned to [subscription.status] at lines 127-132. *)
Definition assignedStatus (n : Notification.t) : Js.property :=
  if Js.strictEq (mappedStatus n) "success" then Js.own "paid"
  else Js.orElse (mappedStatus n) "pending".

(** Mongoose casts an assigned value to the path's type: a string is
    kept; a member of [Object.prototype] is no string of the enumeration,
    and the document does not validate. *)
Definition castStatus (p : Js.property) : option string :=
  match p with
  | Js.own s => Some s
  | _ => None
  end.

Definition handlePaymentNotification (env : Env) (now : Date)
  (n : Notification.t) : Store -> Store * Response :=
  handler "Server error during payment notification handling" (
    if negb (eqb_ostring (Some (calculatedMd5sig env n)) (Notification.md5sig n))
    then respond (json 400 "Invalid payment signature")
    else
      found <- gets (fun s =>
        findSubscriptionByOrderId (Notification.order_id n) (subscriptions s)) ;;
      match found with
      | None => respond (json 404 "Subscription not found")
      | Some subscription =>
          let withPayment :=
            Subscription.set_paymentId (Notification.payment_id n) subscription in
          match castStatus (assignedStatus n) with
          | Some st =>
              saveSubscription now subscription (Subscription.set_status st withPayment) ;;
              ret (mkResponse 200 (Text "Payment notification received"))
          | None => throw "ValidationError"
          end
      end).

(** ** The subscription administration controller *)

(** [.populate('userId', 'firstName lastName email subscriptionLevel')] *)
Definition populateUserId (s : Store) (d : Subscription.t)
  : Subscription.t * option User.t :=
  (d, findUserById (Subscription.userId d) (users s)).

Definition approveSubscription (now : Date) (subscriptionId : ObjectId)
  : Store -> Store * Response :=
  handler "Server error" (
    found <- gets (fun s => findSubscriptionById subscriptionId (subscriptions s)) ;;
    match found with
    | None => respond (json 404 "Subscription not found")
    | Some subscription =>
        if negb (Js.mem (Subscription.status subscription) ["pending"; "paid"])
        then respond (json 400 "Only pending or paid subscriptions can be approved")
        else
          saveSubscription now subscription
            (Subscription.set_status "success" subscription) ;;
          user <- gets (fun s => findUserById (Subscription.userId subscription) (users s)) ;;
          match user with
          | Some user =>
              saveUser (User.set_subscriptionLevel (Subscription.planType subscription) user)
          | None => ret tt
          end ;;
          updatedSubscription <- gets (fun s =>
            option_map (populateUserId s)
              (findSubscriptionById subscriptionId (subscriptions s))) ;;
          ret (mkResponse 200
                 (SubscriptionResult "Subscription approved successfully"
                    updatedSubscription))
    end).

Definition rejectSubscription (now : Date) (subscriptionId : ObjectId)
  (reason : option string) : Store -> Store * Response :=
  handler "Server error" (
    found <- gets (fun s => findSubscriptionById subscriptionId (subscriptions s)) ;;
    match found with
    | None => respond (json 404 "Subscription not found")
    | Some subscription =>
        if negb (Js.mem (Subscription.status subscription) ["pending"; "paid"])
        then respond (json 400 "Only pending or paid subscriptions can be rejected")
        else
          let failed := Subscription.set_status "failed" subscription in
          let rejected :=
            match reason with
            | Some r =>
                if JsString.truthy r
                then Subscription.set_rejectionReason (Some r) failed
                else failed
            | None => failed
            end in
          saveSubscription now subscription rejected ;;
          updatedSubscription <- gets (fun s =>
            option_map (populateUserId s)
              (findSubscriptionById subscriptionId (subscriptions s))) ;;
          ret (mkResponse 200
                 (SubscriptionResult "Subscription rejected successfully"
                    updatedSubscription))
    end).

(** ** The sentiment (feedback) controller *)

(** What the external classifier prints: a label and a confidence. *)
Record Prediction : Type := mkPrediction {
  prediction_sentiment : string;
  prediction_confidence : option Q
}.

(** [runSentimentAnalysis]: the promise resolves with a prediction or is
    rejected (the process cannot be started, exits with an error, or
    prints no JSON), which is [None]. *)
Definition Classifier : Type := string -> option Prediction.

Record SubmitRequest : Type := mkSubmitRequest {
  submit_userId : ObjectId;
  submit_feedback : option string
}.

Definition fallbackConfidence : Q := 6 # 10.

(** Lines 70-74. *)
Definition fallbackSentiment (feedback : string) : string :=
  if JsString.includes (JsString.toLowerCase feedback) "good"
     || JsString.includes (JsString.toLowerCase feedback) "great"
     || JsString.includes (JsString.toLowerCase feedback) "excellent"
     || JsString.includes (JsString.toLowerCase feedback) "love"
     || JsString.includes (JsString.toLowerCase feedback) "amazing"
  then "positive" else "negative".

(** [c || 0.6] *)
Definition confidenceOrDefault (c : option Q) : Q :=
  match c with
  | Some q => if Qeq_bool q 0 then fallbackConfidence else q
  | None => fallbackConfidence
  end.

(** [save] of a new feedback document: the schema requires a sentiment of
    the enumeration and a confidence between 0 and 1. *)
Definition insertFeedback (d : Feedback.t) : M unit :=
  if JsString.truthy (Feedback.feedback d)
     && Js.mem (Feedback.sentiment d) Feedback.sentiments
     && Qle_bool 0 (Feedback.confidence d)
     && Qle_bool (Feedback.confidence d) 1
  then modify (with_feedbacks (fun l => l ++ [d])%list)
  else throw "ValidationError".

Definition submitFeedback (runSentimentAnalysis : Classifier) (now : Date)
  (req : SubmitRequest) : Store -> Store * Response :=
  handler "Server error. Please try again." (
    let userId := submit_userId req in
    match submit_feedback req with
    | None => respond (json 400 "Feedback text is required")
    | Some feedback =>
        if negb (JsString.truthy feedback) || negb (JsString.truthy (JsString.trim feedback))
        then respond (json 400 "Feedback text is required")
        else
          user <- gets (fun s => findUserById userId (users s)) ;;
          match user with
          | None => respond (json 404 "User not found")
          | Some _ =>
              let sentimentResult :=
                match runSentimentAnalysis (JsString.trim feedback) with
                | Some p => p
                | None =>
                    mkPrediction (fallbackSentiment feedback) (Some fallbackConfidence)
                end in
              id <- gets (fun s => freshId (map Feedback._id (feedbacks s))) ;;
              let newFeedback :=
                Feedback.mk id userId (JsString.trim feedback)
                  (prediction_sentiment sentimentResult)
                  (confidenceOrDefault (prediction_confidence sentimentResult))
                  true false None None false None None None "medium" "general"
                  now now in
              insertFeedback newFeedback ;;
              ret (mkResponse 201
                     (FeedbackSubmitted "Feedback submitted successfully"
                        (mkFeedbackView (Feedback._id newFeedback)
                           (Feedback.feedback newFeedback)
                           (Feedback.sentiment newFeedback)
                           (Feedback.confidence newFeedback)
                           (Feedback.createdAt newFeedback))))
          end
    end).

(** *** Listing *)

Record ListQuery : Type := mkListQuery {
  query_page : option string;
  query_limit : option string;
  query_filter : option string;
  query_confidence : option string;
  query_dateRange : option string;
  query_sortBy : option string;
  query_sortOrder : option string
}.

(** The clock of a request: the current time, and the local midnight and
    first of the month that [new Date(y, m, d)] computes from it. *)
Record Clock : Type := mkClock {
  clock_now : Date;
  clock_today : Date;
  clock_monthStart : Date
}.

(** [parseInt(x) || d]: [NaN] and 0 are falsy.  The value is the
    integer that the digits denote; [parseInt] returns it as a double,
    which is that integer up to [JsString.maxSafeInteger] and a rounded
    value, or [Infinity], beyond.  What is proved of the numbers of a
    response is proved within that range. *)
Definition parseIntOr (x : option string) (d : Z) : Z :=
  match JsString.parseInt (Js.toString (Js.ofField x)) with
  | Some 0 => d
  | Some n => n
  | None => d
  end.

(** [x || d] on a query string *)
Definition stringOr (x : option string) (d : string) : string :=
  match x with
  | Some s => if JsString.truthy s then s else d
  | None => d
  end.

(** The filter object built at lines 119-161. *)
Record FeedbackFilter : Type := mkFilter {
  filter_sentiment : option string;
  filter_confidence_gte : option Q;
  filter_confidence_lt : option Q;
  filter_createdAt_gte : option Date
}.

Definition buildFilter (clock : Clock) (filter confidenceFilter dateRange : string)
  : FeedbackFilter :=
  let sentiment := if String.eqb filter "all" then None else Some filter in
  let '(gte, lt) :=
    if String.eqb confidenceFilter "high" then (Some (8 # 10), None)
    else if String.eqb confidenceFilter "medium" then (Some (6 # 10), Some (8 # 10))
    else if String.eqb confidenceFilter "low" then (None, Some (6 # 10))
    else (None, None) in
  let startDate :=
    if String.eqb dateRange "today" then Some (clock_today clock)
    else if String.eqb dateRange "week"
         then Some (clock_now clock - 7 * 24 * 60 * 60 * 1000)
    else if String.eqb dateRange "month" then Some (clock_monthStart clock)
    else None in
  mkFilter sentiment gte lt startDate.

Definition matches (q : FeedbackFilter) (d : Feedback.t) : bool :=
  Feedback.isActive d
  && match filter_sentiment q with
     | Some s => String.eqb (Feedback.sentiment d) s
     | None => true
     end
  && match filter_confidence_gte q with
     | Some b => Qle_bool b (Feedback.confidence d)
     | None => true
     end
  && match filter_confidence_lt q with
     | Some b => negb (Qle_bool b (Feedback.confidence d))
     | None => true
     end
  && match filter_createdAt_gte q with
     | Some t => t <=? Feedback.createdAt d
     | None => true
     end.

(** The order of the database on the values of one path: a path that
    is not set sorts before every value, [false] before [true], strings
    by their code units. *)
Definition compareOption {A : Type} (cmp : A -> A -> comparison) (a b : option A)
  : comparison :=
  match a, b with
  | None, None => Eq
  | None, Some _ => Lt
  | Some _, None => Gt
  | Some x, Some y => cmp x y
  end.

Definition compareBool (a b : bool) : comparison :=
  match a, b with
  | false, true => Lt
  | true, false => Gt
  | _, _ => Eq
  end.

(** Ordering by one path of the schema.  On any other path the
    documents do not differ (none of them has it, or, for the version
    key, all of them have the same value), so that it orders nothing. *)
Definition comparePath (path : string) (a b : Feedback.t) : comparison :=
  if String.eqb path "createdAt" then Feedback.createdAt a ?= Feedback.createdAt b
  else if String.eqb path "updatedAt" then Feedback.updatedAt a ?= Feedback.updatedAt b
  else if String.eqb path "confidence"
       then (Feedback.confidence a ?= Feedback.confidence b)%Q
  else if String.eqb path "sentiment"
       then String.compare (Feedback.sentiment a) (Feedback.sentiment b)
  else if String.eqb path "feedback"
       then String.compare (Feedback.feedback a) (Feedback.feedback b)
  else if String.eqb path "priority"
       then String.compare (Feedback.priority a) (Feedback.priority b)
  else if String.eqb path "category"
       then String.compare (Feedback.category a) (Feedback.category b)
  else if String.eqb path "_id"
       then Nat.compare (Feedback._id a) (Feedback._id b)
  else if String.eqb path "user"
       then Nat.compare (Feedback.user a) (Feedback.user b)
  else if String.eqb path "isActive"
       then compareBool (Feedback.isActive a) (Feedback.isActive b)
  else if String.eqb path "reviewed"
       then compareBool (Feedback.reviewed a) (Feedback.reviewed b)
  else if String.eqb path "reviewedBy"
       then compareOption Nat.compare (Feedback.reviewedBy a) (Feedback.reviewedBy b)
  else if String.eqb path "reviewedAt"
       then compareOption Z.compare (Feedback.reviewedAt a) (Feedback.reviewedAt b)
  else if String.eqb path "addressed"
       then compareBool (Feedback.addressed a) (Feedback.addressed b)
  else if String.eqb path "addressedBy"
       then compareOption Nat.compare (Feedback.addressedBy a) (Feedback.addressedBy b)
  else if String.eqb path "addressedAt"
       then compareOption Z.compare (Feedback.addressedAt a) (Feedback.addressedAt b)
  else if String.eqb path "response"
       then compareOption String.compare (Feedback.response a) (Feedback.response b)
  else Eq.

Definition before (path : string) (ascending : bool) (a b : Feedback.t) : bool :=
  match (if ascending then comparePath path a b else comparePath path b a) with
  | Gt => false
  | _ => true
  end.

Fixpoint insertSorted (le : Feedback.t -> Feedback.t -> bool) (x : Feedback.t)
  (l : list Feedback.t) : list Feedback.t :=
  match l with
  | [] => [x]
  | y :: r => if le x y then x :: l else y :: insertSorted le x r
  end.

Definition sortBy (path : string) (ascending : bool) (l : list Feedback.t)
  : list Feedback.t :=
  fold_right (insertSorted (before path ascending)) [] l.

(** A sort key that names a top-level path.  The database reads "$" as
    the mark of an operator ([$natural] is the order of insertion or its
    reverse) and "." as the separator of embedded fields, and it refuses
    some keys that contain them; [sortBy] is the order for a plain key,
    and what is proved of the answer to a listing is proved for plain
    keys. *)
Fixpoint plainPath (s : string) : bool :=
  match s with
  | EmptyString => true
  | String c r =>
      negb (Ascii.eqb c "$") && negb (Ascii.eqb c ".") && negb (Ascii.eqb c "000")
      && plainPath r
  end.

(** [.skip(skip).limit(limit)]: the server rejects a negative skip; the
    driver sends the absolute value of a negative limit; limit 0 is no
    limit. *)
Definition skipLimit {A : Type} (skip limit : Z) (l : list A) : option (list A) :=
  if skip <? 0 then None
  else
    let rest := skipn (Z.to_nat skip) l in
    Some (if limit =? 0 then rest else firstn (Z.to_nat (Z.abs limit)) rest).

(** [Math.ceil(a / b)] *)
Definition ceilDiv (a b : Z) : Z := - ((- a) / b).

Definition getAllFeedback (clock : Clock) (query : ListQuery)
  : Store -> Store * Response :=
  handler "Server error. Please try again." (
    let page := parseIntOr (query_page query) 1 in
    let limit := parseIntOr (query_limit query) 10 in
    let skip := (page - 1) * limit in
    let filter := stringOr (query_filter query) "all" in
    let confidenceFilter := stringOr (query_confidence query) "all" in
    let dateRange := stringOr (query_dateRange query) "all" in
    let sortBy_ := stringOr (query_sortBy query) "createdAt" in
    let sortOrder := stringOr (query_sortOrder query) "desc" in
    let q := buildFilter clock filter confidenceFilter dateRange in
    found <- gets (fun s =>
      skipLimit skip limit
        (sortBy sortBy_ (String.eqb sortOrder "asc") (List.filter (matches q) (feedbacks s)))) ;;
    total <- gets (fun s => Z.of_nat (List.length (List.filter (matches q) (feedbacks s)))) ;;
    match found with
    | None => throw "MongoServerError"
    | Some feedback =>
        populated <- gets (fun s =>
          map (fun d => (d, findUserById (Feedback.user d) (users s))) feedback) ;;
        let totalPages := ceilDiv total limit in
        ret (mkResponse 200
               (FeedbackPage populated
                  (mkPagination page totalPages total limit)
                  (mkApplied filter confidenceFilter dateRange sortBy_ sortOrder)))
    end).

(** ** The handlers that answer with a payload of their own

    [Delivered a] is [res.status(200).json(a)] at the end of a handler;
    every other way out is a [Response] as before. *)

Inductive Reply (A : Type) : Type :=
| Delivered (payload : A)
| Refused (r : Response).

Arguments Delivered {A} payload.
Arguments Refused {A} r.

Definition handlerOf {A : Type} (message500 : string) (m : M A) (s : Store)
  : Store * Reply A :=
  match m s with
  | (s', Value a) => (s', Delivered a)
  | (s', Sent r) => (s', Refused r)
  | (s', Thrown _) => (s', Refused (json 500 message500))
  end.

(** *** controllers/paymentController.js, lines 143-280 *)

(** [.sort({ createdAt: -1 })] on subscriptions: a stable insertion
    sort, newest first. *)
Fixpoint insertNewest (x : Subscription.t) (l : list Subscription.t)
  : list Subscription.t :=
  match l with
  | [] => [x]
  | y :: r =>
      if Subscription.createdAt y <=? Subscription.createdAt x then x :: l
      else y :: insertNewest x r
  end.

Definition newestFirst (l : list Subscription.t) : list Subscription.t :=
  fold_right insertNewest [] l.

(** [Subscription.findOne(filter).sort({ createdAt: -1 })] *)
Definition findNewest (p : Subscription.t -> bool) (l : list Subscription.t)
  : option Subscription.t :=
  hd_error (newestFirst (List.filter p l)).

(** [{ userId, status: 'success', endDate: { $gt: new Date() } }] *)
Definition isActiveFor (uid : ObjectId) (now : Date) (d : Subscription.t) : bool :=
  Nat.eqb (Subscription.userId d) uid
  && String.eqb (Subscription.status d) "success"
  && (now <? Subscription.endDate d).


(** [{ userId, status: { $in: ['pending', 'paid'] } }] *)
Definition isOpenFor (uid : ObjectId) (d : Subscription.t) : bool :=
  Nat.eqb (Subscription.userId d) uid
  && Js.mem (Subscription.status d) ["pending"; "paid"].

(** [{ userId, status: 'failed' }] *)
Definition isFailedFor (uid : ObjectId) (d : Subscription.t) : bool :=
  Nat.eqb (Subscription.userId d) uid && String.eqb (Subscription.status d) "failed".

Record SubscriptionInfo : Type := mkSubscriptionInfo {
  info_subscription : option Subscription.t;
  info_currentLevel : string
}.

(** [user?.subscriptionLevel || 'Basic'] *)
Definition levelOrBasic (u : option User.t) : string :=
  match u with
  | Some u =>
      if JsString.truthy (User.subscriptionLevel u) then User.subscriptionLevel u
      else "Basic"
  | None => "Basic"
  end.

Definition getUserSubscription (now : Date) (user : option AuthUser)
  : Store -> Store * Reply SubscriptionInfo :=
  handlerOf "Server error" (
    match authenticated user with
    | None => respond (json 401 "Authentication required")
    | Some uid =>
        subscription <- gets (fun s => findNewest (isActiveFor uid now) (subscriptions s)) ;;
        user <- gets (fun s => findUserById uid (users s)) ;;
        ret (mkSubscriptionInfo subscription (levelOrBasic user))
    end).

Record PaymentStatus : Type := mkPaymentStatus {
  payment_status : string;
  payment_planType : string;
  payment_amount : Q;
  payment_createdAt : Date
}.

(** [Subscription.findOne({ orderId, userId })] *)
Definition findOrderOf (uid : ObjectId) (orderId : string) (l : list Subscription.t)
  : option Subscription.t :=
  find (fun d => String.eqb (Subscription.orderId d) orderId
                 && Nat.eqb (Subscription.userId d) uid) l.

Definition checkPaymentStatus (user : option AuthUser) (orderId : string)
  : Store -> Store * Reply PaymentStatus :=
  handlerOf "Server error" (
    match authenticated user with
    | None => respond (json 401 "Authentication required")
    | Some uid =>
        subscription <- gets (fun s => findOrderOf uid orderId (subscriptions s)) ;;
        match subscription with
        | None => respond (json 404 "Payment not found")
        | Some subscription =>
            ret (mkPaymentStatus (Subscription.status subscription)
                   (Subscription.planType subscription)
                   (Subscription.amount subscription)
                   (Subscription.createdAt subscription))
        end
    end).

(** [User.findByIdAndUpdate(id, { subscriptionLevel }, { new: true })]:
    the user of that id is written with the level and returned as
    written; no user of that id gives [null]. *)
Definition findUserByIdAndUpdate (id : ObjectId) (subscriptionLevel : string)
  : M (option User.t) :=
  found <- gets (fun s => findUserById id (users s)) ;;
  match found with
  | None => ret None
  | Some u =>
      let u' := User.set_subscriptionLevel subscriptionLevel u in
      modify (with_users (replaceUser u')) ;;
      ret (Some u')
  end.



Record SubscriptionStatus : Type := mkSubscriptionStatus {
  status_currentLevel : string;
  status_activeSubscription : option Subscription.t;
  status_pendingSubscription : option Subscription.t;
  status_recentRejection : option Subscription.t
}.

Definition getUserSubscriptionStatus (now : Date) (user : option AuthUser)
  : Store -> Store * Reply SubscriptionStatus :=
  handlerOf "Server error" (
    match authenticated user with
    | None => respond (json 401 "Authentication required")
    | Some uid =>
        user <- gets (fun s => findUserById uid (users s)) ;;
        match user with
        | None => respond (json 404 "User not found")
        | Some user =>
            activeSubscription <- gets (fun s =>
              findNewest (isActiveFor uid now) (subscriptions s)) ;;
            pendingSubscription <- gets (fun s =>
              findNewest (isOpenFor uid) (subscriptions s)) ;;
            recentRejection <- gets (fun s =>
              findNewest (isFailedFor uid) (subscriptions s)) ;;
            ret (mkSubscriptionStatus (User.subscriptionLevel user)
                   activeSubscription pendingSubscription recentRejection)
        end
    end).

(** *** The subscription administration controller, lines 256-284 *)

Definition validLevels : list string :=
  ["basic"; "Basic"; "School Pro"; "O/L Pro"; "A/L Pro"; "school"; "ol_pro"; "al_pro"].

(** [validLevels.includes(x)] for a body field *)
Definition includesField (l : list string) (x : option string) : bool :=
  match x with
  | Some s => Js.mem s l
  | None => false
  end.

Record UserUpdate : Type := mkUserUpdate {
  userUpdate_message : string;
  userUpdate_user : User.t
}.

Definition updateUserSubscriptionLevel (userId : ObjectId)
  (subscriptionLevel : option string) : Store -> Store * Reply UserUpdate :=
  handlerOf "Server error" (
    if negb (includesField validLevels subscriptionLevel)
    then respond (json 400 "Invalid subscription level")
    else
      user <- findUserByIdAndUpdate userId (Js.toString (Js.ofField subscriptionLevel)) ;;
      match user with
      | None => respond (json 404 "User not found")
      | Some user =>
          ret (mkUserUpdate "User subscription level updated successfully" user)
      end).

(** *** The sentiment controller, lines 380-439 *)

(** [req.user] with the role that the feedback handlers read *)
Record Requester : Type := mkRequester {
  requester_userId : ObjectId;
  requester_role : option string
}.

Definition isAdminRole (role : option string) : bool :=
  eqb_ostring role (Some "admin").

Record UserFeedbackPage : Type := mkUserFeedbackPage {
  page_feedback : list Feedback.t;
  page_pagination : Pagination
}.

(** [{ user: userId, isActive: true }] *)
Definition ownActive (userId : ObjectId) (d : Feedback.t) : bool :=
  Nat.eqb (Feedback.user d) userId && Feedback.isActive d.

Definition getUserFeedback (userId : ObjectId) (queryPage queryLimit : option string)
  : Store -> Store * Reply UserFeedbackPage :=
  handlerOf "Server error. Please try again." (
    let page := parseIntOr queryPage 1 in
    let limit := parseIntOr queryLimit 5 in
    let skip := (page - 1) * limit in
    found <- gets (fun s =>
      skipLimit skip limit
        (sortBy "createdAt" false (List.filter (ownActive userId) (feedbacks s)))) ;;
    total <- gets (fun s =>
      Z.of_nat (List.length (List.filter (ownActive userId) (feedbacks s)))) ;;
    match found with
    | None => throw "MongoServerError"
    | Some feedback =>
        let totalPages := ceilDiv total limit in
        ret (mkUserFeedbackPage feedback (mkPagination page totalPages total limit))
    end).

Definition findFeedbackById (id : ObjectId) (l : list Feedback.t) : option Feedback.t :=
  find (fun d => Nat.eqb (Feedback._id d) id) l.

Fixpoint replaceFeedback (d : Feedback.t) (l : list Feedback.t) : list Feedback.t :=
  match l with
  | [] => []
  | x :: r =>
      if Nat.eqb (Feedback._id x) (Feedback._id d) then d :: r
      else x :: replaceFeedback d r
  end.

(** [feedback.isActive = false; await feedback.save()]: [save] validates
    the loaded document ([isActive] itself has no validator) and then
    writes it, with a new [updatedAt], when the flag was set before. *)
Definition deactivated (now : Date) (d : Feedback.t) : Feedback.t :=
  Feedback.mk (Feedback._id d) (Feedback.user d) (Feedback.feedback d)
    (Feedback.sentiment d) (Feedback.confidence d) false (Feedback.reviewed d)
    (Feedback.reviewedBy d) (Feedback.reviewedAt d) (Feedback.addressed d)
    (Feedback.addressedBy d) (Feedback.addressedAt d) (Feedback.response d)
    (Feedback.priority d) (Feedback.category d) (Feedback.createdAt d) now.

Definition saveDeactivated (now : Date) (loaded : Feedback.t) : M unit :=
  if Feedback.valid loaded then
    if Feedback.isActive loaded
    then modify (with_feedbacks (replaceFeedback (deactivated now loaded)))
    else ret tt
  else throw "ValidationError".

Definition deleteFeedback (now : Date) (requester : Requester) (feedbackId : ObjectId)
  : Store -> Store * Response :=
  handler "Server error. Please try again." (
    let userId := requester_userId requester in
    let userRole := requester_role requester in
    found <- gets (fun s => findFeedbackById feedbackId (feedbacks s)) ;;
    match found with
    | None => respond (json 404 "Feedback not found")
    | Some feedback =>
        if negb (isAdminRole userRole) && negb (Nat.eqb (Feedback.user feedback) userId)
        then respond (json 403 "Access denied")
        else
          saveDeactivated now feedback ;;
          ret (json 200 "Feedback deleted successfully")
    end).

(** *** Bulk update, lines 442-501 *)

(** The object handed to [$set]: the paths it names. *)
Record UpdateQuery : Type := mkUpdateQuery {
  set_isActive : option bool;
  set_reviewed : option bool;
  set_reviewedBy : option ObjectId;
  set_reviewedAt : option Date;
  set_addressed : option bool;
  set_addressedBy : option ObjectId;
  set_addressedAt : option Date;
  set_response : option string
}.

Definition orKeep {A : Type} (new : option A) (old : A) : A :=
  match new with Some v => v | None => old end.

Definition orKeepSome {A : Type} (new : option A) (old : option A) : option A :=
  match new with Some v => Some v | None => old end.

(** [{ $set: updateQuery }] on one document; the schema trims [response]
    and [timestamps] adds [updatedAt] to the update. *)
Definition applySet (now : Date) (u : UpdateQuery) (d : Feedback.t) : Feedback.t :=
  Feedback.mk (Feedback._id d) (Feedback.user d) (Feedback.feedback d)
    (Feedback.sentiment d) (Feedback.confidence d)
    (orKeep (set_isActive u) (Feedback.isActive d))
    (orKeep (set_reviewed u) (Feedback.reviewed d))
    (orKeepSome (set_reviewedBy u) (Feedback.reviewedBy d))
    (orKeepSome (set_reviewedAt u) (Feedback.reviewedAt d))
    (orKeep (set_addressed u) (Feedback.addressed d))
    (orKeepSome (set_addressedBy u) (Feedback.addressedBy d))
    (orKeepSome (set_addressedAt u) (Feedback.addressedAt d))
    (orKeepSome (option_map JsString.trim (set_response u)) (Feedback.response d))
    (Feedback.priority d) (Feedback.category d) (Feedback.createdAt d) now.

Definition eqb_option {A : Type} (eqb : A -> A -> bool) (a b : option A) : bool :=
  match a, b with
  | Some x, Some y => eqb x y
  | None, None => true
  | _, _ => false
  end.

(** The update left the document as it was. *)
Definition sameSettable (a b : Feedback.t) : bool :=
  Bool.eqb (Feedback.isActive a) (Feedback.isActive b)
  && Bool.eqb (Feedback.reviewed a) (Feedback.reviewed b)
  && eqb_option Nat.eqb (Feedback.reviewedBy a) (Feedback.reviewedBy b)
  && eqb_option Z.eqb (Feedback.reviewedAt a) (Feedback.reviewedAt b)
  && Bool.eqb (Feedback.addressed a) (Feedback.addressed b)
  && eqb_option Nat.eqb (Feedback.addressedBy a) (Feedback.addressedBy b)
  && eqb_option Z.eqb (Feedback.addressedAt a) (Feedback.addressedAt b)
  && eqb_ostring (Feedback.response a) (Feedback.response b)
  && (Feedback.updatedAt a =? Feedback.updatedAt b).

(** [{ _id: { $in: feedbackIds }, isActive: true }] *)
Definition selected (feedbackIds : list ObjectId) (d : Feedback.t) : bool :=
  existsb (Nat.eqb (Feedback._id d)) feedbackIds && Feedback.isActive d.

(** [Feedback.updateMany(filter, { $set })]: every matching document is
    updated; [modifiedCount] counts the documents that changed. *)
Definition updateMany (now : Date) (p : Feedback.t -> bool) (u : UpdateQuery) : M Z :=
  modifiedCount <- gets (fun s =>
    Z.of_nat (List.length
      (List.filter (fun d => p d && negb (sameSettable d (applySet now u d)))
         (feedbacks s)))) ;;
  modify (with_feedbacks (map (fun d => if p d then applySet now u d else d))) ;;
  ret modifiedCount.

Record BulkResult : Type := mkBulkResult {
  bulk_message : string;
  bulk_updated : Z;
  bulk_total : Z
}.

(** [feedbackIds] is [None] when the field is missing or is not an
    array; [metadataResponse] is [metadata.response]. *)
Definition bulkUpdateFeedback (now : Date) (requester : Requester)
  (feedbackIds : option (list ObjectId)) (action : option string)
  (metadataResponse : option string) : Store -> Store * Reply BulkResult :=
  handlerOf "Server error. Please try again." (
    let userId := requester_userId requester in
    let userRole := requester_role requester in
    match feedbackIds with
    | None => respond (json 400 "Feedback IDs are required")
    | Some [] => respond (json 400 "Feedback IDs are required")
    | Some feedbackIds =>
        if negb (JsString.truthy (orElseEmpty action))
        then respond (json 400 "Action is required")
        else if negb (isAdminRole userRole)
        then respond (json 403 "Access denied. Admin privileges required.")
        else
          let action := orElseEmpty action in
          choice <-
            (if String.eqb action "delete"
             then ret (mkUpdateQuery (Some false) None None None None None None None,
                       "Feedback items deleted successfully")
             else if String.eqb action "mark_reviewed"
             then ret (mkUpdateQuery None (Some true) (Some userId) (Some now)
                         None None None None,
                       "Feedback items marked as reviewed")
             else if String.eqb action "mark_addressed"
             then ret (mkUpdateQuery None None None None (Some true) (Some userId)
                         (Some now) (Some (orElseEmpty metadataResponse)),
                       "Feedback items marked as addressed")
             else respond (json 400 "Invalid action")) ;;
          let '(updateQuery, message) := choice in
          updated <- updateMany now (selected feedbackIds) updateQuery ;;
          ret (mkBulkResult message updated (Z.of_nat (List.length feedbackIds)))
    end).

(** * Specification-level definitions

    The predicates and functions in which the properties are stated. *)

Definition statusOf (id : ObjectId) (s : Store) : option string :=
  option_map Subscription.status (findSubscriptionById id (subscriptions s)).

Definition statusOfOrder (o : option string) (s : Store) : option string :=
  option_map Subscription.status (findSubscriptionByOrderId o (subscriptions s)).

Definition verified (env : Env) (n : Notification.t) : Prop :=
  Notification.md5sig n = Some (calculatedMd5sig env n).



(** The digest is printed with the digits 0-9 and a-f, on which
    [toUpperCase] loses nothing. *)
Definition lowerHexUnit (c : ascii) : bool :=
  let n := JsString.code c in
  ((48 <=? n) && (n <=? 57)) || ((97 <=? n) && (n <=? 102)).

Fixpoint lowerHex (s : string) : bool :=
  match s with
  | EmptyString => true
  | String c r => lowerHexUnit c && lowerHex r
  end.

(** The string handed to [update] at lines 92-99. *)
Definition signedString (env : Env) (n : Notification.t) : string :=
  Js.toString (Js.add (signedFields n)
                 (Js.str (md5Upper (PAYHERE_MERCHANT_SECRET env)))).

(** The text of the payload that is signed: merchant id, order id,
    amount, currency and status code one after the other, a missing
    field reading "undefined". *)
Definition signedText (n : Notification.t) : string :=
  Js.toString (signedFields n).

(** The second payload keeps the merchant id, the order id and the
    signature of the first, and differs in the amount, the currency or
    the status code. *)
Definition tampered (p q : Notification.t) : Prop :=
  Notification.merchant_id q = Notification.merchant_id p
  /\ Notification.order_id q = Notification.order_id p
  /\ Notification.md5sig q = Notification.md5sig p
  /\ (Notification.payhere_amount q <> Notification.payhere_amount p
      \/ Notification.payhere_currency q <> Notification.payhere_currency p
      \/ Notification.status_code q <> Notification.status_code p).

(** The same, with exactly one of the three fields changed from one
    string to another. *)
Inductive tamperedOne (p q : Notification.t) : Prop :=
| tamperedAmount a b :
    Notification.payhere_amount p = Some a ->
    Notification.payhere_amount q = Some b -> a <> b ->
    Notification.payhere_currency q = Notification.payhere_currency p ->
    Notification.status_code q = Notification.status_code p ->
    tamperedOne p q
| tamperedCurrency a b :
    Notification.payhere_currency p = Some a ->
    Notification.payhere_currency q = Some b -> a <> b ->
    Notification.payhere_amount q = Notification.payhere_amount p ->
    Notification.status_code q = Notification.status_code p ->
    tamperedOne p q
| tamperedStatusCode a b :
    Notification.status_code p = Some a ->
    Notification.status_code q = Some b -> a <> b ->
    Notification.payhere_amount q = Notification.payhere_amount p ->
    Notification.payhere_currency q = Notification.payhere_currency p ->
    tamperedOne p q.

Definition open (status : string) : Prop := status = "pending" \/ status = "paid".

(** The document [approveSubscription] writes. *)
Definition approved (now : Date) (d : Subscription.t) : Subscription.t :=
  Subscription.set_updatedAt now (Subscription.set_status "success" d).

(** The document [rejectSubscription] writes. *)
Definition rejected (now : Date) (reason : option string) (d : Subscription.t)
  : Subscription.t :=
  Subscription.set_updatedAt now
    (match reason with
     | Some r =>
         if JsString.truthy r
         then Subscription.set_rejectionReason (Some r)
                (Subscription.set_status "failed" d)
         else Subscription.set_status "failed" d
     | None => Subscription.set_status "failed" d
     end).

Definition copyLevel (d : Subscription.t) (s : Store) : Store :=
  match findUserById (Subscription.userId d) (users s) with
  | Some u =>
      with_users (replaceUser (User.set_subscriptionLevel (Subscription.planType d) u)) s
  | None => s
  end.

(** Everything in a subscription but [status], [rejectionReason] and
    [updatedAt]. *)
Definition untouched (d : Subscription.t) :=
  (Subscription._id d, Subscription.userId d, Subscription.planType d,
   Subscription.startDate d, Subscription.endDate d, Subscription.paymentId d,
   Subscription.orderId d, Subscription.amount d, Subscription.createdAt d).

Inductive Operation : Type :=
| Notify (n : Notification.t)
| Approve (subscriptionId : ObjectId)
| Reject (subscriptionId : ObjectId) (reason : option string).

(** An operation at a clock reading. *)
Definition step (env : Env) (st : Store) (o : Date * Operation) : Store :=
  match o with
  | (now, Notify n) => fst (handlePaymentNotification env now n st)
  | (now, Approve id) => fst (approveSubscription now id st)
  | (now, Reject id reason) => fst (rejectSubscription now id reason st)
  end.

Definition run (env : Env) (ops : list (Date * Operation)) (st : Store) : Store :=
  fold_left (step env) ops st.

Definition administrative (o : Date * Operation) : Prop :=
  match snd o with
  | Notify _ => False
  | _ => True
  end.






(** The record that [initializePayment] saves. *)
Definition pendingSubscription (st : Store) (now : Date) (random1000 : Z)
  (uid : ObjectId) (req : InitRequest) : Subscription.t :=
  Subscription.mk (freshId (map Subscription._id (subscriptions st))) uid
    (init_planType req) now (now + 365 * 24 * 60 * 60 * 1000) None
    ("MC-" ++ JsString.ofZ now ++ "-" ++ JsString.ofZ random1000)
    (init_amount req) "pending" None now now.

(** [k] occurs in [s]. *)
Definition occurs (k s : string) : Prop := exists a b, s = a ++ k ++ b.

Definition positiveKeywords : list string :=
  ["good"; "great"; "excellent"; "love"; "amazing"].

Definition mentionsPositive (feedback : string) : Prop :=
  exists k, In k positiveKeywords /\ occurs k (JsString.toLowerCase feedback).

(** A prediction that the schema accepts. *)
Definition validPrediction (p : Prediction) : bool :=
  Js.mem (prediction_sentiment p) Feedback.sentiments
  && Qle_bool 0 (confidenceOrDefault (prediction_confidence p))
  && Qle_bool (confidenceOrDefault (prediction_confidence p)) 1.

(** The record that [submitFeedback] saves for a prediction. *)
Definition newFeedback (st : Store) (now : Date) (userId : ObjectId)
  (text : string) (p : Prediction) : Feedback.t :=
  Feedback.mk (freshId (map Feedback._id (feedbacks st))) userId
    (JsString.trim text) (prediction_sentiment p)
    (confidenceOrDefault (prediction_confidence p))
    true false None None false None None None "medium" "general" now now.

Definition submitted (d : Feedback.t) : Response :=
  mkResponse 201
    (FeedbackSubmitted "Feedback submitted successfully"
       (mkFeedbackView (Feedback._id d) (Feedback.feedback d) (Feedback.sentiment d)
          (Feedback.confidence d) (Feedback.createdAt d))).

(** The listing of a request: the filter it applies, and the page that
    it returns. *)
Definition listingFilter (clock : Clock) (query : ListQuery) : FeedbackFilter :=
  buildFilter clock (stringOr (query_filter query) "all")
    (stringOr (query_confidence query) "all")
    (stringOr (query_dateRange query) "all").

Definition matching (clock : Clock) (query : ListQuery) (st : Store) : list Feedback.t :=
  List.filter (matches (listingFilter clock query)) (feedbacks st).

(** The response is a page of at most [limit] matching documents, and
    its pagination reports the count of the matching documents and the
    least number of pages of [limit] items that hold them. *)
Definition pageWithinLimit (clock : Clock) (query : ListQuery) (st : Store) : Prop :=
  let page := parseIntOr (query_page query) 1 in
  let limit := parseIntOr (query_limit query) 10 in
  let total := Z.of_nat (List.length (matching clock query st)) in
  exists items applied,
    getAllFeedback clock query st
    = (st, mkResponse 200
             (FeedbackPage items
                (mkPagination page (ceilDiv total limit) total limit) applied))
    /\ Z.of_nat (List.length items) <= limit
    /\ Forall (fun item => In (fst item) (matching clock query st)) items
    /\ (ceilDiv total limit - 1) * limit < total <= ceilDiv total limit * limit.

(** * Sample data *)

Definition env0 : Env :=
  mkEnv "1211149" "SECRET" "http://localhost:3000" "http://localhost" "3001".

Definition alice : User.t := User.mk 7%nat (Some "Alice") None "alice@example.org" "Basic".

Definition order0 : Subscription.t :=
  Subscription.mk 1%nat 7%nat "O/L Pro" 1000 31536001000 None "MC-1000-42" 2000%Q "pending"
    None 1000 1000.

Definition store0 : Store := mkStore [order0] [alice] [].

(** A stored order whose plan type is none of the schema's. *)
Definition goldStore : Store :=
  mkStore
    [Subscription.mk 1%nat 7%nat "Gold" 1000 31536001000 None "MC-1000-42" 2000%Q
       "pending" None 1000 1000]
    [alice] [].


(** A notification as the provider signs it. *)
Definition notice (env : Env) (order amount currency status : string)
  : Notification.t :=
  let n := Notification.mk (Some (PAYHERE_MERCHANT_ID env)) (Some order)
             (Some "320025071") (Some amount) (Some currency) (Some status)
             None (Some "7") (Some "VISA") in
  Notification.mk (Notification.merchant_id n) (Notification.order_id n)
    (Notification.payment_id n) (Notification.payhere_amount n)
    (Notification.payhere_currency n) (Notification.status_code n)
    (Some (calculatedMd5sig env n)) (Notification.custom_1 n)
    (Notification.method n).


Definition failedNotice : Notification.t :=
  notice env0 "MC-1000-42" "2000.00" "LKR" "-2".

(** The failed notice with its status code turned into the successful
    one. *)
Definition forgedPaidNotice : Notification.t :=
  Notification.mk (Notification.merchant_id failedNotice)
    (Notification.order_id failedNotice) (Notification.payment_id failedNotice)
    (Notification.payhere_amount failedNotice)
    (Notification.payhere_currency failedNotice) (Some "2")
    (Notification.md5sig failedNotice) (Notification.custom_1 failedNotice)
    (Notification.method failedNotice).

(** The failed notice with the sign of its status code moved to the end
    of the currency: the fields differ, their concatenation does not. *)
Definition shiftedPaidNotice : Notification.t :=
  Notification.mk (Notification.merchant_id failedNotice)
    (Notification.order_id failedNotice) (Notification.payment_id failedNotice)
    (Notification.payhere_amount failedNotice)
    (Some "LKR-") (Some "2")
    (Notification.md5sig failedNotice) (Notification.custom_1 failedNotice)
    (Notification.method failedNotice).

Definition adminOps : list (Date * Operation) :=
  [(2000, Approve 1%nat); (3000, Reject 1%nat (Some "late")); (4000, Approve 1%nat)].

Definition emptyStore : Store := mkStore [] [alice] [].

Definition aliceRequest : InitRequest :=
  mkInitRequest (Some (mkAuthUser (Some 7%nat))) "O/L Pro" 2000%Q.


Definition paymentData1 : PaymentData.t :=
  PaymentData.mk "1211149"
    "http://localhost:3000/user-profile?payment=success&order_id=MC-1000-42"
    "http://localhost:3000/user-profile?payment=cancelled&order_id=MC-1000-42"
    "http://localhost:3001/api/payment/notify"
    "MC-1000-42" "O/L Pro" "2000.00" "LKR" "Alice" "" "alice@example.org"
    "" "" "" "Sri Lanka" "22A60000C1623051012E5CAB8AF676BF" 7%nat.

Definition carolRequest : InitRequest :=
  mkInitRequest (Some (mkAuthUser (Some 9%nat))) "A/L Pro" 2500%Q.

(** A classifier that is unavailable. *)
Definition unavailable : Classifier := fun _ => None.

Definition praise : SubmitRequest :=
  mkSubmitRequest 7%nat (Some "  The quizzes are GREAT  ").

Definition clock0 : Clock := mkClock 100000 86400 0.

Definition complaint : SubmitRequest :=
  mkSubmitRequest 7%nat (Some "The timer is broken").

(** Two feedback records, submitted while the classifier was down. *)
Definition store2 : Store :=
  fst (submitFeedback unavailable 9500 complaint
         (fst (submitFeedback unavailable 9000 praise store0))).

Definition firstOfOne : ListQuery :=
  mkListQuery (Some "2") (Some "1") None None None None None.

(** The whole listing, by ascending sentiment. *)
Definition bySentiment : ListQuery :=
  mkListQuery None None None None None (Some "sentiment") (Some "asc").

Definition bySentimentItems : list (Feedback.t * option User.t) :=
  Eval vm_compute in
    match body (snd (getAllFeedback clock0 bySentiment store2)) with
    | FeedbackPage items _ _ => items
    | _ => []
    end.

Definition negativeLimit : ListQuery :=
  mkListQuery (Some "1") (Some "-5") None None None None None.

Definition negativePage : ListQuery :=
  mkListQuery (Some "-1") (Some "10") None None None None None.

(** A classifier whose label is not one of the schema's. *)
Definition neutral : Classifier :=
  fun _ => Some (mkPrediction "neutral" (Some (9 # 10))).

(** ** Definitions for the remaining handlers *)

(** Every subscription has an [_id] of its own. *)
Definition uniqueSubscriptionIds (s : Store) : Prop :=
  NoDup (map Subscription._id (subscriptions s)).

(** Every feedback document has an [_id] of its own. *)
Definition uniqueFeedbackIds (s : Store) : Prop :=
  NoDup (map Feedback._id (feedbacks s)).

(** Every stored feedback document satisfies the schema. *)
Definition validFeedbacks (s : Store) : Prop :=
  Forall (fun d => Feedback.valid d = true) (feedbacks s).

(** Everything in a subscription but [paymentId], [status] and
    [updatedAt]. *)
Definition besidesPayment (d : Subscription.t) :=
  (Subscription._id d, Subscription.userId d, Subscription.planType d,
   Subscription.startDate d, Subscription.endDate d, Subscription.orderId d,
   Subscription.amount d, Subscription.rejectionReason d, Subscription.createdAt d).

(** Everything in a subscription but [status] and [updatedAt]. *)
Definition besidesStatus (d : Subscription.t) :=
  (untouched d, Subscription.rejectionReason d).

(** Everything in a feedback document but [isActive] and [updatedAt]. *)
Definition besidesActive (d : Feedback.t) :=
  (Feedback._id d, Feedback.user d, Feedback.feedback d, Feedback.sentiment d,
   Feedback.confidence d, Feedback.reviewed d, Feedback.reviewedBy d,
   Feedback.reviewedAt d, Feedback.addressed d, Feedback.addressedBy d,
   Feedback.addressedAt d, Feedback.response d, Feedback.priority d,
   Feedback.category d, Feedback.createdAt d).

Definition asUser (uid : ObjectId) : option AuthUser := Some (mkAuthUser (Some uid)).

(** What a user submitted and what the classifier made of it, with the
    triage fields: the paths that no bulk update names. *)
Definition submittedContent (d : Feedback.t) :=
  (Feedback._id d, Feedback.user d, Feedback.feedback d, Feedback.sentiment d,
   Feedback.confidence d, Feedback.priority d, Feedback.category d,
   Feedback.createdAt d).

(** Newest first. *)
Definition newerFirst (a b : Feedback.t) : Prop :=
  Feedback.createdAt b <= Feedback.createdAt a.

(** No hyphen among the code units of [s]. *)
Fixpoint hyphenFree (s : string) : bool :=
  match s with
  | EmptyString => true
  | String c r => negb (Ascii.eqb c "-") && hyphenFree r
  end.



(** Who may delete. *)
Definition mayDelete (requester : Requester) (d : Feedback.t) : bool :=
  isAdminRole (requester_role requester)
  || Nat.eqb (Feedback.user d) (requester_userId requester).

(** ** More sample data *)

Definition author : Requester := mkRequester 7%nat (Some "user").

(** A second initiation, one second after [paymentData1]. *)
Definition paymentData2 : PaymentData.t :=
  Eval vm_compute in
    match snd (initializePayment env0 2000 42 aliceRequest emptyStore) with
    | mkResponse _ (PaymentInit pd) => pd
    | _ => paymentData1
    end.

Definition admin : Requester := mkRequester 3%nat (Some "admin").

(** [bulkUpdateFeedback] with the action "delete", and one
    [deleteFeedback] of the same requester. *)
Definition bulkDelete (now : Date) (requester : Requester) (ids : list ObjectId)
  (st : Store) : Store :=
  fst (bulkUpdateFeedback now requester (Some ids) (Some "delete") None st).

Definition deleteOne (now : Date) (requester : Requester) (st : Store)
  (id : ObjectId) : Store :=
  fst (deleteFeedback now requester id st).

(** What a bulk deletion does to one document. *)
Definition deactivateSelected (now : Date) (ids : list ObjectId) (d : Feedback.t)
  : Feedback.t :=
  if selected ids d then deactivated now d else d.

(** * Properties *)

Arguments md5Upper : simpl never.
Arguments calculatedMd5sig : simpl never.
Arguments paymentHash : simpl never.

(** ** Sample runs of the JavaScript primitives *)

Example md5_empty : MD5.md5hex "" = "d41d8cd98f00b204e9800998ecf8427e".
Proof. vm_compute. reflexivity. Qed.

Example md5_abc : JsString.toUpperCase (MD5.md5hex "abc") = "900150983CD24FB0D6963F7D28E17F72".
Proof. vm_compute. reflexivity. Qed.

Example md5_two_blocks :
  MD5.md5hex "aaaaaaaaaaaaaaaaaaaaaaaaaaaaaaaaaaaaaaaaaaaaaaaaaaaaaaaa"
  = "3b0c8ac703f828b04c6c197006d17218".
Proof. vm_compute. reflexivity. Qed.

Example toFixed2_examples :
  JsString.toFixed2 1500%Q = "1500.00" /\ JsString.toFixed2 (5 # 2) = "2.50" /\
  JsString.toFixed2 (1 # 8) = "0.13" /\ JsString.toFixed2 (- (1 # 1000))%Q = "-0.00" /\
  JsString.toFixed2 (- (7 # 4))%Q = "-1.75"
  /\ JsString.toFixed2 (inject_Z (10 ^ 21 - 2 ^ 17)) = "999999999999999868928.00"
  /\ JsString.toFixed2 (inject_Z (10 ^ 21)) = "1e+21"
  /\ JsString.toFixed2 (inject_Z (- 15 * 10 ^ 20)) = "-1.5e+21"
  /\ JsString.toFixed2 (inject_Z (2 ^ 70)) = "1.1805916207174113e+21"
  /\ JsString.toFixed2 (inject_Z (2 ^ 1024 - 2 ^ 971)) = "1.7976931348623157e+308".
Proof. vm_compute. repeat split. Qed.

Example isDouble_examples :
  JsString.isDouble 2000 = true /\ JsString.isDouble (1 # 8) = true
  /\ JsString.isDouble (inject_Z (10 ^ 21)) = true
  /\ JsString.isDouble (inject_Z (2 ^ 53 + 1)) = false
  /\ JsString.isDouble (1 # 10) = false
  /\ JsString.isDouble (inject_Z (2 ^ 1024)) = false.
Proof. vm_compute. repeat split. Qed.

Example parseInt_examples :
  JsString.parseInt " 42px" = Some 42 /\ JsString.parseInt "-5" = Some (-5) /\
  JsString.parseInt "0x1f" = Some 31 /\ JsString.parseInt "abc" = None /\
  JsString.parseInt "" = None /\ JsString.parseInt "0" = Some 0.
Proof. vm_compute. repeat split. Qed.

Example trim_examples :
  JsString.trim "  a b  " = "a b" /\ JsString.trim "   " = "" /\
  JsString.includes (JsString.toLowerCase "It is GREAT!") "great" = true /\
  JsString.includes "grea" "great" = false.
Proof. vm_compute. repeat split. Qed.

(** ** Lookups and write-back *)


Lemma findSubscriptionById_id id l d :
  findSubscriptionById id l = Some d -> Subscription._id d = id.
Proof.
  unfold findSubscriptionById. intros H.
  apply find_some in H. destruct H as [_ H].
  now apply Nat.eqb_eq in H.
Qed.

Lemma findSubscriptionById_replace_same d l x :
  findSubscriptionById (Subscription._id d) l = Some x ->
  findSubscriptionById (Subscription._id d) (replaceSubscription d l) = Some d.
Proof.
  unfold findSubscriptionById.
  induction l as [|y r IH]; simpl; [discriminate|].
  destruct (Nat.eqb (Subscription._id y) (Subscription._id d)) eqn:E; simpl.
  - intros _. now rewrite Nat.eqb_refl.
  - rewrite E. exact IH.
Qed.

Lemma findSubscriptionById_replace_other id d l :
  id <> Subscription._id d ->
  findSubscriptionById id (replaceSubscription d l) = findSubscriptionById id l.
Proof.
  unfold findSubscriptionById. intros Hne.
  induction l as [|y r IH]; simpl; [reflexivity|].
  destruct (Nat.eqb (Subscription._id y) (Subscription._id d)) eqn:E; simpl.
  - apply Nat.eqb_eq in E.
    destruct (Nat.eqb (Subscription._id d) id) eqn:E1.
    + apply Nat.eqb_eq in E1. congruence.
    + destruct (Nat.eqb (Subscription._id y) id) eqn:E2; [|reflexivity].
      apply Nat.eqb_eq in E2. congruence.
  - destruct (Nat.eqb (Subscription._id y) id); [reflexivity|exact IH].
Qed.

(** After a matched document is written back with its order id kept, the
    order id finds the written document. *)
Lemma findSubscriptionByOrderId_replace o d x l :
  findSubscriptionByOrderId o l = Some x ->
  Subscription._id d = Subscription._id x ->
  Subscription.orderId d = Subscription.orderId x ->
  findSubscriptionByOrderId o (replaceSubscription d l) = Some d.
Proof.
  destruct o as [oid|]; [|discriminate].
  unfold findSubscriptionByOrderId. intros H Hid Ho.
  assert (Hd : String.eqb (Subscription.orderId d) oid = true).
  { apply find_some in H. destruct H as [_ H]. now rewrite Ho. }
  induction l as [|y r IH]; simpl in *; [discriminate|].
  destruct (String.eqb (Subscription.orderId y) oid) eqn:E.
  - injection H as ->. rewrite Hid, Nat.eqb_refl. simpl. now rewrite Hd.
  - destruct (Nat.eqb (Subscription._id y) (Subscription._id d)); simpl.
    + now rewrite Hd.
    + rewrite E. now apply IH.
Qed.

Lemma findUserById_replace_same u l x :
  findUserById (User._id u) l = Some x ->
  findUserById (User._id u) (replaceUser u l) = Some u.
Proof.
  unfold findUserById.
  induction l as [|y r IH]; simpl; [discriminate|].
  destruct (Nat.eqb (User._id y) (User._id u)) eqn:E; simpl.
  - intros _. now rewrite Nat.eqb_refl.
  - rewrite E. exact IH.
Qed.

Lemma findUserById_id id l u : findUserById id l = Some u -> User._id u = id.
Proof.
  unfold findUserById. intros H.
  apply find_some in H. destruct H as [_ H].
  now apply Nat.eqb_eq in H.
Qed.

Lemma eqb_ostring_eq a b : eqb_ostring a b = true <-> a = b.
Proof.
  destruct a, b; simpl; try rewrite String.eqb_eq; split; congruence.
Qed.

Lemma mem_In k l : Js.mem k l = true <-> In k l.
Proof.
  unfold Js.mem. rewrite existsb_exists. split.
  - intros [x [Hin He]]. apply String.eqb_eq in He. now subst.
  - intros H. exists k. split; [exact H|apply String.eqb_refl].
Qed.

(** ** The notification handler, case by case *)

Lemma verified_check env n :
  negb (eqb_ostring (Some (calculatedMd5sig env n)) (Notification.md5sig n)) = false
  <-> verified env n.
Proof.
  unfold verified. rewrite negb_false_iff, eqb_ostring_eq. split; congruence.
Qed.

Lemma notification_rejected env now n st :
  ~ verified env n ->
  handlePaymentNotification env now n st = (st, json 400 "Invalid payment signature").
Proof.
  intros H. unfold handlePaymentNotification, handler.
  destruct (negb _) eqn:E; [reflexivity|].
  apply verified_check in E. contradiction.
Qed.

(** ** Validation on [save] *)

Lemma valid_set_status v d :
  In (Subscription.status d) Subscription.statuses ->
  In v Subscription.statuses ->
  Subscription.valid (Subscription.set_status v d) = Subscription.valid d.
Proof.
  intros Hs Hv. unfold Subscription.valid.
  cbn [Subscription.set_status Subscription.planType Subscription.status
       Subscription.orderId].
  apply mem_In in Hs. apply mem_In in Hv. now rewrite Hs, Hv.
Qed.

Lemma valid_status d :
  Subscription.valid d = true -> In (Subscription.status d) Subscription.statuses.
Proof.
  unfold Subscription.valid. intros H.
  apply andb_prop in H. destruct H as [H _].
  apply andb_prop in H. destruct H as [_ H]. now apply mem_In.
Qed.

Lemma valid_assigned v d :
  Subscription.valid d = true ->
  In v Subscription.statuses ->
  Subscription.valid (Subscription.set_status v d) = true.
Proof.
  intros Hd Hv. rewrite valid_set_status; auto. now apply valid_status.
Qed.

(** The handler, written out. *)
Lemma notification_run env now n st :
  handlePaymentNotification env now n st
  = if negb (eqb_ostring (Some (calculatedMd5sig env n)) (Notification.md5sig n))
    then (st, json 400 "Invalid payment signature")
    else
      match findSubscriptionByOrderId (Notification.order_id n) (subscriptions st) with
      | None => (st, json 404 "Subscription not found")
      | Some sub =>
          match castStatus (assignedStatus n) with
          | None => (st, json 500 "Server error during payment notification handling")
          | Some v =>
              let d := Subscription.set_status v
                         (Subscription.set_paymentId (Notification.payment_id n) sub) in
              if Subscription.valid d
              then ((if Subscription.isModified sub d
                     then with_subscriptions
                            (replaceSubscription (Subscription.set_updatedAt now d)) st
                     else st),
                    mkResponse 200 (Text "Payment notification received"))
              else (st, json 500 "Server error during payment notification handling")
          end
      end.
Proof.
  unfold handlePaymentNotification, handler.
  destruct (negb _); [reflexivity|].
  unfold bind, gets.
  destruct (findSubscriptionByOrderId _ _) as [sub|]; [|reflexivity].
  destruct (castStatus _) as [v|]; [|reflexivity].
  unfold saveSubscription. cbv zeta.
  destruct (Subscription.valid _); [|reflexivity].
  destruct (Subscription.isModified _ _); reflexivity.
Qed.

(** The status a verified notification stores in a schema-valid
    document: the assigned value is always a string of the schema's
    enumeration unless the key is a member of [Object.prototype]. *)
Lemma notification_stores env now n st sub v :
  verified env n ->
  findSubscriptionByOrderId (Notification.order_id n) (subscriptions st) = Some sub ->
  Subscription.valid sub = true ->
  assignedStatus n = Js.own v ->
  In v Subscription.statuses ->
  exists st',
    handlePaymentNotification env now n st
    = (st', mkResponse 200 (Text "Payment notification received"))
    /\ statusOfOrder (Notification.order_id n) st' = Some v
    /\ (st' = st \/
        exists d, st' = with_subscriptions (replaceSubscription d) st
                  /\ Subscription._id d = Subscription._id sub
                  /\ Subscription.status d = v).
Proof.
  intros Hv Hf Hvalid Ha Hin.
  rewrite notification_run.
  apply verified_check in Hv. rewrite Hv, Hf, Ha. cbn [castStatus]. cbv zeta.
  rewrite valid_assigned; [|exact Hvalid|exact Hin].
  destruct (Subscription.isModified _ _) eqn:Hm.
  - eexists. split; [reflexivity|]. split.
    + unfold statusOfOrder. cbn [subscriptions with_subscriptions].
      erewrite findSubscriptionByOrderId_replace; eauto.
    + right. eexists. split; [reflexivity|]. split; reflexivity.
  - exists st. split; [reflexivity|]. split; [|now left].
    unfold statusOfOrder. rewrite Hf. cbn [option_map]. f_equal.
    unfold Subscription.isModified in Hm.
    apply negb_false_iff in Hm.
    apply andb_prop in Hm. destruct Hm as [Hm _].
    apply andb_prop in Hm. destruct Hm as [_ Hm].
    now apply String.eqb_eq in Hm.
Qed.

(** A stored document that does not satisfy the schema is not saved:
    the handlers answer 500 and the store stays as it was. *)
Example invalid_document_not_saved :
  handlePaymentNotification env0 5000 (notice env0 "MC-1000-42" "2000.00" "LKR" "2")
    goldStore
  = (goldStore, json 500 "Server error during payment notification handling")
  /\ approveSubscription 5000 1%nat goldStore = (goldStore, json 500 "Server error")
  /\ rejectSubscription 5000 1%nat (Some "late") goldStore
     = (goldStore, json 500 "Server error").
Proof.
  split; [vm_compute; reflexivity|]. split; vm_compute; reflexivity.
Qed.

(** ** Status codes *)

Lemma int_of_string_ofZ z :
  NilZero.int_of_string (JsString.ofZ z) = Some (Z.to_int z).
Proof.
  unfold JsString.ofZ. apply NilZero.isi; destruct z; simpl; try discriminate;
    intros [= H]; now apply DecimalPos.Unsigned.to_uint_nonnil in H.
Qed.

Lemma ofZ_inj a b : JsString.ofZ a = JsString.ofZ b -> a = b.
Proof.
  intros H.
  assert (E : Some (Z.to_int a) = Some (Z.to_int b))
    by (rewrite <- !int_of_string_ofZ; now rewrite H).
  injection E as E.
  rewrite <- (DecimalZ.of_to a), <- (DecimalZ.of_to b). now rewrite E.
Qed.




(** [statusMap[status_code] === 'success'] singles out the code 2. *)
Lemma mapped_success_iff n :
  Js.strictEq (mappedStatus n) "success" = true
  <-> Notification.status_code n = Some "2".
Proof.
  unfold mappedStatus. split.
  - destruct (Notification.status_code n) as [k|]; [|discriminate].
    cbn [Js.ofField Js.toString]. unfold Js.get, statusMap, Js.assoc.
    destruct (String.eqb_spec k "2") as [->|_]; [reflexivity|].
    repeat (match goal with |- context [String.eqb ?a ?b] =>
                              destruct (String.eqb a b) end;
            try discriminate).
    destruct (Js.mem k Js.objectPrototypeKeys); discriminate.
  - intros ->. reflexivity.
Qed.

(** C1. A notification that passes the signature check and whose status
    code maps to the provider's successful code is acknowledged with
    200, and the subscription matched by its order id, a document that
    satisfies the schema, is stored with status "paid", not "success". *)
Theorem notification_success_marks_paid env now n st sub :
  verified env n ->
  Js.strictEq (mappedStatus n) "success" = true ->
  findSubscriptionByOrderId (Notification.order_id n) (subscriptions st) = Some sub ->
  Subscription.valid sub = true ->
  exists st',
    handlePaymentNotification env now n st
    = (st', mkResponse 200 (Text "Payment notification received"))
    /\ statusOfOrder (Notification.order_id n) st' = Some "paid"
    /\ statusOfOrder (Notification.order_id n) st' <> Some "success".
Proof.
  intros Hv Hs Hf Hvalid.
  destruct (notification_stores env now n st sub "paid" Hv Hf Hvalid)
    as [st' [Hrun [Hst _]]].
  - unfold assignedStatus. now rewrite Hs.
  - simpl. auto.
  - exists st'. rewrite Hst. repeat split; [exact Hrun | discriminate].
Qed.

Lemma notification_success_marks_paid_witness :
  exists st',
    handlePaymentNotification env0 5000 (notice env0 "MC-1000-42" "2000.00" "LKR" "2") store0
    = (st', mkResponse 200 (Text "Payment notification received"))
    /\ statusOfOrder (Some "MC-1000-42") st' = Some "paid"
    /\ statusOfOrder (Some "MC-1000-42") st' <> Some "success".
Proof.
  apply (notification_success_marks_paid env0 5000
           (notice env0 "MC-1000-42" "2000.00" "LKR" "2") store0 order0);
    vm_compute; reflexivity.
Defined.




(** ** Strings and digests *)

Lemma append_assoc (a b c : string) : (a ++ b) ++ c = a ++ (b ++ c).
Proof. induction a as [|x a IH]; simpl; [reflexivity|now rewrite IH]. Qed.

Lemma list_ascii_of_string_append (a b : string) :
  list_ascii_of_string (a ++ b)
  = (list_ascii_of_string a ++ list_ascii_of_string b)%list.
Proof. induction a as [|x a IH]; simpl; [reflexivity|now rewrite IH]. Qed.

Lemma list_ascii_of_string_inj (a b : string) :
  list_ascii_of_string a = list_ascii_of_string b -> a = b.
Proof.
  intros H. rewrite <- (string_of_list_ascii_of_string a),
    <- (string_of_list_ascii_of_string b). now rewrite H.
Qed.

Lemma append_cancel_l (x a b : string) : x ++ a = x ++ b -> a = b.
Proof.
  intros H. apply list_ascii_of_string_inj.
  apply (f_equal list_ascii_of_string) in H.
  rewrite !list_ascii_of_string_append in H. now apply app_inv_head in H.
Qed.

Lemma append_cancel_r (a b y : string) : a ++ y = b ++ y -> a = b.
Proof.
  intros H. apply list_ascii_of_string_inj.
  apply (f_equal list_ascii_of_string) in H.
  rewrite !list_ascii_of_string_append in H. now apply app_inv_tail in H.
Qed.

Lemma add_str_r (v : Js.value) (s : string) :
  Js.add v (Js.str s) = Js.str (Js.toString v ++ s).
Proof. destruct v; reflexivity. Qed.

Lemma add_str_l (s : string) (v : Js.value) :
  Js.add (Js.str s) v = Js.str (s ++ Js.toString v).
Proof. reflexivity. Qed.

Lemma hexDigit_lower z : 0 <= z < 16 -> lowerHexUnit (MD5.hexDigit z) = true.
Proof.
  intros H.
  assert (E : z = 0 \/ z = 1 \/ z = 2 \/ z = 3 \/ z = 4 \/ z = 5 \/ z = 6 \/ z = 7 \/
              z = 8 \/ z = 9 \/ z = 10 \/ z = 11 \/ z = 12 \/ z = 13 \/ z = 14 \/
              z = 15) by lia.
  repeat (destruct E as [->|E]; [reflexivity|]). now subst.
Qed.

Lemma hex_lower bs :
  Forall (fun b => 0 <= b < 256) bs -> lowerHex (MD5.hex bs) = true.
Proof.
  induction 1 as [|b r Hb _ IH]; simpl; [reflexivity|].
  rewrite !hexDigit_lower, IH; [reflexivity| |].
  - apply Z.mod_pos_bound. lia.
  - split; [apply Z.div_pos; lia|apply Z.div_lt_upper_bound; lia].
Qed.

Lemma bytes_of_range n w : Forall (fun b => 0 <= b < 256) (MD5.bytes_of n w).
Proof.
  unfold MD5.bytes_of. apply Forall_forall. intros b Hb.
  apply in_map_iff in Hb. destruct Hb as [i [<- _]].
  apply Z.mod_pos_bound. lia.
Qed.

Lemma md5hex_lower s : lowerHex (MD5.md5hex s) = true.
Proof.
  unfold MD5.md5hex, MD5.digest. apply hex_lower.
  destruct (MD5.blocks _ _ _) as [[[a b] c] d].
  repeat (apply Forall_app; split); apply bytes_of_range.
Qed.

Lemma lower_upper_hexUnit c :
  lowerHexUnit c = true -> JsString.lower_unit (JsString.upper_unit c) = c.
Proof.
  destruct c as [[] [] [] [] [] [] [] []]; vm_compute; congruence.
Qed.

Lemma toUpperCase_lowerHex_inj a b :
  lowerHex a = true -> lowerHex b = true ->
  JsString.toUpperCase a = JsString.toUpperCase b -> a = b.
Proof.
  revert b. induction a as [|x a IH]; intros [|y b]; simpl; try discriminate;
    [reflexivity|].
  intros Ha Hb H. apply andb_prop in Ha. apply andb_prop in Hb.
  destruct Ha as [Hx Ha], Hb as [Hy Hb]. injection H as Hc Hr.
  f_equal; [|now apply IH].
  rewrite <- (lower_upper_hexUnit x Hx), <- (lower_upper_hexUnit y Hy).
  now rewrite Hc.
Qed.

Lemma md5Upper_inj a b : md5Upper a = md5Upper b -> MD5.md5hex a = MD5.md5hex b.
Proof. apply toUpperCase_lowerHex_inj; apply md5hex_lower. Qed.

(** ** Tampered notifications *)

Lemma signedString_text env n :
  signedString env n = signedText n ++ md5Upper (PAYHERE_MERCHANT_SECRET env).
Proof. unfold signedString, signedText. now rewrite add_str_r. Qed.

Lemma tamperedOne_signedString env p q :
  Notification.merchant_id q = Notification.merchant_id p ->
  Notification.order_id q = Notification.order_id p ->
  tamperedOne p q ->
  signedString env q <> signedString env p.
Proof.
  intros Hm Ho Ht E. unfold signedString, signedFields in E.
  rewrite Hm, Ho in E.
  set (x := Js.add (Js.ofField (Notification.merchant_id p))
                   (Js.ofField (Notification.order_id p))) in E.
  destruct Ht as [a b Hp Hq Hne Hc Hs | a b Hp Hq Hne Ha Hs | a b Hp Hq Hne Ha Hc].
  - rewrite Hp, Hq, Hc, Hs in E. cbn [Js.ofField] in E.
    rewrite !add_str_r, !add_str_l in E. cbn [Js.toString] in E.
    rewrite !append_assoc in E.
    apply append_cancel_l in E. apply append_cancel_r in E. congruence.
  - rewrite Hp, Hq, Ha, Hs in E. cbn [Js.ofField] in E.
    rewrite !add_str_r, !add_str_l in E. cbn [Js.toString] in E.
    rewrite !append_assoc in E.
    apply append_cancel_l in E. apply append_cancel_r in E. congruence.
  - rewrite Hp, Hq, Ha, Hc in E. cbn [Js.ofField] in E.
    rewrite !add_str_r in E. cbn [Js.toString] in E.
    rewrite !append_assoc in E.
    apply append_cancel_l in E. apply append_cancel_r in E. congruence.
Qed.

Lemma tamperedOne_signedText p q :
  Notification.merchant_id q = Notification.merchant_id p ->
  Notification.order_id q = Notification.order_id p ->
  tamperedOne p q ->
  signedText q <> signedText p.
Proof.
  intros Hm Ho Ht E.
  apply (tamperedOne_signedString (mkEnv "" "" "" "" "") p q Hm Ho Ht).
  now rewrite !signedString_text, E.
Qed.

(** A notification that passes the signature check is not answered with
    400 "Invalid payment signature". *)
Lemma verified_not_rejected env now n st :
  verified env n ->
  handlePaymentNotification env now n st <> (st, json 400 "Invalid payment signature").
Proof.
  intros Hv. rewrite notification_run.
  apply verified_check in Hv. rewrite Hv.
  destruct (findSubscriptionByOrderId _ _); [|discriminate].
  destruct (castStatus _); [|discriminate].
  cbv zeta. destruct (Subscription.valid _); discriminate.
Qed.

(** C2, as amended. Take an accepted payload and a second payload with
    its signature, and let MD5 not collide on the two signed strings.
    The second payload is answered with 400 "Invalid payment signature",
    the store being left as it was, exactly when its signed text (the
    merchant id, order id, amount, currency and status code one after
    the other, a missing field reading "undefined") differs from that of
    the first.  This is the case whenever, with the merchant id and the
    order id kept, one of amount, currency and status code alone is
    changed, a string for another string. *)
Theorem tampered_field_rejected env now st p q :
  verified env p ->
  Notification.md5sig q = Notification.md5sig p ->
  (MD5.md5hex (signedString env q) = MD5.md5hex (signedString env p) ->
   signedString env q = signedString env p) ->
  (handlePaymentNotification env now q st = (st, json 400 "Invalid payment signature")
   <-> signedText q <> signedText p)
  /\ (Notification.merchant_id q = Notification.merchant_id p ->
      Notification.order_id q = Notification.order_id p ->
      tamperedOne p q ->
      handlePaymentNotification env now q st
      = (st, json 400 "Invalid payment signature")).
Proof.
  intros Hv Hsig Hmd5.
  assert (Hrej : signedText q <> signedText p ->
                 handlePaymentNotification env now q st
                 = (st, json 400 "Invalid payment signature")).
  { intros Hne. apply notification_rejected. unfold verified in *. intros Hq.
    rewrite Hsig, Hv in Hq. injection Hq as Hq.
    unfold calculatedMd5sig in Hq. symmetry in Hq. apply md5Upper_inj in Hq.
    apply Hmd5 in Hq. rewrite !signedString_text in Hq.
    apply append_cancel_r in Hq. contradiction. }
  split; [split|].
  - intros Hr Heq. apply (verified_not_rejected env now q st); [|exact Hr].
    unfold verified in *. rewrite Hsig, Hv. f_equal.
    unfold calculatedMd5sig. fold (signedString env p). fold (signedString env q).
    now rewrite !signedString_text, Heq.
  - exact Hrej.
  - intros Hm Ho Ht. apply Hrej. now apply tamperedOne_signedText.
Qed.

Lemma tampered_field_rejected_witness :
  (handlePaymentNotification env0 5000 forgedPaidNotice store0
   = (store0, json 400 "Invalid payment signature")
   <-> signedText forgedPaidNotice <> signedText failedNotice)
  /\ (Notification.merchant_id forgedPaidNotice = Notification.merchant_id failedNotice ->
      Notification.order_id forgedPaidNotice = Notification.order_id failedNotice ->
      tamperedOne failedNotice forgedPaidNotice ->
      handlePaymentNotification env0 5000 forgedPaidNotice store0
      = (store0, json 400 "Invalid payment signature")).
Proof.
  apply (tampered_field_rejected env0 5000 store0 failedNotice forgedPaidNotice).
  - vm_compute; reflexivity.
  - reflexivity.
  - intros H. vm_compute in H. discriminate H.
Defined.

(** A payload that changes two fields at once and one that drops a
    field: both are rejected, their signed texts differ. *)
Example tampered_several_fields :
  let both :=
    Notification.mk (Notification.merchant_id failedNotice)
      (Notification.order_id failedNotice) (Notification.payment_id failedNotice)
      (Some "1.00") (Notification.payhere_currency failedNotice) (Some "2")
      (Notification.md5sig failedNotice) (Notification.custom_1 failedNotice)
      (Notification.method failedNotice) in
  let dropped :=
    Notification.mk (Notification.merchant_id failedNotice)
      (Notification.order_id failedNotice) (Notification.payment_id failedNotice)
      (Notification.payhere_amount failedNotice) None
      (Notification.status_code failedNotice)
      (Notification.md5sig failedNotice) (Notification.custom_1 failedNotice)
      (Notification.method failedNotice) in
  signedText both <> signedText failedNotice
  /\ handlePaymentNotification env0 5000 both store0
     = (store0, json 400 "Invalid payment signature")
  /\ signedText dropped <> signedText failedNotice
  /\ handlePaymentNotification env0 5000 dropped store0
     = (store0, json 400 "Invalid payment signature").
Proof.
  cbv zeta.
  split; [vm_compute; discriminate|]. split; [vm_compute; reflexivity|].
  split; [vm_compute; discriminate|]. vm_compute; reflexivity.
Qed.

(** C2, as stated, fails: the notice of a failed payment is accepted, and
    so is a second payload with the same signature and a different
    currency and status code, which marks the subscription as paid: the
    signed text of the two is the same. *)
Lemma tampered_fields_accepted :
  verified env0 failedNotice
  /\ signedText shiftedPaidNotice = signedText failedNotice
  /\ tampered failedNotice shiftedPaidNotice
  /\ snd (handlePaymentNotification env0 5000 failedNotice store0)
     = mkResponse 200 (Text "Payment notification received")
  /\ snd (handlePaymentNotification env0 5000 shiftedPaidNotice store0)
     = mkResponse 200 (Text "Payment notification received")
  /\ snd (handlePaymentNotification env0 5000 shiftedPaidNotice store0)
     <> json 400 "Invalid payment signature"
  /\ statusOfOrder (Some "MC-1000-42")
       (fst (handlePaymentNotification env0 5000 shiftedPaidNotice store0))
     = Some "paid".
Proof.
  split; [vm_compute; reflexivity|].
  split; [reflexivity|].
  split.
  - unfold tampered. repeat split; try reflexivity.
    right. left. discriminate.
  - split; [vm_compute; reflexivity|].
    split; [vm_compute; reflexivity|].
    split; [vm_compute; discriminate|vm_compute; reflexivity].
Qed.

(** ** Approval and rejection *)

Lemma eqb_ostring_refl a : eqb_ostring a a = true.
Proof. now apply eqb_ostring_eq. Qed.

Lemma open_mem status : Js.mem status ["pending"; "paid"] = true <-> open status.
Proof.
  rewrite mem_In. unfold open. simpl. intuition congruence.
Qed.

Lemma open_dec status : {open status} + {~ open status}.
Proof.
  destruct (Js.mem status ["pending"; "paid"]) eqn:E.
  - left. now apply open_mem.
  - right. intros H. apply open_mem in H. congruence.
Defined.

Lemma open_modified d st :
  open (Subscription.status d) -> ~ open st ->
  forall d', Subscription.paymentId d' = Subscription.paymentId d ->
             Subscription.status d' = st ->
             Subscription.isModified d d' = true.
Proof.
  intros Ho Hn d' Hp Hs. unfold Subscription.isModified.
  rewrite Hp, eqb_ostring_refl, Hs.
  destruct (String.eqb_spec (Subscription.status d) st) as [E|_]; [|reflexivity].
  rewrite E in Ho. contradiction.
Qed.

Lemma rejected_status now reason d : Subscription.status (rejected now reason d) = "failed".
Proof. unfold rejected. destruct reason as [r|]; [destruct (JsString.truthy r)|]; reflexivity. Qed.

Lemma rejected_id now reason d :
  Subscription._id (rejected now reason d) = Subscription._id d.
Proof. unfold rejected. destruct reason as [r|]; [destruct (JsString.truthy r)|]; reflexivity. Qed.

Lemma open_valid_assigned d v :
  open (Subscription.status d) ->
  In v Subscription.statuses ->
  Subscription.valid (Subscription.set_status v d) = Subscription.valid d.
Proof.
  intros Ho Hv. apply valid_set_status; [|exact Hv].
  destruct Ho as [-> | ->]; simpl; auto.
Qed.

Lemma rejected_valid now reason d :
  open (Subscription.status d) ->
  Subscription.valid (rejected now reason d) = Subscription.valid d.
Proof.
  intros Ho. rewrite <- (open_valid_assigned d "failed" Ho) by (simpl; auto 8).
  unfold rejected.
  destruct reason as [r|]; [destruct (JsString.truthy r)|]; reflexivity.
Qed.

Lemma approve_open now id st sub :
  findSubscriptionById id (subscriptions st) = Some sub ->
  open (Subscription.status sub) ->
  Subscription.valid sub = true ->
  let st' := copyLevel sub (with_subscriptions (replaceSubscription (approved now sub)) st) in
  approveSubscription now id st
  = (st', mkResponse 200
            (SubscriptionResult "Subscription approved successfully"
               (option_map (populateUserId st')
                  (findSubscriptionById id (subscriptions st'))))).
Proof.
  intros Hf Ho Hv. unfold approveSubscription, handler, bind, gets.
  rewrite Hf. apply open_mem in Ho as Hm. rewrite Hm. cbn [negb].
  unfold saveSubscription.
  rewrite (open_valid_assigned sub "success" Ho) by (simpl; auto 8). rewrite Hv.
  rewrite (open_modified sub "success" Ho); [|unfold open; intuition discriminate
                                             |reflexivity|reflexivity].
  unfold modify, copyLevel, approved.
  cbn [users with_subscriptions].
  destruct (findUserById (Subscription.userId sub) (users st)); reflexivity.
Qed.

(** A stored document that does not satisfy the schema is not saved. *)
Lemma approve_invalid now id st sub :
  findSubscriptionById id (subscriptions st) = Some sub ->
  open (Subscription.status sub) ->
  Subscription.valid sub = false ->
  approveSubscription now id st = (st, json 500 "Server error").
Proof.
  intros Hf Ho Hv. unfold approveSubscription, handler, bind, gets.
  rewrite Hf. apply open_mem in Ho as Hm. rewrite Hm. cbn [negb].
  unfold saveSubscription.
  rewrite (open_valid_assigned sub "success" Ho) by (simpl; auto 8). rewrite Hv.
  reflexivity.
Qed.

Lemma approve_closed now id st sub :
  findSubscriptionById id (subscriptions st) = Some sub ->
  ~ open (Subscription.status sub) ->
  approveSubscription now id st
  = (st, json 400 "Only pending or paid subscriptions can be approved").
Proof.
  intros Hf Hn. unfold approveSubscription, handler, bind, gets. rewrite Hf.
  destruct (Js.mem _ _) eqn:E; [|reflexivity].
  apply open_mem in E. contradiction.
Qed.

Lemma approve_missing now id st :
  findSubscriptionById id (subscriptions st) = None ->
  approveSubscription now id st = (st, json 404 "Subscription not found").
Proof.
  intros Hf. unfold approveSubscription, handler, bind, gets. now rewrite Hf.
Qed.

Lemma reject_open now id reason st sub :
  findSubscriptionById id (subscriptions st) = Some sub ->
  open (Subscription.status sub) ->
  Subscription.valid sub = true ->
  let st' := with_subscriptions (replaceSubscription (rejected now reason sub)) st in
  rejectSubscription now id reason st
  = (st', mkResponse 200
            (SubscriptionResult "Subscription rejected successfully"
               (option_map (populateUserId st')
                  (findSubscriptionById id (subscriptions st'))))).
Proof.
  intros Hf Ho Hv. unfold rejectSubscription, handler, bind, gets.
  rewrite Hf. apply open_mem in Ho as Hm. rewrite Hm. cbn [negb].
  pose proof (rejected_valid now reason sub Ho) as Hr. rewrite Hv in Hr.
  unfold saveSubscription, rejected in *.
  destruct reason as [r|]; [destruct (JsString.truthy r)|];
    (change (Subscription.valid (Subscription.set_updatedAt now ?d))
       with (Subscription.valid d) in Hr; rewrite Hr;
     rewrite (open_modified sub "failed" Ho);
       [|unfold open; intuition discriminate|reflexivity|reflexivity]);
    reflexivity.
Qed.

Lemma reject_invalid now id reason st sub :
  findSubscriptionById id (subscriptions st) = Some sub ->
  open (Subscription.status sub) ->
  Subscription.valid sub = false ->
  rejectSubscription now id reason st = (st, json 500 "Server error").
Proof.
  intros Hf Ho Hv. unfold rejectSubscription, handler, bind, gets.
  rewrite Hf. apply open_mem in Ho as Hm. rewrite Hm. cbn [negb].
  pose proof (rejected_valid now reason sub Ho) as Hr. rewrite Hv in Hr.
  unfold saveSubscription, rejected in *.
  destruct reason as [r|]; [destruct (JsString.truthy r)|];
    (change (Subscription.valid (Subscription.set_updatedAt now ?d))
       with (Subscription.valid d) in Hr; rewrite Hr);
    reflexivity.
Qed.

Lemma reject_closed now id reason st sub :
  findSubscriptionById id (subscriptions st) = Some sub ->
  ~ open (Subscription.status sub) ->
  rejectSubscription now id reason st
  = (st, json 400 "Only pending or paid subscriptions can be rejected").
Proof.
  intros Hf Hn. unfold rejectSubscription, handler, bind, gets. rewrite Hf.
  destruct (Js.mem _ _) eqn:E; [|reflexivity].
  apply open_mem in E. contradiction.
Qed.

Lemma reject_missing now id reason st :
  findSubscriptionById id (subscriptions st) = None ->
  rejectSubscription now id reason st = (st, json 404 "Subscription not found").
Proof.
  intros Hf. unfold rejectSubscription, handler, bind, gets. now rewrite Hf.
Qed.

Lemma copyLevel_subscriptions d s : subscriptions (copyLevel d s) = subscriptions s.
Proof. unfold copyLevel. destruct (findUserById _ _); reflexivity. Qed.

Lemma copyLevel_level d s u :
  findUserById (Subscription.userId d) (users s) = Some u ->
  option_map User.subscriptionLevel
    (findUserById (Subscription.userId d) (users (copyLevel d s)))
  = Some (Subscription.planType d).
Proof.
  intros Hu. unfold copyLevel. rewrite Hu. cbn [users with_users].
  pose proof (findUserById_id _ _ _ Hu) as Hid.
  rewrite <- Hid in Hu |- *.
  change (User._id u)
    with (User._id (User.set_subscriptionLevel (Subscription.planType d) u)).
  erewrite findUserById_replace_same by exact Hu.
  reflexivity.
Qed.

(** C4. For a subscription that exists and whose stored document
    satisfies the schema, [approveSubscription] answers 200 exactly when
    its status was "pending" or "paid"; it then stores the status
    "success" and sets the subscription level of the subscription's user
    to the plan type.  For every other status it answers 400 and changes
    nothing. *)
Theorem approve_pending_or_paid_only now id st sub :
  findSubscriptionById id (subscriptions st) = Some sub ->
  Subscription.valid sub = true ->
  let st' := fst (approveSubscription now id st) in
  let r := snd (approveSubscription now id st) in
  (code r = 200 <-> open (Subscription.status sub))
  /\ (open (Subscription.status sub) ->
      statusOf id st' = Some "success"
      /\ forall u, findUserById (Subscription.userId sub) (users st) = Some u ->
           option_map User.subscriptionLevel
             (findUserById (Subscription.userId sub) (users st'))
           = Some (Subscription.planType sub))
  /\ (~ open (Subscription.status sub) ->
      r = json 400 "Only pending or paid subscriptions can be approved"
      /\ st' = st).
Proof.
  intros Hf Hv.
  destruct (open_dec (Subscription.status sub)) as [Ho|Hn].
  - rewrite (approve_open now id st sub Hf Ho Hv). cbn [fst snd code].
    split; [tauto|]. split; [|tauto]. intros _. split.
    + unfold statusOf. rewrite copyLevel_subscriptions.
      cbn [subscriptions with_subscriptions].
      pose proof (findSubscriptionById_id _ _ _ Hf) as Hid.
      rewrite <- Hid in Hf |- *.
      change (Subscription._id sub) with (Subscription._id (approved now sub)) at 1.
      erewrite findSubscriptionById_replace_same by exact Hf.
      reflexivity.
    + intros u Hu. now apply copyLevel_level with (u := u).
  - rewrite (approve_closed now id st sub Hf Hn). cbn [fst snd code json].
    split; [split; [discriminate|contradiction]|].
    split; [contradiction|]. intros _. split; reflexivity.
Qed.

Lemma approve_pending_or_paid_only_witness :
  let st' := fst (approveSubscription 5000 1%nat store0) in
  let r := snd (approveSubscription 5000 1%nat store0) in
  (code r = 200 <-> open "pending")
  /\ (open "pending" ->
      statusOf 1%nat st' = Some "success"
      /\ forall u, findUserById 7%nat (users store0) = Some u ->
           option_map User.subscriptionLevel (findUserById 7%nat (users st'))
           = Some "O/L Pro")
  /\ (~ open "pending" ->
      r = json 400 "Only pending or paid subscriptions can be approved"
      /\ st' = store0).
Proof.
  apply (approve_pending_or_paid_only 5000 1%nat store0 order0); reflexivity.
Defined.

(** ** The frame of a rejection *)

Lemma rejected_untouched now reason d : untouched (rejected now reason d) = untouched d.
Proof. unfold rejected. destruct reason as [r|]; [destruct (JsString.truthy r)|]; reflexivity. Qed.

Lemma replace_pointwise (P : Subscription.t -> Subscription.t -> Prop) d l x :
  (forall y, P y y) ->
  findSubscriptionById (Subscription._id d) l = Some x ->
  P x d ->
  Forall2 P l (replaceSubscription d l).
Proof.
  intros Hrefl Hf Hd. unfold findSubscriptionById in Hf.
  induction l as [|y r IH]; simpl in *; [constructor|].
  destruct (Nat.eqb (Subscription._id y) (Subscription._id d)) eqn:E.
  - injection Hf as ->. constructor; [exact Hd|].
    clear IH. induction r; constructor; auto.
  - constructor; [apply Hrefl|now apply IH].
Qed.

Lemma Forall2_refl {A : Type} (P : A -> A -> Prop) (l : list A) :
  (forall x, P x x) -> Forall2 P l l.
Proof. intros H. induction l; constructor; auto. Qed.

(** C10, as amended. [rejectSubscription] leaves every user (and so every
    subscription level) and every feedback document as it was, and every
    subscription document either as it was or, for the document of the
    rejected identifier, changed in [status], [rejectionReason] and the
    [updatedAt] timestamp only: [userId], [planType], [orderId],
    [paymentId], [amount], [startDate], [endDate] and [createdAt] keep
    their values. *)
Theorem reject_frame now id reason st :
  let st' := fst (rejectSubscription now id reason st) in
  users st' = users st
  /\ feedbacks st' = feedbacks st
  /\ Forall2 (fun d d' => d' = d \/ (Subscription._id d = id /\ untouched d' = untouched d))
       (subscriptions st) (subscriptions st').
Proof.
  destruct (findSubscriptionById id (subscriptions st)) as [sub|] eqn:Hf.
  - destruct (open_dec (Subscription.status sub)) as [Ho|Hn].
    + destruct (Subscription.valid sub) eqn:Hv.
      * rewrite (reject_open now id reason st sub Hf Ho Hv). cbn [fst].
        cbn [users feedbacks subscriptions with_subscriptions].
        split; [reflexivity|]. split; [reflexivity|].
        pose proof (findSubscriptionById_id _ _ _ Hf) as Hid.
        apply replace_pointwise with (x := sub); [now left| |].
        -- now rewrite rejected_id, Hid.
        -- right. split; [exact Hid|apply rejected_untouched].
      * rewrite (reject_invalid now id reason st sub Hf Ho Hv). cbn [fst].
        repeat split. apply Forall2_refl. now left.
    + rewrite (reject_closed now id reason st sub Hf Hn). cbn [fst].
      repeat split. apply Forall2_refl. now left.
  - rewrite (reject_missing now id reason st Hf). cbn [fst].
    repeat split. apply Forall2_refl. now left.
Qed.

(** C10, as stated, fails: the write also moves [updatedAt]. *)
Lemma reject_moves_updatedAt :
  snd (rejectSubscription 5000 1%nat (Some "duplicate order") store0)
  = mkResponse 200
      (SubscriptionResult "Subscription rejected successfully"
         (Some (rejected 5000 (Some "duplicate order") order0, Some alice)))
  /\ map Subscription.updatedAt (subscriptions store0) = [1000]
  /\ map Subscription.updatedAt
       (subscriptions (fst (rejectSubscription 5000 1%nat (Some "duplicate order") store0)))
     = [5000]
  /\ ~ Forall2 (fun d d' =>
                 d' = Subscription.set_rejectionReason (Subscription.rejectionReason d')
                        (Subscription.set_status (Subscription.status d') d))
        (subscriptions store0)
        (subscriptions (fst (rejectSubscription 5000 1%nat (Some "duplicate order") store0))).
Proof.
  split; [reflexivity|]. split; [reflexivity|]. split; [reflexivity|].
  intros H. inversion H as [|d d' l l' Hd _]; subst. discriminate Hd.
Qed.

(** ** Sequences of operations *)

Lemma statusOf_replace_same d st x :
  findSubscriptionById (Subscription._id d) (subscriptions st) = Some x ->
  statusOf (Subscription._id d) (with_subscriptions (replaceSubscription d) st)
  = Some (Subscription.status d).
Proof.
  intros H. unfold statusOf. cbn [subscriptions with_subscriptions].
  now rewrite (findSubscriptionById_replace_same d _ x H).
Qed.

Lemma statusOf_replace_other id d st :
  id <> Subscription._id d ->
  statusOf id (with_subscriptions (replaceSubscription d) st) = statusOf id st.
Proof.
  intros H. unfold statusOf. cbn [subscriptions with_subscriptions].
  now rewrite findSubscriptionById_replace_other.
Qed.

Lemma statusOf_copyLevel id d st : statusOf id (copyLevel d st) = statusOf id st.
Proof. unfold statusOf. now rewrite copyLevel_subscriptions. Qed.

Lemma admin_step env o st id s :
  administrative o ->
  statusOf id st = Some s ->
  (~ open s -> statusOf id (step env st o) = Some s)
  /\ (open s -> In (statusOf id (step env st o)) [Some s; Some "success"; Some "failed"]).
Proof.
  intros Ha Hs.
  assert (Hsame : statusOf id (step env st o) = Some s ->
                  (~ open s -> statusOf id (step env st o) = Some s)
                  /\ (open s -> In (statusOf id (step env st o))
                                  [Some s; Some "success"; Some "failed"])).
  { intros ->. split; [reflexivity|]. intros _. now left. }
  destruct o as [now [n|id0|id0 reason]]; [destruct Ha| |]; cbn [step].
  - destruct (findSubscriptionById id0 (subscriptions st)) as [sub|] eqn:Hf.
    + destruct (open_dec (Subscription.status sub)) as [Ho|Hn];
        [destruct (Subscription.valid sub) eqn:Hv|].
      * rewrite (approve_open now id0 st sub Hf Ho Hv). cbn [fst].
        rewrite statusOf_copyLevel.
        pose proof (findSubscriptionById_id _ _ _ Hf) as Hid.
        destruct (Nat.eq_dec id id0) as [->|Hne].
        -- assert (s = Subscription.status sub)
             by (unfold statusOf in Hs; rewrite Hf in Hs; simpl in Hs; congruence).
           subst s. split; [contradiction|]. intros _.
           rewrite <- Hid in Hf |- *.
           change (Subscription._id sub) with (Subscription._id (approved now sub)).
           rewrite (statusOf_replace_same (approved now sub) st sub Hf).
           right. left. reflexivity.
        -- rewrite statusOf_replace_other by (cbn; congruence).
           rewrite Hs. split; [reflexivity|]. intros _. now left.
      * apply Hsame. cbn [step]. now rewrite (approve_invalid now id0 st sub Hf Ho Hv).
      * apply Hsame. cbn [step]. now rewrite (approve_closed now id0 st sub Hf Hn).
    + apply Hsame. cbn [step]. now rewrite (approve_missing now id0 st Hf).
  - destruct (findSubscriptionById id0 (subscriptions st)) as [sub|] eqn:Hf.
    + destruct (open_dec (Subscription.status sub)) as [Ho|Hn];
        [destruct (Subscription.valid sub) eqn:Hv|].
      * rewrite (reject_open now id0 reason st sub Hf Ho Hv). cbn [fst].
        pose proof (findSubscriptionById_id _ _ _ Hf) as Hid.
        destruct (Nat.eq_dec id id0) as [->|Hne].
        -- assert (s = Subscription.status sub)
             by (unfold statusOf in Hs; rewrite Hf in Hs; simpl in Hs; congruence).
           subst s. split; [contradiction|]. intros _.
           rewrite <- Hid in Hf |- *.
           rewrite <- (rejected_id now reason sub) in Hf |- *.
           rewrite (statusOf_replace_same (rejected now reason sub) st sub Hf).
           rewrite rejected_status. right. right. left. reflexivity.
        -- rewrite statusOf_replace_other by (rewrite rejected_id; congruence).
           rewrite Hs. split; [reflexivity|]. intros _. now left.
      * apply Hsame. cbn [step].
        now rewrite (reject_invalid now id0 reason st sub Hf Ho Hv).
      * apply Hsame. cbn [step]. now rewrite (reject_closed now id0 reason st sub Hf Hn).
    + apply Hsame. cbn [step]. now rewrite (reject_missing now id0 reason st Hf).
Qed.

Lemma admin_run env ops : forall st id s,
  Forall administrative ops ->
  statusOf id st = Some s ->
  (~ open s -> statusOf id (run env ops st) = Some s)
  /\ (open s -> In (statusOf id (run env ops st)) [Some s; Some "success"; Some "failed"]).
Proof.
  induction ops as [|o ops IH]; intros st id s Hall Hs.
  - simpl. rewrite Hs. split; [reflexivity|]. intros _. now left.
  - inversion Hall as [|? ? Ho Hrest]; subst.
    destruct (admin_step env o st id s Ho Hs) as [Hclosed Hopen].
    change (run env (o :: ops) st) with (run env ops (step env st o)).
    split.
    + intros Hn. apply (IH _ _ _ Hrest (Hclosed Hn)). exact Hn.
    + intros Hop. destruct (Hopen Hop) as [H|[H|[H|[]]]]; symmetry in H.
      * now apply (IH _ _ _ Hrest H).
      * right. left. symmetry. apply (IH _ _ _ Hrest H).
        unfold open. intuition discriminate.
      * right. right. left. symmetry. apply (IH _ _ _ Hrest H).
        unfold open. intuition discriminate.
Qed.

(** What a notification can assign. *)
Lemma assigned_values n v :
  castStatus (assignedStatus n) = Some v ->
  In v ["paid"; "pending"; "canceled"; "failed"; "chargedback"].
Proof.
  unfold assignedStatus, mappedStatus, Js.get, statusMap.
  set (k := Js.toString (Js.ofField (Notification.status_code n))).
  simpl Js.assoc.
  repeat (match goal with |- context [String.eqb ?a ?b] =>
                            destruct (String.eqb a b) end;
          [simpl; intros [= <-]; simpl; auto 8|]).
  destruct (Js.mem k Js.objectPrototypeKeys); simpl; [discriminate|].
  intros [= <-]. simpl; auto.
Qed.

Lemma notification_step env now n st id s :
  statusOf id st = Some s ->
  let st' := step env st (now, Notify n) in
  statusOf id st' = Some s
  \/ In (statusOf id st')
       [Some "paid"; Some "pending"; Some "canceled"; Some "failed"; Some "chargedback"].
Proof.
  intros Hs. cbn [step]. rewrite notification_run.
  destruct (negb _); [now left|].
  destruct (findSubscriptionByOrderId _ _) as [sub|] eqn:Hf; [|now left].
  destruct (castStatus (assignedStatus n)) as [v|] eqn:Hc; [|now left].
  cbv zeta.
  destruct (Subscription.valid _); [|now left].
  destruct (Subscription.isModified _ _); [|now left].
  cbn [fst].
  match goal with |- context [replaceSubscription ?d] => set (d' := d) end.
  destruct (Nat.eq_dec id (Subscription._id d')) as [->|Hne].
  - right. unfold statusOf in Hs.
    destruct (findSubscriptionById (Subscription._id d') (subscriptions st))
      as [x|] eqn:Hx; [|discriminate].
    rewrite (statusOf_replace_same d' st x Hx).
    apply assigned_values in Hc. subst d'. cbn [Subscription.status
      Subscription.set_updatedAt Subscription.set_status].
    simpl in Hc. simpl. intuition congruence.
  - left. now rewrite statusOf_replace_other.
Qed.

(** C3, as amended. Under approvals and rejections alone a subscription
    in status "pending" or "paid" keeps its status or moves to "success"
    or "failed", and a subscription in any other status never changes.
    A payment notification is not held to that: whatever the status was,
    it leaves it or overwrites it with "paid", "pending", "canceled",
    "failed" or "chargedback" (never with "success"). *)
Theorem status_lifecycle env ops st id s :
  Forall administrative ops ->
  statusOf id st = Some s ->
  (open s -> In (statusOf id (run env ops st)) [Some s; Some "success"; Some "failed"])
  /\ (~ open s -> statusOf id (run env ops st) = Some s)
  /\ (forall now n,
        let st' := step env st (now, Notify n) in
        statusOf id st' = Some s
        \/ In (statusOf id st')
             [Some "paid"; Some "pending"; Some "canceled"; Some "failed";
              Some "chargedback"]).
Proof.
  intros Hall Hs.
  destruct (admin_run env ops st id s Hall Hs) as [Hclosed Hopen].
  repeat split; [exact Hopen|exact Hclosed|].
  intros now n. now apply notification_step.
Qed.

Lemma status_lifecycle_witness :
  (open "pending" ->
   In (statusOf 1%nat (run env0 adminOps store0))
      [Some "pending"; Some "success"; Some "failed"])
  /\ (~ open "pending" -> statusOf 1%nat (run env0 adminOps store0) = Some "pending")
  /\ (forall now n,
        let st' := step env0 store0 (now, Notify n) in
        statusOf 1%nat st' = Some "pending"
        \/ In (statusOf 1%nat st')
             [Some "paid"; Some "pending"; Some "canceled"; Some "failed";
              Some "chargedback"]).
Proof.
  apply (status_lifecycle env0 adminOps store0 1%nat "pending").
  - repeat constructor.
  - reflexivity.
Defined.

(** C3, as stated, fails: a subscription created by a payment initiation
    and approved is in the terminal status "success"; a verified
    notification with status code 0 then puts it back to "pending". *)
Lemma notification_reopens_success :
  let created := fst (initializePayment env0 1000 42 aliceRequest emptyStore) in
  let approved := run env0 [(2000, Approve 1%nat)] created in
  let notified :=
    run env0 [(3000, Notify (notice env0 "MC-1000-42" "2000.00" "LKR" "0"))] approved in
  statusOf 1%nat created = Some "pending"
  /\ statusOf 1%nat approved = Some "success"
  /\ snd (handlePaymentNotification env0 3000
            (notice env0 "MC-1000-42" "2000.00" "LKR" "0") approved)
     = mkResponse 200 (Text "Payment notification received")
  /\ statusOf 1%nat notified = Some "pending".
Proof. vm_compute. repeat split; reflexivity. Qed.

(** ** The payment-initiation hash *)






(** What a completed initiation returns. *)
Lemma initializePayment_ok env now random1000 req st pd :
  snd (initializePayment env now random1000 req st) = mkResponse 200 (PaymentInit pd) ->
  PaymentData.merchant_id pd = PAYHERE_MERCHANT_ID env
  /\ PaymentData.order_id pd = "MC-" ++ JsString.ofZ now ++ "-" ++ JsString.ofZ random1000
  /\ PaymentData.amount pd = JsString.toFixed2 (init_amount req)
  /\ PaymentData.currency pd = "LKR"
  /\ PaymentData.hash pd
     = paymentHash (PAYHERE_MERCHANT_ID env) (PAYHERE_MERCHANT_SECRET env)
         (PaymentData.order_id pd) (JsString.toFixed2 (init_amount req)) "LKR".
Proof.
  unfold initializePayment, handler.
  destruct (authenticated (init_user req)) as [uid|]; [|discriminate].
  unfold bind, gets, insertSubscription.
  destruct (_ && _); [|discriminate].
  cbn [modify users with_subscriptions].
  destruct (findUserById uid (users st)) as [u|]; [|discriminate].
  cbn [ret snd]. intros [= <-]. repeat split; reflexivity.
Qed.


(** The digest below was computed by an independent MD5. *)
Example initializePayment_run :
  initializePayment env0 1000 42 aliceRequest emptyStore
  = (store0, mkResponse 200 (PaymentInit paymentData1)).
Proof. vm_compute. reflexivity. Qed.



(** ** Initiation for a user that does not exist *)

Lemma list_max_ge l x : In x l -> (x <= list_max l)%nat.
Proof.
  induction l as [|y r IH]; simpl; [contradiction|].
  intros [->|H]; [apply Nat.le_max_l|].
  etransitivity; [apply IH, H|apply Nat.le_max_r].
Qed.

Lemma findSubscriptionById_fresh l :
  findSubscriptionById (freshId (map Subscription._id l)) l = None.
Proof.
  unfold findSubscriptionById.
  destruct (find _ l) as [d|] eqn:E; [|reflexivity].
  apply find_some in E. destruct E as [Hin He]. apply Nat.eqb_eq in He.
  assert (Hle : (Subscription._id d <= list_max (map Subscription._id l))%nat)
    by (apply list_max_ge, in_map, Hin).
  unfold freshId in He. lia.
Qed.

Lemma findSubscriptionById_app_new l d :
  findSubscriptionById (Subscription._id d) l = None ->
  findSubscriptionById (Subscription._id d) (l ++ [d]) = Some d.
Proof.
  unfold findSubscriptionById. intros H.
  induction l as [|y r IH]; simpl in *.
  - now rewrite Nat.eqb_refl.
  - destruct (Nat.eqb (Subscription._id y) (Subscription._id d)); [discriminate|].
    now apply IH.
Qed.

(** C9, as amended. When the authenticated user id matches no user and
    the plan type is one of the schema's tiers, the answer is 404 "User
    not found", and the pending subscription with the generated order id
    has been appended to the collection and is found there: the store is
    not the one before the request. *)
Theorem initialize_unknown_user_persists env now random1000 req st uid :
  authenticated (init_user req) = Some uid ->
  findUserById uid (users st) = None ->
  In (init_planType req) Subscription.planTypes ->
  let d := pendingSubscription st now random1000 uid req in
  let st' := fst (initializePayment env now random1000 req st) in
  snd (initializePayment env now random1000 req st) = json 404 "User not found"
  /\ subscriptions st' = (subscriptions st ++ [d])%list
  /\ findSubscriptionById (Subscription._id d) (subscriptions st') = Some d
  /\ Subscription.status d = "pending"
  /\ st' <> st.
Proof.
  intros Ha Hu Hp d st'.
  assert (E : initializePayment env now random1000 req st
              = (with_subscriptions (fun l => l ++ [d])%list st,
                 json 404 "User not found")).
  { unfold initializePayment, handler. rewrite Ha.
    unfold bind, gets, insertSubscription.
    cbn [Subscription.planType Subscription.status].
    apply mem_In in Hp. rewrite Hp.
    cbn [andb Js.mem existsb Subscription.statuses String.eqb Ascii.eqb Bool.eqb orb].
    cbn [modify users with_subscriptions]. now rewrite Hu. }
  subst st'. rewrite E. cbn [fst snd subscriptions with_subscriptions].
  repeat split.
  - apply findSubscriptionById_app_new. apply findSubscriptionById_fresh.
  - intros H. apply (f_equal (fun s => List.length (subscriptions s))) in H.
    cbn [subscriptions with_subscriptions] in H.
    rewrite length_app in H. simpl in H. lia.
Qed.

Lemma initialize_unknown_user_persists_witness :
  let d := pendingSubscription store0 7000 5 9%nat carolRequest in
  let st' := fst (initializePayment env0 7000 5 carolRequest store0) in
  snd (initializePayment env0 7000 5 carolRequest store0) = json 404 "User not found"
  /\ subscriptions st' = (subscriptions store0 ++ [d])%list
  /\ findSubscriptionById (Subscription._id d) (subscriptions st') = Some d
  /\ Subscription.status d = "pending"
  /\ st' <> store0.
Proof.
  apply (initialize_unknown_user_persists env0 7000 5 carolRequest store0 9%nat).
  - reflexivity.
  - reflexivity.
  - simpl. auto 8.
Defined.

(** C9, as stated, fails for a plan type outside the schema's
    enumeration: the record does not validate, the answer is 500 and
    nothing is persisted. *)
Lemma initialize_invalid_plan_not_persisted :
  let req := mkInitRequest (Some (mkAuthUser (Some 9%nat))) "Gold" 2500%Q in
  authenticated (init_user req) = Some 9%nat
  /\ findUserById 9%nat (users store0) = None
  /\ initializePayment env0 7000 5 req store0
     = (store0, json 500 "Server error during payment initialization").
Proof. repeat split. Qed.

(** ** Feedback submission *)

Lemma prefix_spec sub : forall s, String.prefix sub s = true <-> exists b, s = sub ++ b.
Proof.
  induction sub as [|c sub IH]; intros s.
  - split; [intros _; now exists s|intros _; now destruct s].
  - destruct s as [|x s]; simpl.
    + split; [discriminate|intros [b H]; discriminate H].
    + destruct (ascii_dec c x) as [->|Hne].
      * rewrite IH. split; intros [b H]; exists b; congruence.
      * split; [discriminate|intros [b H]; congruence].
Qed.

Lemma includes_spec sub : forall s, JsString.includes s sub = true <-> occurs sub s.
Proof.
  unfold occurs. induction s as [|c s IH].
  - cbn [JsString.includes]. rewrite orb_false_r, prefix_spec. split.
    + intros [b H]. now exists "", b.
    + intros [a [b H]]. destruct a; [now exists b|discriminate H].
  - cbn [JsString.includes]. rewrite orb_true_iff, prefix_spec, IH. split.
    + intros [[b H]|[a [b H]]].
      * now exists "", b.
      * exists (String c a), b. simpl. now rewrite H.
    + intros [[|x a] [b H]].
      * left. now exists b.
      * right. injection H as _ H. now exists a, b.
Qed.

Lemma fallbackSentiment_spec feedback :
  (fallbackSentiment feedback = "positive" <-> mentionsPositive feedback)
  /\ (fallbackSentiment feedback = "negative" <-> ~ mentionsPositive feedback).
Proof.
  assert (H : (JsString.includes (JsString.toLowerCase feedback) "good"
               || JsString.includes (JsString.toLowerCase feedback) "great"
               || JsString.includes (JsString.toLowerCase feedback) "excellent"
               || JsString.includes (JsString.toLowerCase feedback) "love"
               || JsString.includes (JsString.toLowerCase feedback) "amazing") = true
              <-> mentionsPositive feedback).
  { rewrite !orb_true_iff, !includes_spec. unfold mentionsPositive, positiveKeywords.
    split.
    - intros [[[[H|H]|H]|H]|H]; eexists; (split; [|exact H]); simpl; auto 8.
    - intros [k [Hin H]]. simpl in Hin.
      destruct Hin as [<-|[<-|[<-|[<-|[<-|[]]]]]]; tauto. }
  unfold fallbackSentiment. destruct (_ || _).
  - assert (Hm : mentionsPositive feedback) by now apply H.
    split; split; intros; auto; try discriminate; contradiction.
  - assert (Hm : ~ mentionsPositive feedback)
      by (intros Hm; apply H in Hm; discriminate).
    split; split; intros; auto; try discriminate; contradiction.
Qed.

Lemma fallbackSentiment_valid feedback :
  Js.mem (fallbackSentiment feedback) Feedback.sentiments = true.
Proof. unfold fallbackSentiment. now destruct (_ || _). Qed.

Lemma trim_nonblank_truthy text :
  JsString.trim text <> "" ->
  (negb (JsString.truthy text) || negb (JsString.truthy (JsString.trim text))) = false.
Proof.
  intros H. destruct text as [|c r]; [now contradiction H|].
  destruct (JsString.trim (String c r)); [now contradiction H|reflexivity].
Qed.

Lemma submitFeedback_saves classifier now req st text u p :
  submit_feedback req = Some text ->
  JsString.trim text <> "" ->
  findUserById (submit_userId req) (users st) = Some u ->
  match classifier (JsString.trim text) with
  | Some p' => p'
  | None => mkPrediction (fallbackSentiment text) (Some fallbackConfidence)
  end = p ->
  validPrediction p = true ->
  let d := newFeedback st now (submit_userId req) text p in
  submitFeedback classifier now req st
  = (with_feedbacks (fun l => l ++ [d])%list st, submitted d).
Proof.
  intros Ht Hb Hu Hp Hv d.
  unfold submitFeedback, handler. rewrite Ht, (trim_nonblank_truthy text Hb).
  unfold bind, gets. rewrite Hu, Hp.
  unfold insertFeedback. cbn [Feedback.feedback Feedback.sentiment Feedback.confidence].
  unfold validPrediction in Hv.
  assert (Htr : JsString.truthy (JsString.trim text) = true)
    by (destruct (JsString.trim text); [now contradiction Hb|reflexivity]).
  rewrite Htr. cbn [andb]. rewrite Hv. reflexivity.
Qed.

(** C7, as amended. For every feedback text that is not empty after
    trimming, submitted by an existing user, [submitFeedback] answers 201
    and appends a feedback record carrying a sentiment, both when the
    classifier returns a prediction that the schema accepts and when the
    classifier fails.  On the fallback path the sentiment is "positive"
    if and only if the lowercased text contains one of good, great,
    excellent, love, amazing, and "negative" otherwise, and the
    confidence is the constant 0.6. *)
Theorem feedback_always_recorded classifier now req st text u :
  submit_feedback req = Some text ->
  JsString.trim text <> "" ->
  findUserById (submit_userId req) (users st) = Some u ->
  (classifier (JsString.trim text) = None ->
   let d := newFeedback st now (submit_userId req) text
              (mkPrediction (fallbackSentiment text) (Some fallbackConfidence)) in
   submitFeedback classifier now req st
   = (with_feedbacks (fun l => l ++ [d])%list st, submitted d)
   /\ (Feedback.sentiment d = "positive" <-> mentionsPositive text)
   /\ (Feedback.sentiment d = "negative" <-> ~ mentionsPositive text)
   /\ Feedback.confidence d = 6 # 10)
  /\ (forall p, classifier (JsString.trim text) = Some p ->
        validPrediction p = true ->
        let d := newFeedback st now (submit_userId req) text p in
        submitFeedback classifier now req st
        = (with_feedbacks (fun l => l ++ [d])%list st, submitted d)
        /\ Feedback.sentiment d = prediction_sentiment p).
Proof.
  intros Ht Hb Hu. split.
  - intros Hc d. split.
    + apply (submitFeedback_saves classifier now req st text u); auto.
      * now rewrite Hc.
      * unfold validPrediction. cbn [prediction_sentiment prediction_confidence].
        now rewrite fallbackSentiment_valid.
    + subst d. cbn [newFeedback Feedback.sentiment Feedback.confidence
                    prediction_sentiment prediction_confidence].
      destruct (fallbackSentiment_spec text) as [Hpos Hneg].
      repeat split; try apply Hpos; try apply Hneg.
  - intros p Hc Hv d. split; [|reflexivity].
    apply (submitFeedback_saves classifier now req st text u); auto.
    now rewrite Hc.
Qed.

Lemma feedback_always_recorded_witness :
  (unavailable (JsString.trim "  The quizzes are GREAT  ") = None ->
   let d := newFeedback store0 9000 7%nat "  The quizzes are GREAT  "
              (mkPrediction (fallbackSentiment "  The quizzes are GREAT  ")
                 (Some fallbackConfidence)) in
   submitFeedback unavailable 9000 praise store0
   = (with_feedbacks (fun l => l ++ [d])%list store0, submitted d)
   /\ (Feedback.sentiment d = "positive" <-> mentionsPositive "  The quizzes are GREAT  ")
   /\ (Feedback.sentiment d = "negative" <-> ~ mentionsPositive "  The quizzes are GREAT  ")
   /\ Feedback.confidence d = 6 # 10)
  /\ (forall p, unavailable (JsString.trim "  The quizzes are GREAT  ") = Some p ->
        validPrediction p = true ->
        let d := newFeedback store0 9000 7%nat "  The quizzes are GREAT  " p in
        submitFeedback unavailable 9000 praise store0
        = (with_feedbacks (fun l => l ++ [d])%list store0, submitted d)
        /\ Feedback.sentiment d = prediction_sentiment p).
Proof.
  apply (feedback_always_recorded unavailable 9000 praise store0
           "  The quizzes are GREAT  " alice).
  - reflexivity.
  - vm_compute. discriminate.
  - reflexivity.
Defined.

Example praise_recorded :
  map (fun d => (Feedback.feedback d, Feedback.sentiment d))
    (feedbacks (fst (submitFeedback unavailable 9000 praise store0)))
  = [("The quizzes are GREAT", "positive")].
Proof. reflexivity. Qed.

(** C7, as stated, fails: a text of white space is not empty, and it is
    answered with 400 and no record.  Nor is a record produced when the
    classifier returns a label that the schema refuses. *)
Lemma blank_feedback_rejected :
  let req := mkSubmitRequest 7%nat (Some "   ") in
  "   " <> ""
  /\ findUserById 7%nat (users store0) = Some alice
  /\ submitFeedback unavailable 9000 req store0
     = (store0, json 400 "Feedback text is required")
  /\ submitFeedback neutral 9000 praise store0
     = (store0, json 500 "Server error. Please try again.").
Proof. repeat split. discriminate. Qed.

(** ** Feedback listing *)

Lemma ceilDiv_spec total limit :
  0 < limit ->
  (ceilDiv total limit - 1) * limit < total <= ceilDiv total limit * limit.
Proof.
  intros H. unfold ceilDiv.
  pose proof (Z.mul_div_le (- total) limit H).
  pose proof (Z.mul_succ_div_gt (- total) limit H).
  nia.
Qed.

Lemma In_insertSorted le x y l : In y (insertSorted le x l) -> y = x \/ In y l.
Proof.
  induction l as [|z r IH]; simpl.
  - intros [<-|[]]. now left.
  - destruct (le x z); simpl.
    + intros [<-|H]; [now left|now right].
    + intros [<-|H]; [right; now left|].
      destruct (IH H) as [->|Hin]; [now left|right; now right].
Qed.

Lemma In_sortBy path asc y l : In y (sortBy path asc l) -> In y l.
Proof.
  unfold sortBy. induction l as [|x r IH]; simpl; [tauto|].
  intros H. apply In_insertSorted in H. destruct H as [->|H]; [now left|].
  right. now apply IH.
Qed.

Lemma In_firstn_list {A : Type} (y : A) n : forall l, In y (firstn n l) -> In y l.
Proof.
  induction n as [|n IH]; intros [|x l]; simpl; try tauto.
  intros [->|H]; [now left|right; now apply IH].
Qed.

Lemma In_skipn_list {A : Type} (y : A) n : forall l, In y (skipn n l) -> In y l.
Proof.
  induction n as [|n IH]; intros [|x l]; simpl; try tauto.
  intros H. right. now apply IH.
Qed.

Lemma In_skipLimit {A : Type} skip limit (l r : list A) y :
  skipLimit skip limit l = Some r -> In y r -> In y l.
Proof.
  unfold skipLimit. destruct (skip <? 0); [discriminate|].
  intros [= <-] H.
  destruct (limit =? 0); [|apply In_firstn_list in H]; now apply In_skipn_list in H.
Qed.

Lemma length_skipLimit {A : Type} skip limit (l r : list A) :
  0 < limit ->
  skipLimit skip limit l = Some r ->
  Z.of_nat (List.length r) <= limit.
Proof.
  unfold skipLimit. intros Hl. destruct (skip <? 0); [discriminate|].
  destruct (Z.eqb_spec limit 0); [lia|].
  intros [= <-]. rewrite length_firstn. lia.
Qed.

(** C8, as amended. Whenever the limit parameter parses to a positive
    integer or falls back to 10, the page parameter parses to a positive
    integer or falls back to 1, page times limit is a safe integer (at
    most 2^53 - 1, so that page, limit and the skip are exact in the
    handler's arithmetic) and the sort key is a plain one (the default
    or a name without "$" and "."), the listing answers 200 with at most
    [limit] items, all of them matching the active filters, and reports
    [totalPages = ceil(total / limit)], where [total] is the count of
    the records matching the active filters. *)
Theorem feedback_page_within_limit clock query st :
  1 <= parseIntOr (query_page query) 1 ->
  0 < parseIntOr (query_limit query) 10 ->
  parseIntOr (query_page query) 1 * parseIntOr (query_limit query) 10
  <= JsString.maxSafeInteger ->
  plainPath (stringOr (query_sortBy query) "createdAt") = true ->
  pageWithinLimit clock query st.
Proof.
  intros Hp Hl _ _. unfold pageWithinLimit, getAllFeedback, handler, bind, gets.
  fold (listingFilter clock query). fold (matching clock query st).
  set (page := parseIntOr (query_page query) 1) in *.
  set (limit := parseIntOr (query_limit query) 10) in *.
  destruct (skipLimit ((page - 1) * limit) limit _) as [found|] eqn:E.
  - cbn [ret]. eexists. eexists. split; [reflexivity|]. split; [|split].
    + rewrite length_map. now apply (length_skipLimit _ _ _ _ Hl E).
    + apply Forall_forall. intros item Hin.
      apply in_map_iff in Hin. destruct Hin as [d [<- Hd]]. cbn [fst].
      apply (In_skipLimit _ _ _ _ _ E) in Hd. now apply In_sortBy in Hd.
    + now apply ceilDiv_spec.
  - exfalso. unfold skipLimit in E.
    destruct (Z.ltb_spec ((page - 1) * limit) 0); [nia|discriminate].
Qed.

Lemma feedback_page_within_limit_witness : pageWithinLimit clock0 firstOfOne store2.
Proof.
  apply (feedback_page_within_limit clock0 firstOfOne store2).
  - vm_compute. discriminate.
  - vm_compute. reflexivity.
  - vm_compute. discriminate.
  - reflexivity.
Defined.

Example second_page_of_one :
  match body (snd (getAllFeedback clock0 firstOfOne store2)) with
  | FeedbackPage items pagination _ =>
      map (fun item => Feedback.feedback (fst item)) items = ["The quizzes are GREAT"]
      /\ pagination = mkPagination 2 2 2 1
  | _ => False
  end.
Proof. vm_compute. split; reflexivity. Qed.

(** C8, as stated, fails for a negative limit: the parameter is taken as
    it is, the page holds both records, and two items are more than a
    limit of -5.  It also fails for a negative page: the skip is
    negative, the store refuses the query and the answer is 500. *)
Lemma negative_limit_exceeded :
  match body (snd (getAllFeedback clock0 negativeLimit store2)) with
  | FeedbackPage items pagination _ =>
      code (snd (getAllFeedback clock0 negativeLimit store2)) = 200
      /\ itemsPerPage pagination = -5
      /\ List.length items = 2%nat
      /\ ~ Z.of_nat (List.length items) <= itemsPerPage pagination
  | _ => False
  end
  /\ getAllFeedback clock0 negativePage store2
     = (store2, json 500 "Server error. Please try again.").
Proof.
  split; [|vm_compute; reflexivity].
  vm_compute. repeat split; try reflexivity. intros H. apply H. reflexivity.
Qed.

(** * Further properties of the handlers *)

(** ** Newest-first lookups *)

Lemma In_insertNewest x y l : In y (insertNewest x l) <-> y = x \/ In y l.
Proof.
  induction l as [|z r IH]; simpl.
  - intuition.
  - destruct (Subscription.createdAt z <=? Subscription.createdAt x); simpl.
    + intuition.
    + rewrite IH. intuition.
Qed.

Lemma In_newestFirst y l : In y (newestFirst l) <-> In y l.
Proof.
  unfold newestFirst. induction l as [|x r IH]; simpl; [tauto|].
  rewrite In_insertNewest, IH. intuition.
Qed.

Lemma newestFirst_head l d :
  hd_error (newestFirst l) = Some d ->
  forall y, In y l -> Subscription.createdAt y <= Subscription.createdAt d.
Proof.
  revert d. unfold newestFirst. induction l as [|x r IH]; intros d; simpl.
  - discriminate.
  - fold (newestFirst r) in *.
    destruct (newestFirst r) as [|z t] eqn:E; simpl.
    + intros [= <-] y [->|Hy]; [lia|].
      apply In_newestFirst in Hy. rewrite E in Hy. destruct Hy.
    + destruct (Z.leb_spec (Subscription.createdAt z) (Subscription.createdAt x));
        simpl; intros [= <-] y [->|Hy]; try lia.
      * specialize (IH z eq_refl y Hy). lia.
      * now apply IH.
Qed.

Lemma findNewest_Some p l d :
  findNewest p l = Some d ->
  In d l /\ p d = true
  /\ forall y, In y l -> p y = true ->
       Subscription.createdAt y <= Subscription.createdAt d.
Proof.
  unfold findNewest. intros H.
  assert (Hin : In d (List.filter p l)).
  { apply In_newestFirst. destruct (newestFirst _); [discriminate|].
    injection H as ->. now left. }
  apply filter_In in Hin. destruct Hin as [Hin Hp].
  repeat split; auto.
  intros y Hy Hpy. apply (newestFirst_head _ _ H). now apply filter_In.
Qed.

Lemma findNewest_None p l :
  findNewest p l = None <-> forall y, In y l -> p y = false.
Proof.
  unfold findNewest. split.
  - intros H y Hy. destruct (p y) eqn:E; [|reflexivity].
    assert (Hin : In y (newestFirst (List.filter p l)))
      by (apply In_newestFirst, filter_In; auto).
    destruct (newestFirst _); [destruct Hin|discriminate].
  - intros H. destruct (newestFirst _) as [|d t] eqn:E; [reflexivity|].
    assert (Hin : In d (List.filter p l))
      by (apply In_newestFirst; rewrite E; now left).
    apply filter_In in Hin. destruct Hin as [Hin Hp].
    rewrite (H d Hin) in Hp. discriminate.
Qed.

Lemma findNewest_exists p l y :
  In y l -> p y = true ->
  exists d, findNewest p l = Some d
            /\ Subscription.createdAt y <= Subscription.createdAt d.
Proof.
  intros Hy Hp. destruct (findNewest p l) as [d|] eqn:E.
  - exists d. split; [reflexivity|]. now apply (findNewest_Some p l d E).
  - rewrite findNewest_None in E. rewrite (E y Hy) in Hp. discriminate.
Qed.

(** ** Payment notifications: frame, errors, redelivery *)

Lemma findSubscriptionById_unique l d :
  NoDup (map Subscription._id l) -> In d l ->
  findSubscriptionById (Subscription._id d) l = Some d.
Proof.
  unfold findSubscriptionById.
  induction l as [|x r IH]; simpl; [tauto|].
  intros Hnd [->|Hin].
  - now rewrite Nat.eqb_refl.
  - inversion Hnd as [|? ? Hx Hr]; subst.
    destruct (Nat.eqb_spec (Subscription._id x) (Subscription._id d)) as [E|_].
    + exfalso. apply Hx. rewrite E. now apply in_map.
    + now apply IH.
Qed.

Lemma findSubscriptionByOrderId_In o l d :
  findSubscriptionByOrderId o l = Some d ->
  In d l /\ o = Some (Subscription.orderId d).
Proof.
  destruct o as [oid|]; [|discriminate]. unfold findSubscriptionByOrderId.
  intros H. apply find_some in H. destruct H as [Hin H].
  apply String.eqb_eq in H. split; [exact Hin|now rewrite H].
Qed.

(** A payment notification never touches a user or a feedback document,
    and never adds, removes or reorders a subscription: the subscription
    of the notified order changes in [paymentId], [status] and
    [updatedAt] at most, and every other document stays as it was. *)
Theorem notification_frame env now n st :
  uniqueSubscriptionIds st ->
  let st' := fst (handlePaymentNotification env now n st) in
  users st' = users st
  /\ feedbacks st' = feedbacks st
  /\ Forall2 (fun d d' =>
                d' = d
                \/ (Notification.order_id n = Some (Subscription.orderId d)
                    /\ besidesPayment d' = besidesPayment d))
       (subscriptions st) (subscriptions st').
Proof.
  intros Hu.
  assert (Hsame :
            users st = users st /\ feedbacks st = feedbacks st
            /\ Forall2 (fun d d' =>
                  d' = d
                  \/ (Notification.order_id n = Some (Subscription.orderId d)
                      /\ besidesPayment d' = besidesPayment d))
                 (subscriptions st) (subscriptions st)).
  { repeat split. apply Forall2_refl. now left. }
  rewrite notification_run.
  destruct (negb _); [exact Hsame|].
  destruct (findSubscriptionByOrderId _ _) as [sub|] eqn:Hf; [|exact Hsame].
  destruct (castStatus (assignedStatus n)) as [v|]; [|exact Hsame].
  cbv zeta.
  destruct (Subscription.valid _); [|exact Hsame].
  destruct (Subscription.isModified _ _); [|exact Hsame].
  cbn [fst users feedbacks subscriptions with_subscriptions].
  split; [reflexivity|]. split; [reflexivity|].
  destruct (findSubscriptionByOrderId_In _ _ _ Hf) as [Hin Ho].
  apply replace_pointwise with (x := sub); [now left| |].
  - change (findSubscriptionById (Subscription._id sub) (subscriptions st) = Some sub).
    now apply findSubscriptionById_unique.
  - right. split; [exact Ho|reflexivity].
Qed.

Lemma notification_frame_witness :
  let st' := fst (handlePaymentNotification env0 5000 failedNotice store0) in
  users st' = users store0
  /\ feedbacks st' = feedbacks store0
  /\ Forall2 (fun d d' =>
                d' = d
                \/ (Notification.order_id failedNotice = Some (Subscription.orderId d)
                    /\ besidesPayment d' = besidesPayment d))
       (subscriptions store0) (subscriptions st').
Proof.
  apply (notification_frame env0 5000 failedNotice store0).
  unfold uniqueSubscriptionIds. simpl. repeat constructor. simpl. tauto.
Defined.

(** A notification that is not acknowledged with 200 leaves the store as
    it was; the answers are 200, 400, 404 and 500 only, and a verified
    notification for an order id that no subscription carries is
    answered with 404. *)
Theorem notification_changes_only_with_200 env now n st :
  let st' := fst (handlePaymentNotification env now n st) in
  let r := snd (handlePaymentNotification env now n st) in
  (code r <> 200 -> st' = st)
  /\ In (code r) [200; 400; 404; 500]
  /\ (verified env n ->
      findSubscriptionByOrderId (Notification.order_id n) (subscriptions st) = None ->
      r = json 404 "Subscription not found").
Proof.
  rewrite notification_run.
  destruct (negb _) eqn:Hv.
  - cbn. repeat split; auto. intros H. apply verified_check in H. congruence.
  - destruct (findSubscriptionByOrderId _ _) as [sub|] eqn:Hf.
    + destruct (castStatus (assignedStatus n)) as [v|];
        [|cbn; repeat split; auto 6; discriminate].
      cbv zeta.
      destruct (Subscription.valid _);
        [|cbn; repeat split; auto 6; discriminate].
      cbn [fst snd code]. split; [intros H; now contradiction H|].
      split; [simpl; auto|discriminate].
    + cbn. repeat split; auto 6.
Qed.

(** Immediate redelivery is harmless: when the same notification is
    handled a second time on the store as the first handling left it
    (no approval, rejection or other notification in between), at
    whatever clock reading, the answer is the same and the store stays
    exactly as it was left (not even [updatedAt] moves).  Nothing is said
    here of a redelivery after another operation: the handler assigns
    the status without looking at the current one. *)
Theorem notification_redelivery env now now' n st :
  let st1 := fst (handlePaymentNotification env now n st) in
  handlePaymentNotification env now' n st1
  = (st1, snd (handlePaymentNotification env now n st)).
Proof.
  cbv zeta. rewrite (notification_run env now n st).
  destruct (negb _) eqn:Hv;
    [cbn [fst snd]; rewrite notification_run; now rewrite Hv|].
  destruct (findSubscriptionByOrderId _ (subscriptions st)) as [sub|] eqn:Hf;
    [|cbn [fst snd]; rewrite notification_run; now rewrite Hv, Hf].
  destruct (castStatus (assignedStatus n)) as [v|] eqn:Hc;
    [|cbn [fst snd]; rewrite notification_run; now rewrite Hv, Hf, Hc].
  cbv zeta.
  destruct (Subscription.valid _) eqn:Hvalid;
    [|cbn [fst snd]; rewrite notification_run; rewrite Hv, Hf, Hc; cbv zeta;
      now rewrite Hvalid].
  destruct (Subscription.isModified sub _) eqn:Hm; cbn [fst snd];
    rewrite notification_run; rewrite Hv.
  - cbn [subscriptions with_subscriptions].
    erewrite findSubscriptionByOrderId_replace; [|exact Hf|reflexivity|reflexivity].
    rewrite Hc. cbv zeta.
    change (Subscription.valid
              (Subscription.set_status v
                 (Subscription.set_paymentId (Notification.payment_id n)
                    (Subscription.set_updatedAt now
                       (Subscription.set_status v
                          (Subscription.set_paymentId (Notification.payment_id n) sub))))))
      with (Subscription.valid
              (Subscription.set_status v
                 (Subscription.set_paymentId (Notification.payment_id n) sub))).
    rewrite Hvalid.
    unfold Subscription.isModified.
    cbn [Subscription.paymentId Subscription.status Subscription.rejectionReason
         Subscription.set_updatedAt Subscription.set_status
         Subscription.set_paymentId].
    now rewrite !eqb_ostring_refl, String.eqb_refl.
  - rewrite Hf, Hc. cbv zeta. now rewrite Hvalid, Hm.
Qed.

(** ** Looking an order up *)

(** [checkPaymentStatus] only reads, and only the requester's own
    orders: what it delivers are the fields of a stored subscription of
    the requesting user with the requested order id, and an order id
    that only other users' subscriptions carry is answered with 404. *)
Theorem check_payment_own_orders_only user orderId st :
  fst (checkPaymentStatus user orderId st) = st
  /\ (forall p, snd (checkPaymentStatus user orderId st) = Delivered p ->
        exists d, In d (subscriptions st)
                  /\ authenticated user = Some (Subscription.userId d)
                  /\ Subscription.orderId d = orderId
                  /\ p = mkPaymentStatus (Subscription.status d) (Subscription.planType d)
                           (Subscription.amount d) (Subscription.createdAt d))
  /\ (forall uid, authenticated user = Some uid ->
        (forall d, In d (subscriptions st) -> Subscription.orderId d = orderId ->
                   Subscription.userId d <> uid) ->
        snd (checkPaymentStatus user orderId st) = Refused (json 404 "Payment not found"))
  /\ (authenticated user = None ->
      snd (checkPaymentStatus user orderId st)
      = Refused (json 401 "Authentication required")).
Proof.
  unfold checkPaymentStatus, handlerOf.
  destruct (authenticated user) as [uid|].
  - unfold bind, gets.
    destruct (findOrderOf uid orderId (subscriptions st)) as [d|] eqn:Hf; cbn.
    + unfold findOrderOf in Hf. apply find_some in Hf. destruct Hf as [Hin Hd].
      apply andb_prop in Hd. destruct Hd as [Ho Hu].
      apply String.eqb_eq in Ho. apply Nat.eqb_eq in Hu.
      split; [reflexivity|]. split; [|split].
      * intros p [= <-]. exists d. repeat split; auto; now rewrite Hu.
      * intros uid' [= <-] H. exfalso. now apply (H d Hin Ho).
      * discriminate.
    + split; [reflexivity|]. split; [|split]; [discriminate|reflexivity|discriminate].
  - cbn. split; [reflexivity|]. split; [|split]; [discriminate|discriminate|reflexivity].
Qed.

Lemma initializePayment_store env now random1000 req st uid :
  authenticated (init_user req) = Some uid ->
  In (init_planType req) Subscription.planTypes ->
  fst (initializePayment env now random1000 req st)
  = with_subscriptions
      (fun l => l ++ [pendingSubscription st now random1000 uid req])%list st.
Proof.
  intros Ha Hp. unfold initializePayment, handler. rewrite Ha.
  unfold bind, gets, insertSubscription.
  cbn [Subscription.planType Subscription.status].
  apply mem_In in Hp. rewrite Hp.
  cbn [andb Js.mem existsb Subscription.statuses String.eqb Ascii.eqb Bool.eqb orb].
  cbn [modify users with_subscriptions].
  destruct (findUserById uid (users st)); reflexivity.
Qed.

Lemma find_app_new {A : Type} (p : A -> bool) l d :
  find p l = None -> p d = true -> find p (l ++ [d]) = Some d.
Proof.
  induction l as [|x r IH]; simpl; intros H Hd.
  - now rewrite Hd.
  - destruct (p x); [discriminate|]. now apply IH.
Qed.

(** The order id that an initiation at this clock reading and random
    draw generates. *)
Lemma pendingSubscription_orderId st now random1000 uid req :
  Subscription.orderId (pendingSubscription st now random1000 uid req)
  = "MC-" ++ JsString.ofZ now ++ "-" ++ JsString.ofZ random1000.
Proof. reflexivity. Qed.

(** Initiation and look-up compose: once a payment was initiated with a
    plan type of the schema, and whether or not the answer was 200 or
    404, the same user finds the generated order id with status
    "pending" and the requested plan type and amount, provided the user
    had no earlier order with that id. *)
Theorem initiated_order_is_found_pending env now random1000 req st uid :
  authenticated (init_user req) = Some uid ->
  In (init_planType req) Subscription.planTypes ->
  findOrderOf uid ("MC-" ++ JsString.ofZ now ++ "-" ++ JsString.ofZ random1000)
    (subscriptions st) = None ->
  snd (checkPaymentStatus (init_user req)
         ("MC-" ++ JsString.ofZ now ++ "-" ++ JsString.ofZ random1000)
         (fst (initializePayment env now random1000 req st)))
  = Delivered (mkPaymentStatus "pending" (init_planType req) (init_amount req) now).
Proof.
  intros Ha Hp Hnone.
  rewrite (initializePayment_store env now random1000 req st uid Ha Hp).
  unfold checkPaymentStatus, handlerOf. rewrite Ha. unfold bind, gets.
  cbn [subscriptions with_subscriptions]. unfold findOrderOf in *.
  rewrite (find_app_new _ _ (pendingSubscription st now random1000 uid req) Hnone).
  - reflexivity.
  - cbn [pendingSubscription Subscription.orderId Subscription.userId].
    now rewrite String.eqb_refl, Nat.eqb_refl.
Qed.

Lemma initiated_order_is_found_pending_witness :
  snd (checkPaymentStatus (init_user carolRequest)
         ("MC-" ++ JsString.ofZ 7000 ++ "-" ++ JsString.ofZ 5)
         (fst (initializePayment env0 7000 5 carolRequest store0)))
  = Delivered (mkPaymentStatus "pending" (init_planType carolRequest)
                 (init_amount carolRequest) 7000).
Proof.
  apply (initiated_order_is_found_pending env0 7000 5 carolRequest store0 9%nat).
  - reflexivity.
  - simpl. auto 8.
  - reflexivity.
Defined.

(** ** The current subscription of a user *)

(** For an authenticated user [getUserSubscription] only reads and
    always delivers.  The subscription it reports is a stored, approved,
    unexpired subscription of that user, and no such subscription of the
    user was created later; it reports none exactly when the user has no
    such subscription.  The level is the user's, or "Basic" when the user
    is missing or has an empty level. *)
Theorem user_subscription_is_newest_active now user st uid :
  authenticated user = Some uid ->
  exists info,
    getUserSubscription now user st = (st, Delivered info)
    /\ (forall d, info_subscription info = Some d ->
          In d (subscriptions st)
          /\ Subscription.userId d = uid
          /\ Subscription.status d = "success"
          /\ now < Subscription.endDate d
          /\ forall y, In y (subscriptions st) -> isActiveFor uid now y = true ->
               Subscription.createdAt y <= Subscription.createdAt d)
    /\ (info_subscription info = None <->
        forall y, In y (subscriptions st) -> isActiveFor uid now y = false)
    /\ info_currentLevel info = levelOrBasic (findUserById uid (users st))
    /\ info_currentLevel info <> "".
Proof.
  intros Ha. unfold getUserSubscription, handlerOf. rewrite Ha.
  unfold bind, gets. cbn [ret]. eexists. split; [reflexivity|].
  cbn [info_subscription info_currentLevel]. repeat split.
  - now apply (findNewest_Some _ _ _ H).
  - apply findNewest_Some in H. destruct H as [_ [H _]].
    unfold isActiveFor in H. apply andb_prop in H. destruct H as [H _].
    apply andb_prop in H. destruct H as [H _]. now apply Nat.eqb_eq.
  - apply findNewest_Some in H. destruct H as [_ [H _]].
    unfold isActiveFor in H. apply andb_prop in H. destruct H as [H _].
    apply andb_prop in H. destruct H as [_ H]. now apply String.eqb_eq.
  - apply findNewest_Some in H. destruct H as [_ [H _]].
    unfold isActiveFor in H. apply andb_prop in H. destruct H as [_ H].
    now apply Z.ltb_lt.
  - now apply (findNewest_Some _ _ _ H).
  - now apply findNewest_None.
  - now apply findNewest_None.
  - unfold levelOrBasic. destruct (findUserById uid (users st)) as [u|]; [|discriminate].
    destruct (User.subscriptionLevel u); simpl; discriminate.
Qed.

Lemma user_subscription_is_newest_active_witness :
  exists info,
    getUserSubscription 6000 (asUser 7%nat) (fst (approveSubscription 5000 1%nat store0))
    = (fst (approveSubscription 5000 1%nat store0), Delivered info)
    /\ (forall d, info_subscription info = Some d ->
          In d (subscriptions (fst (approveSubscription 5000 1%nat store0)))
          /\ Subscription.userId d = 7%nat
          /\ Subscription.status d = "success"
          /\ 6000 < Subscription.endDate d
          /\ forall y, In y (subscriptions (fst (approveSubscription 5000 1%nat store0))) ->
               isActiveFor 7%nat 6000 y = true ->
               Subscription.createdAt y <= Subscription.createdAt d)
    /\ (info_subscription info = None <->
        forall y, In y (subscriptions (fst (approveSubscription 5000 1%nat store0))) ->
                  isActiveFor 7%nat 6000 y = false)
    /\ info_currentLevel info
       = levelOrBasic (findUserById 7%nat (users (fst (approveSubscription 5000 1%nat store0))))
    /\ info_currentLevel info <> "".
Proof.
  apply (user_subscription_is_newest_active 6000 (asUser 7%nat)
           (fst (approveSubscription 5000 1%nat store0)) 7%nat).
  reflexivity.
Defined.

(** ** Forcing and setting a user's level *)

Lemma findUserById_replace_other id u l :
  id <> User._id u ->
  findUserById id (replaceUser u l) = findUserById id l.
Proof.
  unfold findUserById. intros Hne.
  induction l as [|y r IH]; simpl; [reflexivity|].
  destruct (Nat.eqb (User._id y) (User._id u)) eqn:E; simpl.
  - apply Nat.eqb_eq in E.
    destruct (Nat.eqb (User._id u) id) eqn:E1.
    + apply Nat.eqb_eq in E1. congruence.
    + destruct (Nat.eqb (User._id y) id) eqn:E2; [|reflexivity].
      apply Nat.eqb_eq in E2. congruence.
  - destruct (Nat.eqb (User._id y) id); [reflexivity|exact IH].
Qed.

Lemma findUserById_set_level id level l u :
  findUserById id l = Some u ->
  findUserById id (replaceUser (User.set_subscriptionLevel level u) l)
  = Some (User.set_subscriptionLevel level u).
Proof.
  intros H. pose proof (findUserById_id _ _ _ H) as Hid. subst id.
  change (User._id u) with (User._id (User.set_subscriptionLevel level u)).
  now apply findUserById_replace_same with (x := u).
Qed.

(** What [findByIdAndUpdate] does to the store and returns. *)
Lemma findUserByIdAndUpdate_run id level st :
  findUserByIdAndUpdate id level st
  = match findUserById id (users st) with
    | Some u =>
        (with_users (replaceUser (User.set_subscriptionLevel level u)) st,
         Value (Some (User.set_subscriptionLevel level u)))
    | None => (st, Value None)
    end.
Proof.
  unfold findUserByIdAndUpdate, bind, gets.
  destruct (findUserById id (users st)); reflexivity.
Qed.



(** [updateUserSubscriptionLevel] accepts exactly the plan types of the
    subscription schema.  Any other level, or none, is answered with 400
    before the user is looked up; a valid level for a user that does not
    exist is answered with 404; both leave the store as it was.
    Otherwise that user's level is the requested one afterwards, the
    written user is delivered, and no other user, subscription or
    feedback changes. *)
Theorem manual_level_update userId level st :
  let st' := fst (updateUserSubscriptionLevel userId level st) in
  let r := snd (updateUserSubscriptionLevel userId level st) in
  subscriptions st' = subscriptions st
  /\ feedbacks st' = feedbacks st
  /\ (forall other, other <> userId ->
        findUserById other (users st') = findUserById other (users st))
  /\ ((forall s, level = Some s -> ~ In s Subscription.planTypes) ->
      r = Refused (json 400 "Invalid subscription level") /\ st' = st)
  /\ (forall s, level = Some s -> In s Subscription.planTypes ->
        match findUserById userId (users st) with
        | Some u =>
            r = Delivered (mkUserUpdate "User subscription level updated successfully"
                             (User.set_subscriptionLevel s u))
            /\ findUserById userId (users st') = Some (User.set_subscriptionLevel s u)
        | None => r = Refused (json 404 "User not found") /\ st' = st
        end).
Proof.
  unfold updateUserSubscriptionLevel, handlerOf.
  destruct level as [s|]; cbn [includesField Js.ofField Js.toString].
  - change validLevels with Subscription.planTypes.
    destruct (Js.mem s Subscription.planTypes) eqn:Hm; cbn [negb].
    + apply mem_In in Hm. unfold bind. rewrite !findUserByIdAndUpdate_run.
      destruct (findUserById userId (users st)) as [u|] eqn:Hu.
      * cbn [ret fst snd subscriptions feedbacks users with_users].
        pose proof (findUserById_id _ _ _ Hu) as Hid.
        split; [reflexivity|]. split; [reflexivity|]. split; [|split].
        -- intros other Hne. apply findUserById_replace_other. cbn. congruence.
        -- intros H. exfalso. now apply (H s eq_refl).
        -- intros s' [= <-] _. split; [reflexivity|].
           now apply findUserById_set_level.
      * cbn [ret respond fst snd].
        split; [reflexivity|]. split; [reflexivity|]. split; [reflexivity|]. split.
        -- intros H. exfalso. now apply (H s eq_refl).
        -- intros s' [= <-] _. now split.
    + cbn [respond fst snd].
      split; [reflexivity|]. split; [reflexivity|]. split; [reflexivity|]. split.
      * intros _. now split.
      * intros s' [= <-] Hin. apply mem_In in Hin. congruence.
  - cbn [negb respond fst snd].
    split; [reflexivity|]. split; [reflexivity|]. split; [reflexivity|]. split.
    + intros _. now split.
    + discriminate.
Qed.

(** ** Decisions of the administrator *)

(** An approval shows in the user's status: after [approveSubscription]
    was called for a pending or paid subscription of an existing user,
    the stored document satisfying the schema (so that the approval is
    saved), that user's status request reports the plan type as the
    current level; and while the subscription has not expired it reports
    an active subscription, approved and created no earlier than this
    one. *)
Theorem approval_shows_in_status now now' id st sub u :
  findSubscriptionById id (subscriptions st) = Some sub ->
  open (Subscription.status sub) ->
  Subscription.valid sub = true ->
  findUserById (Subscription.userId sub) (users st) = Some u ->
  exists r,
    snd (getUserSubscriptionStatus now' (asUser (Subscription.userId sub))
           (fst (approveSubscription now id st)))
    = Delivered r
    /\ status_currentLevel r = Subscription.planType sub
    /\ (now' < Subscription.endDate sub ->
        exists a, status_activeSubscription r = Some a
                  /\ Subscription.status a = "success"
                  /\ Subscription.userId a = Subscription.userId sub
                  /\ Subscription.createdAt sub <= Subscription.createdAt a).
Proof.
  intros Hf Ho Hv Hu.
  rewrite (approve_open now id st sub Hf Ho Hv). cbn [fst].
  set (st1 := with_subscriptions (replaceSubscription (approved now sub)) st).
  unfold getUserSubscriptionStatus, handlerOf, asUser. cbn [authenticated userId].
  unfold bind, gets.
  assert (Hu' : findUserById (Subscription.userId sub) (users (copyLevel sub st1))
                = Some (User.set_subscriptionLevel (Subscription.planType sub) u)).
  { unfold copyLevel. subst st1. cbn [users with_subscriptions]. rewrite Hu.
    cbn [users with_users]. now apply findUserById_set_level. }
  rewrite Hu'. cbn [ret snd]. eexists. split; [reflexivity|].
  cbn [status_currentLevel status_activeSubscription]. split; [reflexivity|].
  intros Hend. rewrite copyLevel_subscriptions.
  assert (Hin : In (approved now sub) (subscriptions st1)).
  { pose proof (findSubscriptionById_id _ _ _ Hf) as Hid. subst st1.
    cbn [subscriptions with_subscriptions].
    assert (E : findSubscriptionById (Subscription._id (approved now sub))
                  (replaceSubscription (approved now sub) (subscriptions st))
                = Some (approved now sub)).
    { apply findSubscriptionById_replace_same with (x := sub).
      cbn [approved Subscription._id Subscription.set_updatedAt Subscription.set_status].
      now rewrite Hid. }
    unfold findSubscriptionById in E. now apply find_some in E. }
  destruct (findNewest_exists (isActiveFor (Subscription.userId sub) now')
              (subscriptions st1) (approved now sub) Hin) as [a [Ha Hle]].
  { unfold isActiveFor. cbn. rewrite Nat.eqb_refl. cbn. now apply Z.ltb_lt. }
  exists a. split; [exact Ha|].
  apply findNewest_Some in Ha. destruct Ha as [_ [Hp _]].
  unfold isActiveFor in Hp. apply andb_prop in Hp. destruct Hp as [Hp _].
  apply andb_prop in Hp. destruct Hp as [Hp1 Hp2].
  apply Nat.eqb_eq in Hp1. apply String.eqb_eq in Hp2.
  repeat split; auto.
Qed.

Lemma approval_shows_in_status_witness :
  exists r,
    snd (getUserSubscriptionStatus 6000 (asUser (Subscription.userId order0))
           (fst (approveSubscription 5000 1%nat store0)))
    = Delivered r
    /\ status_currentLevel r = Subscription.planType order0
    /\ (6000 < Subscription.endDate order0 ->
        exists a, status_activeSubscription r = Some a
                  /\ Subscription.status a = "success"
                  /\ Subscription.userId a = Subscription.userId order0
                  /\ Subscription.createdAt order0 <= Subscription.createdAt a).
Proof.
  apply (approval_shows_in_status 5000 6000 1%nat store0 order0 alice).
  - reflexivity.
  - left. reflexivity.
  - reflexivity.
  - reflexivity.
Defined.

(** A decision of the administrator is final for the administrator:
    once an approval or a rejection of a pending or paid subscription
    went through (the stored document satisfying the schema), then,
    whatever approvals and rejections of this or of other subscriptions
    follow, every later approval and every later rejection of that
    subscription is answered with 400 and changes nothing.  A payment
    notification in between is not covered: it may put the subscription
    back to "pending" or "paid". *)
Theorem decision_is_final env now o id st sub ops :
  findSubscriptionById id (subscriptions st) = Some sub ->
  open (Subscription.status sub) ->
  Subscription.valid sub = true ->
  (o = Approve id \/ exists reason, o = Reject id reason) ->
  Forall administrative ops ->
  let st' := run env ops (step env st (now, o)) in
  forall now' reason',
    approveSubscription now' id st'
    = (st', json 400 "Only pending or paid subscriptions can be approved")
    /\ rejectSubscription now' id reason' st'
       = (st', json 400 "Only pending or paid subscriptions can be rejected").
Proof.
  intros Hf Ho Hv Hop Hops st' now' reason'.
  pose proof (findSubscriptionById_id _ _ _ Hf) as Hid.
  assert (Hdecided : exists s, statusOf id (step env st (now, o)) = Some s /\ ~ open s).
  { destruct Hop as [->|[reason ->]]; cbn [step].
    - rewrite (approve_open now id st sub Hf Ho Hv). cbn [fst].
      rewrite statusOf_copyLevel. exists "success". split.
      + rewrite <- Hid in Hf |- *.
        change (Subscription._id sub) with (Subscription._id (approved now sub)).
        now rewrite (statusOf_replace_same (approved now sub) st sub Hf).
      + unfold open. intuition discriminate.
    - rewrite (reject_open now id reason st sub Hf Ho Hv). cbn [fst].
      exists "failed". split.
      + rewrite <- Hid in Hf |- *.
        rewrite <- (rejected_id now reason sub) in Hf |- *.
        rewrite (statusOf_replace_same (rejected now reason sub) st sub Hf).
        now rewrite rejected_status.
      + unfold open. intuition discriminate. }
  destruct Hdecided as [s [Hs Hn]].
  destruct (admin_run env ops _ id s Hops Hs) as [Hkeep _].
  specialize (Hkeep Hn). fold st' in Hkeep. unfold statusOf in Hkeep.
  destruct (findSubscriptionById id (subscriptions st')) as [d|] eqn:Hd;
    [|discriminate].
  cbn [option_map] in Hkeep. injection Hkeep as Hkeep. rewrite <- Hkeep in Hn.
  split.
  - now apply approve_closed with (sub := d).
  - now apply reject_closed with (sub := d).
Qed.

Lemma decision_is_final_witness :
  let st' := run env0 [(5500, Approve 1%nat); (5600, Reject 1%nat None)]
               (step env0 store0 (5000, Reject 1%nat (Some "late"))) in
  approveSubscription 6000 1%nat st'
  = (st', json 400 "Only pending or paid subscriptions can be approved")
  /\ rejectSubscription 6000 1%nat None st'
     = (st', json 400 "Only pending or paid subscriptions can be rejected").
Proof.
  refine (decision_is_final env0 5000 (Reject 1%nat (Some "late")) 1%nat store0 order0
            [(5500, Approve 1%nat); (5600, Reject 1%nat None)] _ _ _ _ _ 6000 None).
  - reflexivity.
  - left. reflexivity.
  - reflexivity.
  - right. exists (Some "late"). reflexivity.
  - repeat constructor.
Defined.

Lemma replaceUser_pointwise (P : User.t -> User.t -> Prop) u l x :
  (forall y, P y y) ->
  findUserById (User._id u) l = Some x ->
  P x u ->
  Forall2 P l (replaceUser u l).
Proof.
  intros Hrefl Hf Hu. unfold findUserById in Hf.
  induction l as [|y r IH]; simpl in *; [constructor|].
  destruct (Nat.eqb (User._id y) (User._id u)) eqn:E.
  - injection Hf as ->. constructor; [exact Hu|]. now apply Forall2_refl.
  - constructor; [apply Hrefl|now apply IH].
Qed.

(** The frame of an approval: [approveSubscription] changes the approved
    subscription in [status] and [updatedAt] only, and the user of that
    subscription in the subscription level only; every other
    subscription, every other user and every feedback document stays as
    it was, and nothing is added or removed. *)
Theorem approve_frame now id st :
  let st' := fst (approveSubscription now id st) in
  feedbacks st' = feedbacks st
  /\ Forall2 (fun d d' =>
                d' = d \/ (Subscription._id d = id /\ besidesStatus d' = besidesStatus d))
       (subscriptions st) (subscriptions st')
  /\ Forall2 (fun u u' =>
                u' = u
                \/ exists sub, findSubscriptionById id (subscriptions st) = Some sub
                               /\ User._id u = Subscription.userId sub
                               /\ u' = User.set_subscriptionLevel
                                         (Subscription.planType sub) u)
       (users st) (users st').
Proof.
  destruct (findSubscriptionById id (subscriptions st)) as [sub|] eqn:Hf.
  - destruct (open_dec (Subscription.status sub)) as [Ho|Hn];
      [destruct (Subscription.valid sub) eqn:Hv|].
    + rewrite (approve_open now id st sub Hf Ho Hv). cbn [fst].
      pose proof (findSubscriptionById_id _ _ _ Hf) as Hid.
      unfold copyLevel. cbn [users with_subscriptions].
      assert (Hsubs : Forall2 (fun d d' =>
                d' = d \/ (Subscription._id d = id /\ besidesStatus d' = besidesStatus d))
                (subscriptions st) (replaceSubscription (approved now sub) (subscriptions st))).
      { apply replace_pointwise with (x := sub); [now left| |].
        - cbn. now rewrite Hid.
        - right. split; [exact Hid|reflexivity]. }
      destruct (findUserById (Subscription.userId sub) (users st)) as [u|] eqn:Hu.
      * cbn [feedbacks subscriptions users with_users with_subscriptions].
        split; [reflexivity|]. split; [exact Hsubs|].
        pose proof (findUserById_id _ _ _ Hu) as Huid.
        apply replaceUser_pointwise with (x := u); [now left| |].
        -- cbn. now rewrite Huid.
        -- right. exists sub. auto.
      * cbn [feedbacks subscriptions users with_subscriptions].
        split; [reflexivity|]. split; [exact Hsubs|].
        apply Forall2_refl. now left.
    + rewrite (approve_invalid now id st sub Hf Ho Hv). cbn [fst].
      repeat split; apply Forall2_refl; now left.
    + rewrite (approve_closed now id st sub Hf Hn). cbn [fst].
      repeat split; apply Forall2_refl; now left.
  - rewrite (approve_missing now id st Hf). cbn [fst].
    repeat split; apply Forall2_refl; now left.
Qed.

(** ** Listing order *)

Lemma compareBool_antisym a b : compareBool a b = CompOpp (compareBool b a).
Proof. now destruct a, b. Qed.

Lemma compareOption_antisym {A : Type} (cmp : A -> A -> comparison) a b :
  (forall x y, cmp x y = CompOpp (cmp y x)) ->
  compareOption cmp a b = CompOpp (compareOption cmp b a).
Proof. intros H. destruct a, b; simpl; auto. Qed.

Lemma comparePath_antisym path a b :
  comparePath path a b = CompOpp (comparePath path b a).
Proof.
  unfold comparePath.
  repeat (match goal with |- context [String.eqb ?x ?y] =>
                            destruct (String.eqb x y) end;
          [first [apply Z.compare_antisym
                 |symmetry; apply Qcompare_antisym
                 |apply String.compare_antisym
                 |apply Nat.compare_antisym
                 |apply compareBool_antisym
                 |apply compareOption_antisym; intros;
                  first [apply Z.compare_antisym
                        |apply Nat.compare_antisym
                        |apply String.compare_antisym]]|]).
  reflexivity.
Qed.

Lemma before_total path asc a b :
  before path asc a b = false -> before path asc b a = true.
Proof.
  unfold before. destruct asc.
  - rewrite (comparePath_antisym path b a).
    destruct (comparePath path a b); simpl; congruence.
  - rewrite (comparePath_antisym path a b).
    destruct (comparePath path b a); simpl; congruence.
Qed.

Section Sorting.

Variable le : Feedback.t -> Feedback.t -> bool.
Hypothesis le_total : forall a b, le a b = false -> le b a = true.

Let R (a b : Feedback.t) : Prop := le a b = true.

Lemma insertSorted_HdRel x y l :
  R y x -> HdRel R y l -> HdRel R y (insertSorted le x l).
Proof.
  intros Hyx Hl. destruct l as [|z r]; simpl.
  - now constructor.
  - destruct (le x z); constructor; auto. now apply HdRel_inv in Hl.
Qed.

Lemma insertSorted_Sorted x l : Sorted R l -> Sorted R (insertSorted le x l).
Proof.
  induction l as [|y r IH]; simpl; intros Hs.
  - repeat constructor.
  - destruct (le x y) eqn:E.
    + constructor; [exact Hs|]. now constructor.
    + apply Sorted_inv in Hs. destruct Hs as [Hr Hh].
      constructor; [now apply IH|].
      apply insertSorted_HdRel; [|exact Hh]. now apply le_total.
Qed.

Lemma fold_insertSorted_Sorted l : Sorted R (fold_right (insertSorted le) [] l).
Proof.
  induction l as [|x r IH]; simpl; [constructor|now apply insertSorted_Sorted].
Qed.

End Sorting.

Lemma Sorted_skipn {A : Type} (R : A -> A -> Prop) n :
  forall l, Sorted R l -> Sorted R (skipn n l).
Proof.
  induction n as [|n IH]; intros [|x l] H; simpl; auto.
  apply IH. now apply Sorted_inv in H.
Qed.

Lemma Sorted_firstn {A : Type} (R : A -> A -> Prop) n :
  forall l, Sorted R l -> Sorted R (firstn n l).
Proof.
  induction n as [|n IH]; intros [|x l] H; simpl; try constructor.
  - apply IH. now apply Sorted_inv in H.
  - apply Sorted_inv in H. destruct H as [_ H].
    destruct l as [|y l]; destruct n; simpl; constructor.
    now apply HdRel_inv in H.
Qed.

Lemma sortBy_Sorted path asc l :
  Sorted (fun a b => before path asc a b = true) (sortBy path asc l).
Proof.
  unfold sortBy. apply fold_insertSorted_Sorted. apply before_total.
Qed.

Lemma skipLimit_Sorted {A : Type} (R : A -> A -> Prop) skip limit l r :
  skipLimit skip limit l = Some r -> Sorted R l -> Sorted R r.
Proof.
  unfold skipLimit. destruct (skip <? 0); [discriminate|].
  intros [= <-] H. destruct (limit =? 0).
  - now apply Sorted_skipn.
  - now apply Sorted_firstn, Sorted_skipn.
Qed.

Lemma Sorted_weaken {A : Type} (R S : A -> A -> Prop) l :
  (forall a b, R a b -> S a b) -> Sorted R l -> Sorted S l.
Proof.
  intros H. induction 1 as [|x l Hs IH Hh]; constructor; auto.
  destruct Hh; constructor; auto.
Qed.

(** ** A user's own feedback *)

Lemma before_createdAt_desc a b :
  before "createdAt" false a b = true -> newerFirst a b.
Proof.
  unfold before, newerFirst.
  change (comparePath "createdAt" b a)
    with (Feedback.createdAt b ?= Feedback.createdAt a).
  destruct (Feedback.createdAt b ?= Feedback.createdAt a) eqn:E; try discriminate; intros _.
  - apply Z.compare_eq in E. rewrite E. apply Z.le_refl.
  - apply Z.compare_lt_iff in E. now apply Z.lt_le_incl.
Qed.

Lemma getUserFeedback_items userId queryPage queryLimit st p :
  snd (getUserFeedback userId queryPage queryLimit st) = Delivered p ->
  Forall (fun d => In d (feedbacks st)
                   /\ Feedback.user d = userId
                   /\ Feedback.isActive d = true) (page_feedback p).
Proof.
  unfold getUserFeedback, handlerOf, bind, gets.
  destruct (skipLimit _ _ _) as [found|] eqn:E; cbn [ret throw snd]; [|discriminate].
  intros [= <-]. cbn [page_feedback].
  apply Forall_forall. intros d Hd.
  apply (In_skipLimit _ _ _ _ _ E) in Hd. apply In_sortBy in Hd.
  apply filter_In in Hd. destruct Hd as [Hin Hd].
  unfold ownActive in Hd. apply andb_prop in Hd. destruct Hd as [Hu Ha].
  apply Nat.eqb_eq in Hu. auto.
Qed.

(** [getUserFeedback] only reads.  Whatever the paging parameters, a page
    that it delivers holds stored feedback of the requesting user only,
    never a deleted one, newest first; it reports the number of the
    user's active feedback documents as the total; and with a positive
    limit it holds at most [limit] of them. *)
Theorem user_feedback_is_own_and_newest_first userId queryPage queryLimit st :
  fst (getUserFeedback userId queryPage queryLimit st) = st
  /\ forall p, snd (getUserFeedback userId queryPage queryLimit st) = Delivered p ->
       Forall (fun d => In d (feedbacks st)
                        /\ Feedback.user d = userId
                        /\ Feedback.isActive d = true) (page_feedback p)
       /\ Sorted newerFirst (page_feedback p)
       /\ totalItems (page_pagination p)
          = Z.of_nat (List.length (List.filter (ownActive userId) (feedbacks st)))
       /\ (0 < parseIntOr queryLimit 5 ->
           Z.of_nat (List.length (page_feedback p)) <= parseIntOr queryLimit 5).
Proof.
  unfold getUserFeedback, handlerOf, bind, gets.
  set (page := parseIntOr queryPage 1). set (limit := parseIntOr queryLimit 5).
  destruct (skipLimit ((page - 1) * limit) limit _) as [found|] eqn:E;
    cbn [ret throw fst snd]; (split; [reflexivity|]); [|discriminate].
  intros p [= <-]. cbn [page_feedback page_pagination totalItems].
  split; [|split; [|split]].
  - apply (getUserFeedback_items userId queryPage queryLimit st
             (mkUserFeedbackPage found
                (mkPagination page (ceilDiv
                   (Z.of_nat (List.length (List.filter (ownActive userId) (feedbacks st))))
                   limit)
                   (Z.of_nat (List.length (List.filter (ownActive userId) (feedbacks st))))
                   limit))).
    unfold getUserFeedback, handlerOf, bind, gets. fold page. fold limit.
    now rewrite E.
  - apply (Sorted_weaken (fun a b => before "createdAt" false a b = true));
      [apply before_createdAt_desc|].
    apply (skipLimit_Sorted _ _ _ _ _ E). apply sortBy_Sorted.
  - reflexivity.
  - intros Hl. now apply (length_skipLimit _ _ _ _ Hl E).
Qed.

(** ** The order of a listing *)

Lemma getAllFeedback_page clock query st items pagination applied :
  snd (getAllFeedback clock query st)
  = mkResponse 200 (FeedbackPage items pagination applied) ->
  exists found,
    skipLimit ((parseIntOr (query_page query) 1 - 1) * parseIntOr (query_limit query) 10)
      (parseIntOr (query_limit query) 10)
      (sortBy (stringOr (query_sortBy query) "createdAt")
         (String.eqb (stringOr (query_sortOrder query) "desc") "asc")
         (matching clock query st))
    = Some found
    /\ items = map (fun d => (d, findUserById (Feedback.user d) (users st))) found.
Proof.
  unfold getAllFeedback, handler, bind, gets.
  fold (listingFilter clock query). fold (matching clock query st).
  destruct (skipLimit _ _ _) as [found|]; cbn [ret throw snd]; [|discriminate].
  intros [= <- _ _]. now exists found.
Qed.

Lemma getAllFeedback_items clock query st items pagination applied :
  snd (getAllFeedback clock query st)
  = mkResponse 200 (FeedbackPage items pagination applied) ->
  Forall (fun item =>
            In (fst item) (feedbacks st)
            /\ matches (listingFilter clock query) (fst item) = true
            /\ Feedback.isActive (fst item) = true
            /\ snd item = findUserById (Feedback.user (fst item)) (users st)) items.
Proof.
  intros H. apply getAllFeedback_page in H. destruct H as [found [E ->]].
  apply Forall_forall. intros item Hin.
  apply in_map_iff in Hin. destruct Hin as [d [<- Hd]]. cbn [fst snd].
  apply (In_skipLimit _ _ _ _ _ E) in Hd. apply In_sortBy in Hd.
  unfold matching in Hd. apply filter_In in Hd. destruct Hd as [Hin Hm].
  repeat split; auto.
  unfold matches in Hm. repeat (apply andb_prop in Hm; destruct Hm as [Hm _]).
  exact Hm.
Qed.

(** The items of every page that [getAllFeedback] returns are in the
    requested order: by the [sortBy] path (by default [createdAt]),
    ascending for [sortOrder=asc] and descending otherwise; each item is
    an active document that passes the filters, paired with the user
    that its [user] field names. *)
Theorem listing_is_ordered clock query st items pagination applied :
  snd (getAllFeedback clock query st)
  = mkResponse 200 (FeedbackPage items pagination applied) ->
  Sorted (fun a b =>
            before (stringOr (query_sortBy query) "createdAt")
              (String.eqb (stringOr (query_sortOrder query) "desc") "asc") a b = true)
    (map fst items)
  /\ Forall (fun item =>
               In (fst item) (feedbacks st)
               /\ matches (listingFilter clock query) (fst item) = true
               /\ Feedback.isActive (fst item) = true
               /\ snd item = findUserById (Feedback.user (fst item)) (users st)) items
  /\ (query_sortBy query = None -> query_sortOrder query = None ->
      Sorted newerFirst (map fst items)).
Proof.
  intros H. pose proof (getAllFeedback_items _ _ _ _ _ _ H) as Hitems.
  apply getAllFeedback_page in H. destruct H as [found [E ->]].
  rewrite map_map. cbn [fst]. rewrite map_id.
  assert (Hs : Sorted (fun a b =>
            before (stringOr (query_sortBy query) "createdAt")
              (String.eqb (stringOr (query_sortOrder query) "desc") "asc") a b = true)
            found).
  { apply (skipLimit_Sorted _ _ _ _ _ E). apply sortBy_Sorted. }
  split; [exact Hs|]. split; [exact Hitems|].
  intros Hb Ho. rewrite Hb, Ho in Hs. cbn [stringOr] in Hs.
  apply (Sorted_weaken _ _ _ before_createdAt_desc).
  exact Hs.
Qed.

Lemma listing_is_ordered_witness :
  Sorted (fun a b =>
            before (stringOr (query_sortBy bySentiment) "createdAt")
              (String.eqb (stringOr (query_sortOrder bySentiment) "desc") "asc") a b = true)
    (map fst bySentimentItems)
  /\ Forall (fun item =>
               In (fst item) (feedbacks store2)
               /\ matches (listingFilter clock0 bySentiment) (fst item) = true
               /\ Feedback.isActive (fst item) = true
               /\ snd item = findUserById (Feedback.user (fst item)) (users store2))
       bySentimentItems
  /\ (query_sortBy bySentiment = None -> query_sortOrder bySentiment = None ->
      Sorted newerFirst (map fst bySentimentItems)).
Proof.
  apply (listing_is_ordered clock0 bySentiment store2 bySentimentItems
           (mkPagination 1 1 2 10) (mkApplied "all" "all" "all" "sentiment" "asc")).
  vm_compute. reflexivity.
Defined.

(** The order is the database's on every path of the schema: by
    ascending sentiment the later, negative, feedback comes first; a
    smaller [user] sorts before a larger one, and a document without
    [reviewedAt] before one that has it. *)
Example listing_orders :
  map (fun item => (Feedback._id (fst item), Feedback.sentiment (fst item)))
    bySentimentItems
  = [(2%nat, "negative"); (1%nat, "positive")]
  /\ comparePath "user"
       (Feedback.mk 1%nat 3%nat "a" "positive" 1 true false None None false
          None None None "medium" "general" 0 0)
       (Feedback.mk 2%nat 7%nat "b" "positive" 1 true false None None false
          None None None "medium" "general" 0 0) = Lt
  /\ comparePath "reviewedAt"
       (Feedback.mk 1%nat 3%nat "a" "positive" 1 true false None None false
          None None None "medium" "general" 0 0)
       (Feedback.mk 2%nat 7%nat "b" "positive" 1 true true (Some 3%nat) (Some 50) false
          None None None "medium" "general" 0 0) = Lt.
Proof. vm_compute. repeat split. Qed.

(** ** What a submission leaves behind *)

(** [submitFeedback] writes only when it answers 201: every other answer
    (400, 404, 500) leaves the store as it was.  When it answers 201 it
    has appended exactly one active feedback document of the submitting
    user, under an [_id] that no stored feedback had, and has left every
    stored document in place. *)
Theorem submission_all_or_nothing classifier now req st :
  let st' := fst (submitFeedback classifier now req st) in
  let r := snd (submitFeedback classifier now req st) in
  (code r <> 201 -> st' = st)
  /\ In (code r) [201; 400; 404; 500]
  /\ (code r = 201 ->
      exists d, st' = with_feedbacks (fun l => l ++ [d])%list st
                /\ Feedback.user d = submit_userId req
                /\ Feedback.isActive d = true
                /\ findFeedbackById (Feedback._id d) (feedbacks st) = None).
Proof.
  assert (Hno : forall c m, c <> 201 -> In c [201; 400; 404; 500] ->
            (code (json c m) <> 201 -> st = st)
            /\ In (code (json c m)) [201; 400; 404; 500]
            /\ (code (json c m) = 201 ->
                exists d, st = with_feedbacks (fun l => l ++ [d])%list st
                          /\ Feedback.user d = submit_userId req
                          /\ Feedback.isActive d = true
                          /\ findFeedbackById (Feedback._id d) (feedbacks st) = None)).
  { intros c m Hc Hin. cbn [code json]. split; [reflexivity|]. split; [exact Hin|].
    intros E. contradiction. }
  unfold submitFeedback, handler.
  destruct (submit_feedback req) as [text|];
    [|apply Hno; [discriminate|simpl; auto]].
  destruct (_ || _); [apply Hno; [discriminate|simpl; auto]|].
  unfold bind, gets.
  destruct (findUserById _ _); [|apply Hno; [discriminate|simpl; auto]].
  unfold insertFeedback.
  destruct (_ && _); [|apply Hno; [discriminate|simpl; auto 6]].
  cbn [modify ret throw fst snd code json].
  - split; [intros H; now contradiction H|]. split; [simpl; auto|].
    intros _. eexists. split; [reflexivity|].
    cbn [Feedback.user Feedback.isActive Feedback._id].
    repeat split.
    unfold findFeedbackById.
    destruct (find _ (feedbacks st)) as [d|] eqn:E; [|reflexivity].
    apply find_some in E. destruct E as [Hin He]. apply Nat.eqb_eq in He.
    assert (Hle : (Feedback._id d <= list_max (map Feedback._id (feedbacks st)))%nat)
      by (apply list_max_ge, in_map, Hin).
    unfold freshId in He. lia.
Qed.

(** ** Deleting feedback *)

Lemma findFeedbackById_id id l d :
  findFeedbackById id l = Some d -> Feedback._id d = id.
Proof.
  unfold findFeedbackById. intros H. apply find_some in H.
  destruct H as [_ H]. now apply Nat.eqb_eq in H.
Qed.

Lemma findFeedbackById_replace_same d l x :
  findFeedbackById (Feedback._id d) l = Some x ->
  findFeedbackById (Feedback._id d) (replaceFeedback d l) = Some d.
Proof.
  unfold findFeedbackById.
  induction l as [|y r IH]; simpl; [discriminate|].
  destruct (Nat.eqb (Feedback._id y) (Feedback._id d)) eqn:E; simpl.
  - intros _. now rewrite Nat.eqb_refl.
  - rewrite E. exact IH.
Qed.

Lemma replaceFeedback_pointwise (P : Feedback.t -> Feedback.t -> Prop) d l x :
  (forall y, P y y) ->
  findFeedbackById (Feedback._id d) l = Some x ->
  P x d ->
  Forall2 P l (replaceFeedback d l).
Proof.
  intros Hrefl Hf Hd. unfold findFeedbackById in Hf.
  induction l as [|y r IH]; simpl in *; [constructor|].
  destruct (Nat.eqb (Feedback._id y) (Feedback._id d)) eqn:E.
  - injection Hf as ->. constructor; [exact Hd|]. now apply Forall2_refl.
  - constructor; [apply Hrefl|now apply IH].
Qed.

Lemma deleteFeedback_run now requester id st :
  deleteFeedback now requester id st
  = match findFeedbackById id (feedbacks st) with
    | None => (st, json 404 "Feedback not found")
    | Some d =>
        if mayDelete requester d
        then if Feedback.valid d
             then ((if Feedback.isActive d
                    then with_feedbacks (replaceFeedback (deactivated now d)) st
                    else st),
                   json 200 "Feedback deleted successfully")
             else (st, json 500 "Server error. Please try again.")
        else (st, json 403 "Access denied")
    end.
Proof.
  unfold deleteFeedback, handler, bind, gets, mayDelete.
  destruct (findFeedbackById id (feedbacks st)) as [d|]; [|reflexivity].
  destruct (isAdminRole _), (Nat.eqb _ _); cbn [negb andb orb]; try reflexivity;
    unfold saveDeactivated; destruct (Feedback.valid d); try reflexivity;
    destruct (Feedback.isActive d); reflexivity.
Qed.

(** Deleting is soft and guarded.  [deleteFeedback] never removes a
    document and never touches a subscription or a user: the feedback of
    the given id changes in [isActive] and [updatedAt] only, every other
    feedback stays as it was.  A requester who is neither an admin nor
    the author is answered with 403, an unknown id with 404, and both
    leave the store as it was.  An admin or the author is answered with
    200, after which the document is inactive, when the stored document
    satisfies the schema; a stored document that does not is not saved:
    the answer is 500 and the store stays as it was. *)
Theorem delete_is_soft_and_guarded now requester id st :
  let st' := fst (deleteFeedback now requester id st) in
  let r := snd (deleteFeedback now requester id st) in
  subscriptions st' = subscriptions st
  /\ users st' = users st
  /\ Forall2 (fun d d' =>
                d' = d
                \/ (Feedback._id d = id /\ besidesActive d' = besidesActive d
                    /\ Feedback.isActive d' = false))
       (feedbacks st) (feedbacks st')
  /\ match findFeedbackById id (feedbacks st) with
     | None => r = json 404 "Feedback not found" /\ st' = st
     | Some d =>
         if mayDelete requester d
         then if Feedback.valid d
              then r = json 200 "Feedback deleted successfully"
                   /\ option_map Feedback.isActive (findFeedbackById id (feedbacks st'))
                      = Some false
              else r = json 500 "Server error. Please try again." /\ st' = st
         else r = json 403 "Access denied" /\ st' = st
     end.
Proof.
  rewrite deleteFeedback_run.
  destruct (findFeedbackById id (feedbacks st)) as [d|] eqn:Hf.
  - pose proof (findFeedbackById_id _ _ _ Hf) as Hid.
    destruct (mayDelete requester d);
      [destruct (Feedback.valid d);
       [|cbn [fst snd]; repeat split; apply Forall2_refl; now left]|].
    + destruct (Feedback.isActive d) eqn:Ha;
        cbn [fst snd subscriptions users feedbacks with_feedbacks].
      * split; [reflexivity|]. split; [reflexivity|]. split.
        -- apply replaceFeedback_pointwise with (x := d); [now left| |].
           ++ cbn. now rewrite Hid.
           ++ right. repeat split. exact Hid.
        -- split; [reflexivity|]. rewrite <- Hid in Hf |- *.
           change (Feedback._id d) with (Feedback._id (deactivated now d)).
           now rewrite (findFeedbackById_replace_same (deactivated now d) _ d Hf).
      * split; [reflexivity|]. split; [reflexivity|]. split.
        -- apply Forall2_refl. now left.
        -- split; [reflexivity|]. rewrite Hf. cbn. now rewrite Ha.
    + cbn [fst snd]. repeat split. apply Forall2_refl. now left.
  - cbn [fst snd]. repeat split. apply Forall2_refl. now left.
Qed.

(** Deleting again changes nothing: when a deletion was answered with
    200, the same requester deleting the same feedback again, at any
    clock reading, is answered with 200 too and the store stays exactly
    as the first deletion left it. *)
Theorem delete_twice now now' requester id st :
  snd (deleteFeedback now requester id st) = json 200 "Feedback deleted successfully" ->
  deleteFeedback now' requester id (fst (deleteFeedback now requester id st))
  = (fst (deleteFeedback now requester id st),
     json 200 "Feedback deleted successfully").
Proof.
  rewrite (deleteFeedback_run now).
  destruct (findFeedbackById id (feedbacks st)) as [d|] eqn:Hf; [|discriminate].
  pose proof (findFeedbackById_id _ _ _ Hf) as Hid.
  destruct (mayDelete requester d) eqn:Hm; [|discriminate].
  destruct (Feedback.valid d) eqn:Hv; [|discriminate].
  intros _. cbn [fst]. rewrite deleteFeedback_run.
  destruct (Feedback.isActive d) eqn:Ha.
  - cbn [feedbacks with_feedbacks]. rewrite <- Hid in Hf |- *.
    change (Feedback._id d) with (Feedback._id (deactivated now d)).
    rewrite (findFeedbackById_replace_same (deactivated now d) _ d Hf).
    change (Feedback.valid (deactivated now d)) with (Feedback.valid d).
    unfold mayDelete in *. cbn [deactivated Feedback.user Feedback.isActive].
    now rewrite Hm, Hv.
  - now rewrite Hf, Hm, Hv, Ha.
Qed.

Lemma delete_twice_witness :
  deleteFeedback 9900 author 1%nat (fst (deleteFeedback 9800 author 1%nat store2))
  = (fst (deleteFeedback 9800 author 1%nat store2),
     json 200 "Feedback deleted successfully").
Proof.
  apply (delete_twice 9800 9900 author 1%nat store2). reflexivity.
Defined.

Lemma findFeedbackById_unique l d :
  NoDup (map Feedback._id l) -> In d l ->
  findFeedbackById (Feedback._id d) l = Some d.
Proof.
  unfold findFeedbackById.
  induction l as [|x r IH]; simpl; [tauto|].
  intros Hnd [->|Hin].
  - now rewrite Nat.eqb_refl.
  - inversion Hnd as [|? ? Hx Hr]; subst.
    destruct (Nat.eqb_spec (Feedback._id x) (Feedback._id d)) as [E|_].
    + exfalso. apply Hx. rewrite E. now apply in_map.
    + now apply IH.
Qed.

Lemma replaceFeedback_unique d l y :
  NoDup (map Feedback._id l) ->
  In y (replaceFeedback d l) -> Feedback._id y = Feedback._id d -> y = d.
Proof.
  induction l as [|x r IH]; simpl; [tauto|].
  intros Hnd Hin Hid. inversion Hnd as [|? ? Hx Hr]; subst.
  destruct (Nat.eqb_spec (Feedback._id x) (Feedback._id d)) as [E|Hne].
  - destruct Hin as [<-|Hin]; [reflexivity|].
    exfalso. apply Hx. rewrite E, <- Hid. now apply in_map.
  - destruct Hin as [<-|Hin]; [congruence|]. now apply IH.
Qed.

Lemma deleted_is_inactive now requester id st :
  uniqueFeedbackIds st ->
  snd (deleteFeedback now requester id st) = json 200 "Feedback deleted successfully" ->
  forall y, In y (feedbacks (fst (deleteFeedback now requester id st))) ->
            Feedback._id y = id -> Feedback.isActive y = false.
Proof.
  intros Hu. rewrite deleteFeedback_run.
  destruct (findFeedbackById id (feedbacks st)) as [d|] eqn:Hf; [|discriminate].
  pose proof (findFeedbackById_id _ _ _ Hf) as Hid.
  destruct (mayDelete requester d); [|discriminate].
  destruct (Feedback.valid d); [|discriminate].
  intros _ y. destruct (Feedback.isActive d) eqn:Ha;
    cbn [fst feedbacks with_feedbacks]; intros Hin Hy.
  - assert (E : y = deactivated now d).
    { apply (replaceFeedback_unique _ (feedbacks st)); auto.
      cbn. congruence. }
    now rewrite E.
  - assert (E : findFeedbackById (Feedback._id y) (feedbacks st) = Some y)
      by now apply findFeedbackById_unique.
    rewrite Hy, Hf in E. injection E as <-. exact Ha.
Qed.

(** Deleted feedback disappears from the listings: after a deletion that
    was answered with 200, no page of [getUserFeedback], for any user,
    and no page of [getAllFeedback], for any filter, order or paging,
    holds a feedback document of the deleted id. *)
Theorem deleted_feedback_is_not_listed now requester id st :
  uniqueFeedbackIds st ->
  snd (deleteFeedback now requester id st) = json 200 "Feedback deleted successfully" ->
  let st' := fst (deleteFeedback now requester id st) in
  (forall userId queryPage queryLimit p,
      snd (getUserFeedback userId queryPage queryLimit st') = Delivered p ->
      Forall (fun d => Feedback._id d <> id) (page_feedback p))
  /\ (forall clock query items pagination applied,
        snd (getAllFeedback clock query st')
        = mkResponse 200 (FeedbackPage items pagination applied) ->
        Forall (fun item => Feedback._id (fst item) <> id) items).
Proof.
  intros Hu Hr st'. pose proof (deleted_is_inactive now requester id st Hu Hr) as Hin.
  fold st' in Hin. split.
  - intros userId qp ql p Hp.
    pose proof (getUserFeedback_items userId qp ql st' p Hp) as Hall.
    eapply Forall_impl; [|exact Hall]. cbn. intros d [Hd [_ Ha]] E.
    rewrite (Hin d Hd E) in Ha. discriminate.
  - intros clock query items pagination applied Hp.
    pose proof (getAllFeedback_items clock query st' items pagination applied Hp)
      as Hall.
    eapply Forall_impl; [|exact Hall]. cbn. intros item [Hd [_ [Ha _]]] E.
    rewrite (Hin (fst item) Hd E) in Ha. discriminate.
Qed.

Lemma deleted_feedback_is_not_listed_witness :
  let st' := fst (deleteFeedback 9800 author 1%nat store2) in
  (forall userId queryPage queryLimit p,
      snd (getUserFeedback userId queryPage queryLimit st') = Delivered p ->
      Forall (fun d => Feedback._id d <> 1%nat) (page_feedback p))
  /\ (forall clock query items pagination applied,
        snd (getAllFeedback clock query st')
        = mkResponse 200 (FeedbackPage items pagination applied) ->
        Forall (fun item => Feedback._id (fst item) <> 1%nat) items).
Proof.
  apply (deleted_feedback_is_not_listed 9800 author 1%nat store2).
  - unfold uniqueFeedbackIds. simpl. repeat constructor; simpl; intuition discriminate.
  - reflexivity.
Defined.

(** ** Bulk updates *)

Lemma store_eta st : mkStore (subscriptions st) (users st) (feedbacks st) = st.
Proof. now destruct st. Qed.

Lemma bulkUpdateFeedback_refused now requester ids action response st :
  isAdminRole (requester_role requester) = false ->
  exists e, bulkUpdateFeedback now requester ids action response st = (st, Refused e)
            /\ In e [json 400 "Feedback IDs are required";
                     json 400 "Action is required";
                     json 403 "Access denied. Admin privileges required."].
Proof.
  intros Hr. unfold bulkUpdateFeedback, handlerOf.
  destruct ids as [[|i l]|]; try (eexists; split; [reflexivity|simpl; auto]).
  destruct (negb (JsString.truthy (orElseEmpty action)));
    [eexists; split; [reflexivity|simpl; auto]|].
  rewrite Hr. eexists; split; [reflexivity|simpl; auto].
Qed.

Lemma bulkDelete_run now requester i l st :
  isAdminRole (requester_role requester) = true ->
  bulkUpdateFeedback now requester (Some (i :: l)) (Some "delete") None st
  = (with_feedbacks (map (deactivateSelected now (i :: l))) st,
     Delivered (mkBulkResult "Feedback items deleted successfully"
                  (Z.of_nat (List.length (List.filter (selected (i :: l)) (feedbacks st))))
                  (Z.of_nat (List.length (i :: l))))).
Proof.
  intros Hr. unfold bulkUpdateFeedback, handlerOf. cbn [orElseEmpty JsString.truthy negb].
  rewrite Hr. cbn [negb String.eqb Ascii.eqb Bool.eqb].
  unfold bind, updateMany, bind, gets, modify. cbn [ret].
  f_equal. f_equal. f_equal. f_equal. f_equal.
  apply filter_ext_in. intros d _.
  destruct (selected (i :: l) d) eqn:E; [|reflexivity].
  unfold selected in E. apply andb_prop in E. destruct E as [_ Ha].
  unfold sameSettable. cbn [applySet Feedback.isActive orKeep]. now rewrite Ha.
Qed.

(** Only an admin updates in bulk: for any other requester, whatever the
    ids, the action and the metadata, [bulkUpdateFeedback] leaves the
    store as it was and answers 400 or 403; and a missing or empty list
    of ids is answered with 400 even for an admin. *)
Theorem bulk_update_admin_only now requester ids action response st :
  (isAdminRole (requester_role requester) = false ->
   exists e, bulkUpdateFeedback now requester ids action response st = (st, Refused e)
             /\ (code e = 400 \/ code e = 403))
  /\ (ids = None \/ ids = Some [] ->
      bulkUpdateFeedback now requester ids action response st
      = (st, Refused (json 400 "Feedback IDs are required"))).
Proof.
  split.
  - intros Hr.
    destruct (bulkUpdateFeedback_refused now requester ids action response st Hr)
      as [e [He Hin]].
    exists e. split; [exact He|].
    simpl in Hin. destruct Hin as [<-|[<-|[<-|[]]]]; cbn; auto.
  - intros [->| ->]; reflexivity.
Qed.

Lemma NoDup_filter_length (l : list Feedback.t) (ids : list ObjectId) :
  NoDup (map Feedback._id l) ->
  (List.length (List.filter (fun d => existsb (Nat.eqb (Feedback._id d)) ids) l)
   <= List.length ids)%nat.
Proof.
  intros Hnd.
  rewrite <- (length_map Feedback._id).
  apply NoDup_incl_length.
  - induction l as [|x r IH]; simpl; [constructor|].
    inversion Hnd as [|? ? Hx Hr]; subst.
    destruct (existsb (Nat.eqb (Feedback._id x)) ids); simpl; [|now apply IH].
    constructor; [|now apply IH].
    intros Hin. apply Hx. apply in_map_iff in Hin. destruct Hin as [d [E Hd]].
    apply filter_In in Hd. rewrite <- E. apply in_map. tauto.
  - intros i Hin. apply in_map_iff in Hin. destruct Hin as [d [<- Hd]].
    apply filter_In in Hd. destruct Hd as [_ Hd].
    apply existsb_exists in Hd. destruct Hd as [j [Hj E]].
    apply Nat.eqb_eq in E. now rewrite E.
Qed.

(** A bulk deletion by an admin deactivates the active feedback
    documents whose ids are listed and nothing else: it delivers their
    number as [updated] and the length of the list as [total]; afterwards
    no document with a listed id is active, and the documents that were
    not selected, the subscriptions and the users are as before.  When
    the stored ids are unique, [updated] is at most [total]. *)
Theorem bulk_delete_deactivates_listed now requester i l st :
  isAdminRole (requester_role requester) = true ->
  let ids := i :: l in
  let st' := fst (bulkUpdateFeedback now requester (Some ids) (Some "delete") None st) in
  let updated := Z.of_nat (List.length (List.filter (selected ids) (feedbacks st))) in
  snd (bulkUpdateFeedback now requester (Some ids) (Some "delete") None st)
  = Delivered (mkBulkResult "Feedback items deleted successfully" updated
                 (Z.of_nat (List.length ids)))
  /\ subscriptions st' = subscriptions st
  /\ users st' = users st
  /\ feedbacks st' = map (deactivateSelected now ids) (feedbacks st)
  /\ (forall d, In d (feedbacks st') -> In (Feedback._id d) ids ->
        Feedback.isActive d = false)
  /\ Forall2 (fun d d' =>
                d' = d
                \/ (selected ids d = true /\ besidesActive d' = besidesActive d))
       (feedbacks st) (feedbacks st')
  /\ (uniqueFeedbackIds st -> updated <= Z.of_nat (List.length ids)).
Proof.
  intros Hr ids st' updated. subst st' updated ids.
  rewrite (bulkDelete_run now requester i l st Hr).
  cbn [fst snd subscriptions users feedbacks with_feedbacks].
  split; [reflexivity|]. split; [reflexivity|]. split; [reflexivity|].
  split; [reflexivity|]. split; [|split].
  - intros d Hin Hid. apply in_map_iff in Hin. destruct Hin as [x [<- Hx]].
    unfold deactivateSelected in *.
    destruct (selected (i :: l) x) eqn:E; [reflexivity|].
    unfold selected in E.
    assert (Hex : existsb (Nat.eqb (Feedback._id x)) (i :: l) = true).
    { apply existsb_exists. exists (Feedback._id x). split; [exact Hid|apply Nat.eqb_refl]. }
    rewrite Hex in E. exact E.
  - induction (feedbacks st) as [|x r IH]; simpl map; constructor; [|exact IH].
    unfold deactivateSelected. destruct (selected (i :: l) x) eqn:E; [|now left].
    right. split; reflexivity.
  - intros Hu. apply Nat2Z.inj_le.
    etransitivity; [|apply (NoDup_filter_length (feedbacks st) (i :: l) Hu)].
    clear. induction (feedbacks st) as [|x r IH]; [simpl; lia|].
    cbn [List.filter]. unfold selected at 1.
    destruct (existsb (Nat.eqb (Feedback._id x)) (i :: l));
      destruct (Feedback.isActive x); cbn [andb List.length]; lia.
Qed.

Lemma bulk_delete_deactivates_listed_witness :
  let ids := [2%nat; 5%nat] in
  let st' := fst (bulkUpdateFeedback 9900 admin (Some ids) (Some "delete") None store2) in
  let updated := Z.of_nat (List.length (List.filter (selected ids) (feedbacks store2))) in
  snd (bulkUpdateFeedback 9900 admin (Some ids) (Some "delete") None store2)
  = Delivered (mkBulkResult "Feedback items deleted successfully" updated
                 (Z.of_nat (List.length ids)))
  /\ subscriptions st' = subscriptions store2
  /\ users st' = users store2
  /\ feedbacks st' = map (deactivateSelected 9900 ids) (feedbacks store2)
  /\ (forall d, In d (feedbacks st') -> In (Feedback._id d) ids ->
        Feedback.isActive d = false)
  /\ Forall2 (fun d d' =>
                d' = d
                \/ (selected ids d = true /\ besidesActive d' = besidesActive d))
       (feedbacks store2) (feedbacks st')
  /\ (uniqueFeedbackIds store2 -> updated <= Z.of_nat (List.length ids)).
Proof.
  apply (bulk_delete_deactivates_listed 9900 admin 2%nat [5%nat] store2).
  reflexivity.
Defined.

(** One deletion by an admin, document by document. *)
Lemma deactivateSelected_other now id d :
  Feedback._id d <> id -> deactivateSelected now [id] d = d.
Proof.
  intros Hne. unfold deactivateSelected, selected. cbn [existsb].
  destruct (Nat.eqb_spec (Feedback._id d) id); [contradiction|reflexivity].
Qed.

Lemma deactivateSelected_same now d :
  deactivateSelected now [Feedback._id d] d
  = if Feedback.isActive d then deactivated now d else d.
Proof.
  unfold deactivateSelected, selected. cbn [existsb].
  rewrite Nat.eqb_refl. reflexivity.
Qed.

Lemma deleteOne_feedbacks now id : forall l,
  NoDup (map Feedback._id l) ->
  match findFeedbackById id l with
  | Some d => if Feedback.isActive d
              then replaceFeedback (deactivated now d) l
              else l
  | None => l
  end = map (deactivateSelected now [id]) l.
Proof.
  unfold findFeedbackById.
  induction l as [|x r IH]; intros Hu; [reflexivity|].
  inversion Hu as [|? ? Hx Hnd]; subst. specialize (IH Hnd).
  cbn [find map].
  destruct (Nat.eqb_spec (Feedback._id x) id) as [Hid|Hne].
  - assert (Hr' : map (deactivateSelected now [id]) r = r).
    { rewrite <- (map_id r) at 2. apply map_ext_in. intros d Hd.
      apply deactivateSelected_other. intros E. apply Hx.
      rewrite Hid, <- E. now apply in_map. }
    rewrite Hr'. subst id. rewrite deactivateSelected_same.
    destruct (Feedback.isActive x); [|reflexivity].
    cbn [replaceFeedback deactivated Feedback._id]. now rewrite Nat.eqb_refl.
  - rewrite (deactivateSelected_other now id x Hne). rewrite <- IH.
    destruct (find _ r) as [d|] eqn:Hf; [|reflexivity].
    destruct (Feedback.isActive d); [|reflexivity].
    assert (Hd : Feedback._id d = id)
      by (apply find_some in Hf; destruct Hf as [_ Hf]; now apply Nat.eqb_eq in Hf).
    cbn [replaceFeedback deactivated Feedback._id].
    rewrite Hd. destruct (Nat.eqb_spec (Feedback._id x) id); [contradiction|].
    reflexivity.
Qed.

Lemma deleteOne_as_map now requester id st :
  isAdminRole (requester_role requester) = true ->
  uniqueFeedbackIds st ->
  validFeedbacks st ->
  deleteOne now requester st id
  = with_feedbacks (map (deactivateSelected now [id])) st.
Proof.
  intros Hr Hu Hv. unfold deleteOne. rewrite deleteFeedback_run.
  unfold mayDelete. rewrite Hr. cbn [orb].
  pose proof (deleteOne_feedbacks now id (feedbacks st) Hu) as E.
  unfold with_feedbacks.
  destruct (findFeedbackById id (feedbacks st)) as [d|] eqn:Hf.
  - assert (Hd : Feedback.valid d = true).
    { unfold findFeedbackById in Hf. apply find_some in Hf.
      unfold validFeedbacks in Hv. rewrite Forall_forall in Hv. now apply Hv. }
    rewrite Hd. destruct (Feedback.isActive d); cbn [fst];
      rewrite <- E; try reflexivity; now rewrite store_eta.
  - cbn [fst]. rewrite <- E. now rewrite store_eta.
Qed.

Lemma deactivateSelected_valid now ids st :
  validFeedbacks st ->
  validFeedbacks (with_feedbacks (map (deactivateSelected now ids)) st).
Proof.
  unfold validFeedbacks. cbn [feedbacks with_feedbacks]. intros H.
  apply Forall_map. eapply Forall_impl; [|exact H]. cbn. intros d Hd.
  unfold deactivateSelected. now destruct (selected ids d).
Qed.

Lemma deactivateSelected_ids now ids l :
  map Feedback._id (map (deactivateSelected now ids) l) = map Feedback._id l.
Proof.
  rewrite map_map. apply map_ext. intros d. unfold deactivateSelected.
  now destruct (selected ids d).
Qed.

Lemma deactivateSelected_cons now id ids d :
  deactivateSelected now ids (deactivateSelected now [id] d)
  = deactivateSelected now (id :: ids) d.
Proof.
  unfold deactivateSelected, selected. cbn [existsb]. rewrite orb_false_r.
  destruct (Nat.eqb (Feedback._id d) id) eqn:E, (Feedback.isActive d) eqn:Ha;
    cbn [andb orb deactivated Feedback.isActive Feedback._id];
    rewrite ?Ha, ?andb_false_r; try reflexivity.
Qed.

Lemma fold_deleteOne now requester ids : forall st,
  isAdminRole (requester_role requester) = true ->
  uniqueFeedbackIds st ->
  validFeedbacks st ->
  fold_left (deleteOne now requester) ids st
  = with_feedbacks (map (deactivateSelected now ids)) st.
Proof.
  induction ids as [|id ids IH]; intros st Hr Hu Hv.
  - cbn [fold_left]. unfold with_feedbacks.
    rewrite <- (store_eta st) at 1. f_equal.
    rewrite <- (map_id (feedbacks st)) at 1. apply map_ext. intros d.
    unfold deactivateSelected, selected. reflexivity.
  - cbn [fold_left]. rewrite (deleteOne_as_map now requester id st Hr Hu Hv).
    rewrite IH; [|exact Hr| |].
    + unfold with_feedbacks. cbn [subscriptions users feedbacks]. f_equal.
      rewrite map_map. apply map_ext. intros d. apply deactivateSelected_cons.
    + unfold uniqueFeedbackIds. cbn [feedbacks with_feedbacks].
      now rewrite deactivateSelected_ids.
    + now apply deactivateSelected_valid.
Qed.

(** Bulk deletion is repeated deletion: for an admin, with unique
    stored ids and every stored feedback document satisfying the schema
    (the single deletion saves with validation, the bulk update does
    not validate), [bulkUpdateFeedback] with the action "delete" leaves
    the store exactly as deleting the listed ids one by one with
    [deleteFeedback], at the same clock reading, leaves it (a repeated
    or unknown id makes no difference). *)
Theorem bulk_delete_is_repeated_delete now requester ids st :
  isAdminRole (requester_role requester) = true ->
  uniqueFeedbackIds st ->
  validFeedbacks st ->
  bulkDelete now requester ids st = fold_left (deleteOne now requester) ids st.
Proof.
  intros Hr Hu Hv. rewrite (fold_deleteOne now requester ids st Hr Hu Hv).
  unfold bulkDelete. destruct ids as [|i l].
  - unfold bulkUpdateFeedback, handlerOf, respond. cbn [fst].
    unfold with_feedbacks. rewrite <- (store_eta st) at 1. f_equal.
    rewrite <- (map_id (feedbacks st)) at 1. apply map_ext. intros d.
    unfold deactivateSelected, selected. reflexivity.
  - now rewrite (bulkDelete_run now requester i l st Hr).
Qed.

Lemma bulk_delete_is_repeated_delete_witness :
  bulkDelete 9900 admin [2%nat; 5%nat; 2%nat] store2
  = fold_left (deleteOne 9900 admin) [2%nat; 5%nat; 2%nat] store2.
Proof.
  apply (bulk_delete_is_repeated_delete 9900 admin [2%nat; 5%nat; 2%nat] store2).
  - reflexivity.
  - unfold uniqueFeedbackIds. simpl. repeat constructor; simpl; intuition discriminate.
  - unfold validFeedbacks. simpl. repeat constructor.
Defined.

(** What a bulk update does to the store: nothing, or one [$set] on the
    selected documents. *)
Lemma bulkUpdateFeedback_store now requester ids action response st :
  fst (bulkUpdateFeedback now requester ids action response st) = st
  \/ exists l u,
       ids = Some l
       /\ isAdminRole (requester_role requester) = true
       /\ fst (bulkUpdateFeedback now requester ids action response st)
          = with_feedbacks
              (map (fun d => if selected l d then applySet now u d else d)) st.
Proof.
  unfold bulkUpdateFeedback, handlerOf.
  destruct ids as [[|i l]|]; [now left| |now left].
  destruct (JsString.truthy (orElseEmpty action)); cbn [negb]; [|now left].
  destruct (isAdminRole (requester_role requester)) eqn:Hr; cbn [negb]; [|now left].
  unfold bind, updateMany, bind, gets, modify, respond, ret.
  destruct (String.eqb (orElseEmpty action) "delete");
    [right; do 2 eexists; split; [reflexivity|split; [reflexivity|reflexivity]]|].
  destruct (String.eqb (orElseEmpty action) "mark_reviewed");
    [right; do 2 eexists; split; [reflexivity|split; [reflexivity|reflexivity]]|].
  destruct (String.eqb (orElseEmpty action) "mark_addressed");
    [right; do 2 eexists; split; [reflexivity|split; [reflexivity|reflexivity]]|].
  now left.
Qed.

(** A bulk update is a triage operation.  Whoever asks and whatever the
    ids, the action and the metadata, [bulkUpdateFeedback] neither adds
    nor removes a document and leaves subscriptions and users alone; a
    document that is inactive or whose id is not listed stays exactly as
    it was, and a document that is changed (by an admin only) keeps its
    id, author, text, sentiment, confidence, priority, category and
    creation time. *)
Theorem bulk_update_frame now requester ids action response st :
  let st' := fst (bulkUpdateFeedback now requester ids action response st) in
  subscriptions st' = subscriptions st
  /\ users st' = users st
  /\ Forall2 (fun d d' =>
                d' = d
                \/ (isAdminRole (requester_role requester) = true
                    /\ Feedback.isActive d = true
                    /\ (exists l, ids = Some l /\ In (Feedback._id d) l)
                    /\ submittedContent d' = submittedContent d))
       (feedbacks st) (feedbacks st').
Proof.
  intros st'. subst st'.
  destruct (bulkUpdateFeedback_store now requester ids action response st)
    as [->|[l [u [-> [Hr ->]]]]].
  - split; [reflexivity|]. split; [reflexivity|].
    apply Forall2_refl. now left.
  - cbn [with_feedbacks subscriptions users feedbacks].
    split; [reflexivity|]. split; [reflexivity|].
    induction (feedbacks st) as [|x r IH]; cbn [map]; constructor; [|exact IH].
    destruct (selected l x) eqn:E; [|now left].
    right. unfold selected in E. apply andb_prop in E. destruct E as [Hin Ha].
    split; [exact Hr|]. split; [exact Ha|]. split; [|reflexivity].
    exists l. split; [reflexivity|].
    apply existsb_exists in Hin. destruct Hin as [j [Hj Ej]].
    apply Nat.eqb_eq in Ej. now rewrite Ej.
Qed.

(** Marking in bulk.  When an admin marks a non-empty list of ids as
    reviewed, every active document with a listed id is afterwards
    reviewed, by that admin and at the time of the request; marking as
    addressed does the same for [addressed], [addressedBy] and
    [addressedAt].  The marked documents stay active, and every other
    document is as it was. *)
Theorem bulk_mark_records_the_admin now requester i l response st :
  isAdminRole (requester_role requester) = true ->
  let ids := i :: l in
  let who := Some (requester_userId requester) in
  let reviewed :=
    feedbacks (fst (bulkUpdateFeedback now requester (Some ids) (Some "mark_reviewed")
                      response st)) in
  let addressed :=
    feedbacks (fst (bulkUpdateFeedback now requester (Some ids) (Some "mark_addressed")
                      response st)) in
  Forall2 (fun d d' =>
             if selected ids d
             then Feedback.reviewed d' = true /\ Feedback.reviewedBy d' = who
                  /\ Feedback.reviewedAt d' = Some now /\ Feedback.isActive d' = true
             else d' = d)
    (feedbacks st) reviewed
  /\ Forall2 (fun d d' =>
                if selected ids d
                then Feedback.addressed d' = true /\ Feedback.addressedBy d' = who
                     /\ Feedback.addressedAt d' = Some now /\ Feedback.isActive d' = true
                else d' = d)
       (feedbacks st) addressed.
Proof.
  intros Hr ids who reviewed addressed. subst reviewed addressed who ids.
  unfold bulkUpdateFeedback, handlerOf.
  cbn [orElseEmpty JsString.truthy negb]. rewrite Hr.
  cbn [negb String.eqb Ascii.eqb Bool.eqb].
  unfold bind, updateMany, bind, gets, modify, ret.
  cbn [fst feedbacks with_feedbacks].
  split.
  - induction (feedbacks st) as [|x r IH]; cbn [map]; constructor; [|exact IH].
    destruct (selected (i :: l) x) eqn:E; [|reflexivity].
    unfold selected in E. apply andb_prop in E. destruct E as [_ Ha].
    cbn. now rewrite Ha.
  - induction (feedbacks st) as [|x r IH]; cbn [map]; constructor; [|exact IH].
    destruct (selected (i :: l) x) eqn:E; [|reflexivity].
    unfold selected in E. apply andb_prop in E. destruct E as [_ Ha].
    cbn. now rewrite Ha.
Qed.

Lemma bulk_mark_records_the_admin_witness :
  Forall2 (fun d d' =>
             if selected [2%nat] d
             then Feedback.reviewed d' = true /\ Feedback.reviewedBy d' = Some 3%nat
                  /\ Feedback.reviewedAt d' = Some 9900 /\ Feedback.isActive d' = true
             else d' = d)
    (feedbacks store2)
    (feedbacks (fst (bulkUpdateFeedback 9900 admin (Some [2%nat]) (Some "mark_reviewed")
                       None store2)))
  /\ Forall2 (fun d d' =>
                if selected [2%nat] d
                then Feedback.addressed d' = true /\ Feedback.addressedBy d' = Some 3%nat
                     /\ Feedback.addressedAt d' = Some 9900 /\ Feedback.isActive d' = true
                else d' = d)
       (feedbacks store2)
       (feedbacks (fst (bulkUpdateFeedback 9900 admin (Some [2%nat]) (Some "mark_addressed")
                          None store2))).
Proof.
  apply (bulk_mark_records_the_admin 9900 admin 2%nat [] None store2).
  reflexivity.
Defined.

(** ** Paging through *)








(** ** Order ids *)

Lemma hyphenFree_digits u : hyphenFree (NilEmpty.string_of_uint u) = true.
Proof.
  induction u as [|u IH|u IH|u IH|u IH|u IH|u IH|u IH|u IH|u IH|u IH];
    [reflexivity|..]; simpl; exact IH.
Qed.

Lemma hyphenFree_uint u : hyphenFree (NilZero.string_of_uint u) = true.
Proof. destruct u; try reflexivity; apply hyphenFree_digits. Qed.

Lemma hyphenFree_ofZ z : 0 <= z -> hyphenFree (JsString.ofZ z) = true.
Proof.
  intros Hz. unfold JsString.ofZ. destruct z as [|p|p]; [reflexivity| |lia].
  cbn [Z.to_int NilZero.string_of_int]. apply hyphenFree_uint.
Qed.

Lemma split_at_hyphen : forall s s' t t',
  hyphenFree s = true -> hyphenFree s' = true ->
  s ++ String "-" t = s' ++ String "-" t' -> s = s' /\ t = t'.
Proof.
  induction s as [|c s IH]; intros [|c' s'] t t' Hs Hs' E; cbn in *.
  - injection E as E. now split.
  - injection E as Ec _. subst c'. discriminate.
  - injection E as Ec _. subst c. discriminate.
  - injection E as Ec E. subst c'.
    apply andb_prop in Hs. apply andb_prop in Hs'.
    destruct (IH s' t t') as [-> ->]; tauto.
Qed.

(** Order ids identify the time and the random number.  Two payment
    initiations that answer 200, at clock readings that are not before
    the epoch, return the same order id exactly when they happened in the
    same millisecond with the same random number: nothing else in the
    request or the store makes a difference, and nothing in the handler
    keeps two such initiations from sharing an order id. *)
Theorem order_id_identifies_time_and_random
  env now random1000 req st pd env' now' random1000' req' st' pd' :
  0 <= now -> 0 <= now' ->
  snd (initializePayment env now random1000 req st)
  = mkResponse 200 (PaymentInit pd) ->
  snd (initializePayment env' now' random1000' req' st')
  = mkResponse 200 (PaymentInit pd') ->
  PaymentData.order_id pd = PaymentData.order_id pd'
  <-> now = now' /\ random1000 = random1000'.
Proof.
  intros Hn Hn' H H'.
  apply initializePayment_ok in H. destruct H as [_ [-> _]].
  apply initializePayment_ok in H'. destruct H' as [_ [-> _]].
  split.
  - intros E. cbn [append] in E. injection E as E.
    apply split_at_hyphen in E; try now apply hyphenFree_ofZ.
    destruct E as [Ea Eb]. split; now apply ofZ_inj.
  - now intros [-> ->].
Qed.

Lemma order_id_identifies_time_and_random_witness :
  PaymentData.order_id paymentData1 = PaymentData.order_id paymentData2
  <-> 1000 = 2000 /\ 42 = 42.
Proof.
  apply (order_id_identifies_time_and_random
           env0 1000 42 aliceRequest emptyStore paymentData1
           env0 2000 42 aliceRequest emptyStore paymentData2).
  - lia.
  - lia.
  - vm_compute. reflexivity.
  - vm_compute. reflexivity.
Defined.

(** ** Pages that do not exist *)

(** A negative page number is a server error.  When the page parameter
    parses to a negative number and the limit is positive,
    [getUserFeedback] answers 500, delivers nothing and leaves the store
    as it was: the handler does not check the parameter, and the
    database rejects the negative skip. *)
Theorem user_feedback_negative_page userId queryPage queryLimit st :
  0 < parseIntOr queryLimit 5 ->
  parseIntOr queryPage 1 < 0 ->
  getUserFeedback userId queryPage queryLimit st
  = (st, Refused (json 500 "Server error. Please try again.")).
Proof.
  intros Hl Hp. unfold getUserFeedback, handlerOf, bind, gets, skipLimit.
  destruct (Z.ltb_spec ((parseIntOr queryPage 1 - 1) * parseIntOr queryLimit 5) 0)
    as [_|Hge]; [reflexivity|nia].
Qed.

Lemma user_feedback_negative_page_witness :
  getUserFeedback 7%nat (Some "-2") None store2
  = (store2, Refused (json 500 "Server error. Please try again.")).
Proof.
  apply (user_feedback_negative_page 7%nat (Some "-2") None store2).
  - reflexivity.
  - reflexivity.
Defined.

(** ** The reason of a rejection *)

(** A rejection records its reason.  When [rejectSubscription] is
    called for a pending or paid subscription whose stored document
    satisfies the schema, it answers 200 with the stored document, whose
    status is "failed" and whose user is looked up by [userId]; a
    non-empty reason is stored as [rejectionReason], and a missing or
    empty reason leaves the earlier [rejectionReason], if any, in
    place. *)
Theorem rejection_records_reason now id reason st sub :
  findSubscriptionById id (subscriptions st) = Some sub ->
  open (Subscription.status sub) ->
  Subscription.valid sub = true ->
  let st' := fst (rejectSubscription now id reason st) in
  exists d,
    snd (rejectSubscription now id reason st)
    = mkResponse 200
        (SubscriptionResult "Subscription rejected successfully"
           (Some (d, findUserById (Subscription.userId sub) (users st))))
    /\ findSubscriptionById id (subscriptions st') = Some d
    /\ Subscription.status d = "failed"
    /\ Subscription.rejectionReason d
       = (if JsString.truthy (orElseEmpty reason) then reason
          else Subscription.rejectionReason sub)
    /\ Subscription.updatedAt d = now.
Proof.
  intros Hf Ho Hv st'. subst st'.
  rewrite (reject_open now id reason st sub Hf Ho Hv). cbn [fst snd].
  cbn [subscriptions with_subscriptions users].
  pose proof (findSubscriptionById_id _ _ _ Hf) as Hid.
  assert (Hd : findSubscriptionById id
                 (replaceSubscription (rejected now reason sub) (subscriptions st))
               = Some (rejected now reason sub)).
  { rewrite <- Hid in Hf |- *.
    rewrite <- (rejected_id now reason sub) in Hf |- * at 1.
    now apply findSubscriptionById_replace_same with (x := sub). }
  exists (rejected now reason sub). rewrite Hd. cbn [option_map].
  unfold populateUserId. cbn [users].
  split; [|split; [reflexivity|split; [apply rejected_status|split]]].
  - do 4 f_equal. unfold rejected.
    destruct reason as [r|]; [destruct (JsString.truthy r)|]; reflexivity.
  - unfold rejected, orElseEmpty.
    destruct reason as [r|]; [destruct (JsString.truthy r) eqn:E|]; cbn; try reflexivity.
    now rewrite E.
  - unfold rejected.
    destruct reason as [r|]; [destruct (JsString.truthy r)|]; reflexivity.
Qed.

Lemma rejection_records_reason_witness :
  let st' := fst (rejectSubscription 5000 1%nat (Some "late") store0) in
  exists d,
    snd (rejectSubscription 5000 1%nat (Some "late") store0)
    = mkResponse 200
        (SubscriptionResult "Subscription rejected successfully"
           (Some (d, findUserById (Subscription.userId order0) (users store0))))
    /\ findSubscriptionById 1%nat (subscriptions st') = Some d
    /\ Subscription.status d = "failed"
    /\ Subscription.rejectionReason d
       = (if JsString.truthy (orElseEmpty (Some "late")) then Some "late"
          else Subscription.rejectionReason order0)
    /\ Subscription.updatedAt d = 5000.
Proof.
  apply (rejection_records_reason 5000 1%nat (Some "late") store0 order0).
  - reflexivity.
  - left. reflexivity.
  - reflexivity.
Defined.
